(** * Game store server: catalog, reviews, rooms and player presence

    A shallow embedding of [server/game_store_server.py] (with the version
    prompt of [developer/developer_client.py]), of the credential server
    [server/db_server_extended.py] it talks to, and of the two copies of
    [lpfp.py] that come with the games.  Every handler of the server
    becomes a function from the request and the server state to a response
    and a new state; the JSON documents and the module-level dictionaries of
    the server are the fields of [server].

    Conventions of the embedding:
    - a JSON request is the record [request], one optional field per key the
      handlers read with [data.get], each with the type the clients send;
    - requests are handled one at a time (each handler runs under the locks
      of the source), and [save_json_file] and [shutil.rmtree] succeed;
    - the clock, [time.strftime], the answers of the credential server and
      what happens to the process of a game server are arguments of the
      handlers ([environment]);
    - a string is a sequence of characters with codes below 256;
    - a game name and a version each name one directory level below
      [uploaded_games], and a directory is the map from the relative paths
      of its files to their contents;
    - a game bundle is described by what [zipfile] sees in it (members with
      their archive name, content and compression method, and the archive
      comment): two bundles that differ there differ as byte strings;
    - averages are exact rationals where the source has floats. *)

From Stdlib Require Import Ascii String QArith Qabs Qround Lia Sorted.
From stdpp Require Import gmap strings list fin_maps pretty.

Local Open Scope string_scope.

(** ** Python values *)

(** Truth value of a string read with [data.get]: [None] and [""] are false. *)
Definition truthy (o : option string) : bool :=
  match o with
  | Some s => negb (String.eqb s "")
  | None => false
  end.

(** [data.get(key, default)]. *)
Definition get_default {A} (o : option A) (d : A) : A :=
  match o with Some x => x | None => d end.

(** [str.isspace] on one character (codes below 256). *)
Definition py_isspace (a : ascii) : bool :=
  let n := nat_of_ascii a in
  ((9 <=? n)%nat && (n <=? 13)%nat) || ((28 <=? n)%nat && (n <=? 32)%nat)
  || (n =? 133)%nat || (n =? 160)%nat.

Fixpoint lstrip (s : string) : string :=
  match s with
  | String a s' => if py_isspace a then lstrip s' else s
  | EmptyString => EmptyString
  end.

Fixpoint rstrip (s : string) : string :=
  match s with
  | String a s' =>
      match rstrip s' with
      | EmptyString => if py_isspace a then EmptyString else String a EmptyString
      | r => String a r
      end
  | EmptyString => EmptyString
  end.

(** [s.strip()]. *)
Definition strip (s : string) : string := rstrip (lstrip s).

(** [needle in s] on strings. *)
Fixpoint contains (needle s : string) : bool :=
  String.prefix needle s ||
  match s with
  | String _ s' => contains needle s'
  | EmptyString => false
  end.

(** [sum(l)] on integers. *)
Definition sum (l : list Z) : Z := foldr Z.add 0%Z l.

(** ** Bundles and the upload directory *)

Inductive compress_type := ZIP_STORED | ZIP_DEFLATED.

Record zip_member := {
  arcname : string;
  content : string;
  compress_method : compress_type;
}.

Record zip_archive := {
  members : list zip_member;
  zip_comment : string;
}.

(** The [game_files] field of a request, by what the [try] block of
    [handle_upload_game] does with it: [base64.b64decode] raises, or the
    decoded bytes are written to [game.zip] and [zipfile.ZipFile] raises, or
    the archive is extracted. *)
Inductive payload :=
  | NotBase64 (err : string)
  | BadZipFile (raw err : string)
  | Archive (a : zip_archive).

(** A directory of extracted files: relative path to content. *)
Abbreviation directory := (gmap string string).

(** [zip_ref.extractall(game_dir)]: the members are written in order, a later
    member replaces an earlier one of the same name. *)
Definition extractall (a : zip_archive) (dir : directory) : directory :=
  foldl (λ d m, <[arcname m := content m]> d) dir (members a).

(** The archive [handle_download_game] builds from a directory: one member
    per file found by [os.walk], written with [zipfile.ZIP_DEFLATED]. *)
Definition pack (dir : directory) : zip_archive :=
  {| members := (λ f, {| arcname := f.1; content := f.2;
                         compress_method := ZIP_DEFLATED |}) <$> map_to_list dir;
     zip_comment := "" |}.

(** ** The catalog *)

Record config := {
  start_command : option string;
  server_command : option string;
  compile_command : option string;
}.

Definition empty_config : config :=
  {| start_command := None; server_command := None; compile_command := None |}.

Record game_info := {
  game_id : string;
  game_name : string;
  developer : string;
  game_type : string;
  description : string;
  max_players : Z;
  version : string;
  created_at : Z;
  updated_at : Z;
  status : string;
  game_config : config;
  download_count : nat;
  average_rating : Q;
  review_count : nat;
  update_notes : option string;
}.

Record review := {
  player : string;
  rating : Z;
  review_comment : string;
  timestamp : string;
}.

(** ** Rooms *)

Inductive room_status := waiting | ready_check | playing | finished.

Global Instance room_status_eq_dec : EqDecision room_status.
Proof. solve_decision. Defined.

(** The key [game_server_pid] of a room: missing, [None], or a process id. *)
Inductive pid_slot := PidMissing | PidNone | Pid (p : Z).

Record room := {
  room_id : string;
  room_game_name : string;
  room_version : string;
  host : string;
  players : list string;
  ready_players : list string;
  room_max_players : Z;
  room_status_of : room_status;
  room_created_at : Z;
  game_server_port : option Z;
  game_server_pid : pid_slot;
  (** the [Popen] object of the game server, by its process id *)
  game_server_process : option Z;
}.

(** A Python [dict] whose iteration order matters: keys in insertion order. *)
Section dict.
Context {V : Type}.

Fixpoint dict_get (k : string) (d : list (string * V)) : option V :=
  match d with
  | (k', v) :: d' => if decide (k = k') then Some v else dict_get k d'
  | [] => None
  end.

Fixpoint dict_set (k : string) (v : V) (d : list (string * V)) : list (string * V) :=
  match d with
  | (k', v') :: d' =>
      if decide (k = k') then (k, v) :: d' else (k', v') :: dict_set k v d'
  | [] => [(k, v)]
  end.

Definition dict_del (k : string) (d : list (string * V)) : list (string * V) :=
  filter (λ e, e.1 ≠ k) d.
End dict.

(** ** Server state *)

(** [os.killpg(os.getpgid(pid), signal.SIGTERM)] and
    [os.kill(pid, signal.SIGTERM)]. *)
Inductive signal := Killpg (pid : Z) | Kill (pid : Z).

Record server := {
  (** [game_store_data/games_metadata.json] *)
  games_metadata : gmap string game_info;
  (** [uploaded_games/<game_name>/<version>/] *)
  uploaded_games : gmap string (gmap string directory);
  (** [game_store_data/reviews.json] *)
  reviews : gmap string (list review);
  (** [players.json]: the [downloaded_games] of each player *)
  players_file : gmap string (list string);
  rooms : list (string * room);
  room_id_counter : nat;
  (** [online_players]: player name to connection *)
  online_players : gmap string nat;
  (** the [SIGTERM] signals sent so far, latest first *)
  terminated : list signal;
}.

Definition initial_server : server :=
  {| games_metadata := ∅; uploaded_games := ∅; reviews := ∅; players_file := ∅;
     rooms := []; room_id_counter := 1; online_players := ∅; terminated := [] |}.

Definition set_games_metadata (g : gmap string game_info) (s : server) : server :=
  {| games_metadata := g; uploaded_games := uploaded_games s; reviews := reviews s;
     players_file := players_file s; rooms := rooms s;
     room_id_counter := room_id_counter s; online_players := online_players s;
     terminated := terminated s |}.

Definition set_uploaded_games (u : gmap string (gmap string directory)) (s : server) : server :=
  {| games_metadata := games_metadata s; uploaded_games := u; reviews := reviews s;
     players_file := players_file s; rooms := rooms s;
     room_id_counter := room_id_counter s; online_players := online_players s;
     terminated := terminated s |}.

Definition set_reviews (r : gmap string (list review)) (s : server) : server :=
  {| games_metadata := games_metadata s; uploaded_games := uploaded_games s; reviews := r;
     players_file := players_file s; rooms := rooms s;
     room_id_counter := room_id_counter s; online_players := online_players s;
     terminated := terminated s |}.

Definition set_players_file (p : gmap string (list string)) (s : server) : server :=
  {| games_metadata := games_metadata s; uploaded_games := uploaded_games s;
     reviews := reviews s; players_file := p; rooms := rooms s;
     room_id_counter := room_id_counter s; online_players := online_players s;
     terminated := terminated s |}.

Definition set_rooms (r : list (string * room)) (s : server) : server :=
  {| games_metadata := games_metadata s; uploaded_games := uploaded_games s;
     reviews := reviews s; players_file := players_file s; rooms := r;
     room_id_counter := room_id_counter s; online_players := online_players s;
     terminated := terminated s |}.

Definition set_room_id_counter (n : nat) (s : server) : server :=
  {| games_metadata := games_metadata s; uploaded_games := uploaded_games s;
     reviews := reviews s; players_file := players_file s; rooms := rooms s;
     room_id_counter := n; online_players := online_players s;
     terminated := terminated s |}.

Definition set_online_players (o : gmap string nat) (s : server) : server :=
  {| games_metadata := games_metadata s; uploaded_games := uploaded_games s;
     reviews := reviews s; players_file := players_file s; rooms := rooms s;
     room_id_counter := room_id_counter s; online_players := o;
     terminated := terminated s |}.

Definition set_terminated (t : list signal) (s : server) : server :=
  {| games_metadata := games_metadata s; uploaded_games := uploaded_games s;
     reviews := reviews s; players_file := players_file s; rooms := rooms s;
     room_id_counter := room_id_counter s; online_players := online_players s;
     terminated := t |}.

(** ** Requests and responses *)

(** The [data] object of a request frame. *)
Record request := {
  req_game_name : option string;
  req_game_type : option string;
  req_description : option string;
  req_max_players : option Z;
  req_version : option string;
  req_game_files : option payload;
  req_config : option config;
  req_update_notes : option string;
  req_room_id : option string;
  req_rating : option Z;
  req_comment : option string;
  req_username : option string;
  req_password : option string;
}.

Definition empty_request : request :=
  {| req_game_name := None; req_game_type := None; req_description := None;
     req_max_players := None; req_version := None; req_game_files := None;
     req_config := None; req_update_notes := None; req_room_id := None;
     req_rating := None; req_comment := None; req_username := None;
     req_password := None |}.

Record removed_room := {
  removed_room_id : string;
  removed_players : list string;
  removed_status : room_status;
}.

Record game_summary := {
  sum_game_name : string;
  sum_developer : string;
  sum_game_type : string;
  sum_description : string;
  sum_max_players : Z;
  sum_version : string;
  sum_average_rating : Q;
  sum_review_count : nat;
  sum_download_count : nat;
}.

Record room_summary := {
  rs_room_id : string;
  rs_game_name : string;
  rs_version : string;
  rs_host : string;
  rs_players : list string;
  rs_current_players : nat;
  rs_max_players : Z;
  rs_status : room_status;
}.

Record room_data := {
  rd_room_id : string;
  rd_game_name : string;
  rd_version : string;
  rd_host : string;
  rd_players : list string;
  rd_current_players : nat;
  rd_max_players : Z;
  rd_status : room_status;
  rd_is_host : bool;
  (** [ready_players], [waiting_for] and [is_ready], during a ready check *)
  rd_ready_check : option (list string * list string * bool);
  (** [config] and [server_port], while playing *)
  rd_config : option config;
  rd_server_port : option (option Z);
}.

Inductive player_status := status_playing | status_in_room | status_idle.

Record player_info := {
  pi_username : string;
  pi_status : player_status;
  (** [room_id], [game_name] and [is_host], for a player in a room *)
  pi_room : option (string * string * bool);
}.

(** The [data] object of a success response, one shape per handler. *)
Inductive reply :=
  | UploadReply (game_id game_name version : string)
  | UpdateReply (game_name new_version : string) (removed_rooms : list removed_room)
  | RemoveReply (game_name : string) (removed_rooms : list removed_room)
  | DownloadReply (game_name version : string) (game_files : zip_archive) (cfg : config)
  | ReviewsReply (game_name : string) (game_reviews : list review)
      (total_reviews : nat) (average : Q)
  | GamesReply (games : list game_summary)
  | GameInfoReply (info : game_info) (last_reviews : list review)
  | RoomCreatedReply (room_id game_name version : string) (max_players : Z)
  | RoomsReply (room_list : list room_summary)
  | JoinReply (room_id game_name version : string) (players : list string)
  | DisbandedReply (room_id : string) (remaining_players : list string)
  | RoomDeletedReply (room_id : string)
  | LeftReply (room_id : string) (remaining_players : nat)
  | StartReply (room_id game_name version : string) (players : list string)
      (cfg : config) (server_port : option Z) (all_ready : bool)
  | ReadyReply (room_id : string) (ready_players : list string)
      (total_players : nat) (waiting_for : list string)
  | RoomIdReply (room_id : string)
  | ResetReply (room_id : string) (status : room_status) (players : list string)
  | RoomStatusReply (room_data : room_data)
  | OnlinePlayersReply (player_list : list player_info) (total_online : nat)
  | NameReply (name : string).

Inductive response :=
  | Error (message : string)
  | Success (message : option string) (data : option reply).

Definition is_success (r : response) : bool :=
  match r with Success _ _ => true | Error _ => false end.

(** ** Developer handlers *)

(** [game_dir] for a game and a version, and whether it exists. *)
Definition game_dir (game_name version : string) (s : server) : option directory :=
  uploaded_games s !! game_name ≫= (.!! version).

(** Replace the content of [uploaded_games/<game_name>/<version>/]
    (creating the directory when it is missing). *)
Definition write_game_dir (game_name version : string) (dir : directory)
    (s : server) : server :=
  set_uploaded_games
    (<[game_name := <[version := dir]> (default ∅ (uploaded_games s !! game_name))]>
       (uploaded_games s)) s.

(** The [try] block shared by [handle_upload_game] and [handle_update_game]:
    decode, write [game.zip], extract, remove [game.zip].  Returns the new
    content of the directory and the text of the exception, if one was
    raised. *)
Definition save_game_files (p : payload) (dir : directory) : directory * option string :=
  match p with
  | NotBase64 err => (dir, Some err)
  | BadZipFile raw err => (<["game.zip" := raw]> dir, Some err)
  | Archive a => (delete "game.zip" (extractall a dir), None)
  end.

Definition handle_upload_game (data : request) (developer_name : string) (now : Z)
    (s : server) : response * server :=
  let description := get_default (req_description data) "" in
  let max_players := get_default (req_max_players data) 2%Z in
  let version := get_default (req_version data) "1.0.0" in
  let config := get_default (req_config data) empty_config in
  match req_game_name data, req_game_type data, req_game_files data with
  | Some game_name, Some game_type, Some game_files =>
    if String.eqb game_name "" || String.eqb game_type "" then
      (Error "Missing required fields", s)
    else
    let start_command := strip (get_default (start_command config) "") in
    if String.eqb start_command "" then
      (Error "start_command is required in config", s)
    else if negb (contains "{host}" start_command)
            || negb (contains "{port}" start_command) then
      (Error "start_command must include {host} and {port} placeholders", s)
    else
    match games_metadata s !! game_name with
    | Some _ => (Error "Game already exists. Use update instead.", s)
    | None =>
      let old_dir := default ∅ (game_dir game_name version s) in
      let '(new_dir, exn) := save_game_files game_files old_dir in
      let s := write_game_dir game_name version new_dir s in
      match exn with
      | Some e => (Error ("Failed to save game files: " +:+ e), s)
      | None =>
        let game_id := game_name +:+ "_" +:+ pretty now in
        let info :=
          {| game_id := game_id; game_name := game_name;
             developer := developer_name; game_type := game_type;
             description := description; max_players := max_players;
             version := version; created_at := now; updated_at := now;
             status := "active"; game_config := config; download_count := 0;
             average_rating := 0; review_count := 0; update_notes := None |} in
        (Success (Some "Game uploaded successfully")
                 (Some (UploadReply game_id game_name version)),
         set_games_metadata (<[game_name := info]> (games_metadata s)) s)
      end
    end
  | _, _, _ => (Error "Missing required fields", s)
  end.

(** [if "game_server_pid" in room: try: os.killpg(...)]: with the key missing
    nothing is tried, with [None] under the key [os.getpgid] raises and the
    exception is swallowed. *)
Definition stop_game_server (r : room) (t : list signal) : list signal :=
  match game_server_pid r with
  | Pid p => Killpg p :: t
  | _ => t
  end.

(** The summary of a destroyed room sent back to the developer. *)
Definition removed_room_of (e : string * room) : removed_room :=
  {| removed_room_id := e.1; removed_players := players e.2;
     removed_status := room_status_of e.2 |}.

(** One turn of the loop over [rooms_to_delete]: signal the game server of
    the room, delete the room, report it. *)
Definition delete_rooms_step (acc : list removed_room * server) (e : string * room)
    : list removed_room * server :=
  let s' := set_terminated (stop_game_server e.2 (terminated acc.2)) acc.2 in
  ((acc.1 ++ [removed_room_of e])%list, set_rooms (dict_del e.1 (rooms s')) s').

(** The second half of [handle_update_game] and [handle_remove_game]: collect
    the rooms of the game, then run the loop over them. *)
Definition delete_rooms_of_game (game_name : string) (s : server)
    : list removed_room * server :=
  let rooms_to_delete :=
    filter (λ e : string * room, room_game_name e.2 = game_name) (rooms s) in
  foldl delete_rooms_step ([], s) rooms_to_delete.

Definition set_version (new_version : string) (now : Z) (notes : string)
    (g : game_info) : game_info :=
  {| game_id := game_id g; game_name := game_name g; developer := developer g;
     game_type := game_type g; description := description g;
     max_players := max_players g; version := new_version;
     created_at := created_at g; updated_at := now; status := status g;
     game_config := game_config g; download_count := download_count g;
     average_rating := average_rating g; review_count := review_count g;
     update_notes := Some notes |}.

Definition handle_update_game (data : request) (developer_name : string) (now : Z)
    (s : server) : response * server :=
  let update_notes := get_default (req_update_notes data) "" in
  match req_game_name data, req_version data, req_game_files data with
  | Some game_name, Some new_version, Some game_files =>
    if String.eqb game_name "" || String.eqb new_version "" then
      (Error "Missing required fields", s)
    else
    match games_metadata s !! game_name with
    | None => (Error "Game not found", s)
    | Some info =>
      if negb (String.eqb (status info) "active") then
        (Error "Cannot update inactive game. Please re-upload the game instead.", s)
      else if negb (String.eqb (developer info) developer_name) then
        (Error "Permission denied", s)
      else
      let old_dir := default ∅ (game_dir game_name new_version s) in
      let '(new_dir, exn) := save_game_files game_files old_dir in
      let s := write_game_dir game_name new_version new_dir s in
      match exn with
      | Some e => (Error ("Failed to save game files: " +:+ e), s)
      | None =>
        let s := set_games_metadata
                   (<[game_name := set_version new_version now update_notes info]>
                      (games_metadata s)) s in
        let '(removed_rooms, s) := delete_rooms_of_game game_name s in
        let message := "Game updated to version " +:+ new_version in
        let message :=
          match removed_rooms with
          | [] => message
          | _ => message +:+ " and " +:+ pretty (length removed_rooms)
                   +:+ " room(s) deleted"
          end in
        (Success (Some message)
                 (Some (UpdateReply game_name new_version removed_rooms)), s)
      end
    end
  | _, _, _ => (Error "Missing required fields", s)
  end.

Definition handle_remove_game (data : request) (developer_name : string)
    (s : server) : response * server :=
  if negb (truthy (req_game_name data)) then (Error "Missing game_name", s) else
  let game_name := get_default (req_game_name data) "" in
  match games_metadata s !! game_name with
  | None => (Error "Game not found", s)
  | Some info =>
    if negb (String.eqb (developer info) developer_name) then
      (Error "Permission denied", s)
    else
    let s := set_games_metadata (delete game_name (games_metadata s)) s in
    let s := set_uploaded_games (delete game_name (uploaded_games s)) s in
    let '(removed_rooms, s) := delete_rooms_of_game game_name s in
    let message := "Game '" +:+ game_name +:+ "' completely removed" in
    let message :=
      match removed_rooms with
      | [] => message
      | _ => message +:+ " and " +:+ pretty (length removed_rooms)
               +:+ " room(s) deleted"
      end in
    (Success (Some message) (Some (RemoveReply game_name removed_rooms)), s)
  end.

(** ** Player handlers: catalog and reviews *)

(** Nearest integer, ties to the even one. *)
Definition round_half_even (q : Q) : Z :=
  let n := Qnum q in
  let d := Z.pos (Qden q) in
  match (2 * (n mod d) ?= d)%Z with
  | Lt => (n / d)%Z
  | Gt => (n / d + 1)%Z
  | Eq => if Z.even (n / d) then (n / d)%Z else (n / d + 1)%Z
  end.

Definition pow10 (ndigits : nat) : positive := Z.to_pos (10 ^ Z.of_nat ndigits).

(** [round(x, ndigits)], on the exact value of [x]: the source computes with
    binary floating point, here the quotient is an exact rational and the
    result is the decimal with [ndigits] places nearest to it.  When [x] lies
    halfway between two such decimals the float of the source may fall on
    either side; the statements below only use that the result is a nearest
    decimal ([rounded_to]). *)
Definition py_round (x : Q) (ndigits : nat) : Q :=
  Qred (round_half_even (x * inject_Z (Z.pos (pow10 ndigits))) # pow10 ndigits).

(** [sum(ratings) / len(ratings) if ratings else 0]. *)
Definition avg_rating (ratings : list Z) : Q :=
  match ratings with
  | [] => 0
  | _ => sum ratings # Pos.of_nat (length ratings)
  end.

(** [[r["rating"] for r in game_reviews]]. *)
Definition ratings_of (game_reviews : list review) : list Z := rating <$> game_reviews.

Definition handle_get_reviews (data : request) (player_name : string)
    (s : server) : response * server :=
  if negb (truthy (req_game_name data)) then (Error "Missing game_name", s) else
  let game_name := get_default (req_game_name data) "" in
  let game_reviews := default [] (reviews s !! game_name) in
  (Success None
     (Some (ReviewsReply game_name game_reviews (length game_reviews)
              (py_round (avg_rating (ratings_of game_reviews)) 1))), s).

Definition summary_of (name : string) (info : game_info) : game_summary :=
  {| sum_game_name := name; sum_developer := developer info;
     sum_game_type := game_type info; sum_description := description info;
     sum_max_players := max_players info; sum_version := version info;
     sum_average_rating := average_rating info;
     sum_review_count := review_count info;
     sum_download_count := download_count info |}.

(** The games are listed in the order of [map_to_list]; the source lists
    them in the order of the keys of the JSON document. *)
Definition handle_list_games (s : server) : response * server :=
  (Success None
     (Some (GamesReply
        ((λ e, summary_of e.1 e.2) <$>
           filter (λ e : string * game_info, status e.2 = "active")
                  (map_to_list (games_metadata s))))), s).

Definition handle_get_game_info (data : request) (s : server) : response * server :=
  if negb (truthy (req_game_name data)) then (Error "Missing game_name", s) else
  let game_name := get_default (req_game_name data) "" in
  match games_metadata s !! game_name with
  | None => (Error "Game not found", s)
  | Some game_info =>
    let game_reviews := default [] (reviews s !! game_name) in
    (Success None
       (Some (GameInfoReply game_info
                (drop (length game_reviews - 10) game_reviews))), s)
  end.

Definition count_download (g : game_info) : game_info :=
  {| game_id := game_id g; game_name := game_name g; developer := developer g;
     game_type := game_type g; description := description g;
     max_players := max_players g; version := version g;
     created_at := created_at g; updated_at := updated_at g; status := status g;
     game_config := game_config g; download_count := download_count g + 1;
     average_rating := average_rating g; review_count := review_count g;
     update_notes := update_notes g |}.

Definition handle_download_game (data : request) (player_name : string)
    (s : server) : response * server :=
  if negb (truthy (req_game_name data)) then (Error "Missing game_name", s) else
  let game_name := get_default (req_game_name data) "" in
  match games_metadata s !! game_name with
  | None => (Error "Game not found", s)
  | Some game_info =>
    if negb (String.eqb (status game_info) "active") then
      (Error "Game is not available", s)
    else
    let version := version game_info in
    match game_dir game_name version s with
    | None => (Error "Game files not found", s)
    | Some dir =>
      let game_files := pack dir in
      let s := set_games_metadata
                 (<[game_name := count_download game_info]> (games_metadata s)) s in
      let downloaded_games := default [] (players_file s !! player_name) in
      let downloaded_games :=
        if bool_decide (game_name ∈ downloaded_games) then downloaded_games
        else (downloaded_games ++ [game_name])%list in
      let s := set_players_file
                 (<[player_name := downloaded_games]> (players_file s)) s in
      (Success None
         (Some (DownloadReply game_name version game_files (game_config game_info))),
       s)
    end
  end.

Definition set_rating (avg : Q) (count : nat) (g : game_info) : game_info :=
  {| game_id := game_id g; game_name := game_name g; developer := developer g;
     game_type := game_type g; description := description g;
     max_players := max_players g; version := version g;
     created_at := created_at g; updated_at := updated_at g; status := status g;
     game_config := game_config g; download_count := download_count g;
     average_rating := avg; review_count := count;
     update_notes := update_notes g |}.

(** The review list after [player_name] submits [new_review]: the first
    review of that player is replaced in place, or the review is appended. *)
Definition upsert_review (player_name : string) (new_review : review)
    (game_reviews : list review) : list review :=
  match list_find (λ r, player r = player_name) game_reviews with
  | Some (existing_review_index, _) =>
      <[existing_review_index := new_review]> game_reviews
  | None => (game_reviews ++ [new_review])%list
  end.

Definition handle_submit_review (data : request) (player_name : string)
    (now : string) (s : server) : response * server :=
  let comment := get_default (req_comment data) "" in
  match req_rating data with
  | None => (Error "Missing required fields", s)
  | Some rating =>
    if negb (truthy (req_game_name data)) then (Error "Missing required fields", s) else
    let game_name := get_default (req_game_name data) "" in
    if negb ((1 <=? rating)%Z && (rating <=? 5)%Z) then
      (Error "Rating must be between 1 and 5", s)
    else
    match games_metadata s !! game_name with
    | None => (Error "Game not found", s)
    | Some info =>
      if negb (String.eqb (status info) "active") then
        (Error "Cannot review inactive game", s)
      else
      match players_file s !! player_name with
      | None => (Error "Player not found", s)
      | Some player_games =>
        if negb (bool_decide (game_name ∈ player_games)) then
          (Error "You must download the game before reviewing", s)
        else
        let game_reviews := default [] (reviews s !! game_name) in
        let new_review :=
          {| player := player_name; rating := rating; review_comment := comment;
             timestamp := now |} in
        let message :=
          match list_find (λ r, player r = player_name) game_reviews with
          | Some _ => "Review updated successfully"
          | None => "Review submitted successfully"
          end in
        let game_reviews := upsert_review player_name new_review game_reviews in
        let s := set_reviews (<[game_name := game_reviews]> (reviews s)) s in
        let s :=
          match games_metadata s !! game_name with
          | Some info =>
            let all_ratings := ratings_of game_reviews in
            set_games_metadata
              (<[game_name := set_rating (py_round (avg_rating all_ratings) 2)
                                (length all_ratings) info]> (games_metadata s)) s
          | None => s
          end in
        (Success (Some message) None, s)
      end
    end
  end.

(** ** Player handlers: rooms *)

(** [f"ROOM_{room_id_counter:04d}"]. *)
Definition format_room_id (n : nat) : string :=
  let digits := pretty n in
  "ROOM_" +:+ String.concat "" (replicate (4 - String.length digits) "0") +:+ digits.

Definition generate_room_id (s : server) : string * server :=
  (format_room_id (room_id_counter s),
   set_room_id_counter (room_id_counter s + 1) s).

Definition handle_create_room (data : request) (player_name : string) (now : Z)
    (s : server) : response * server :=
  let player_version := req_version data in
  if negb (truthy (req_game_name data)) then (Error "Missing game_name", s) else
  let game_name := get_default (req_game_name data) "" in
  match games_metadata s !! game_name with
  | None => (Error "Game not found", s)
  | Some game_info =>
    if negb (String.eqb (status game_info) "active") then
      (Error "Game is not available", s)
    else
    let server_version := version game_info in
    if truthy player_version
       && negb (String.eqb (get_default player_version "") server_version) then
      (Error ("版本不匹配！你的版本: " +:+ get_default player_version ""
              +:+ "，最新版本: " +:+ server_version +:+ "。請先更新遊戲。"), s)
    else
    let '(room_id, s) := generate_room_id s in
    let room :=
      {| room_id := room_id; room_game_name := game_name;
         room_version := server_version; host := player_name;
         players := [player_name]; ready_players := [];
         room_max_players := max_players game_info; room_status_of := waiting;
         room_created_at := now; game_server_port := None;
         game_server_pid := PidMissing; game_server_process := None |} in
    (Success (Some "Room created")
       (Some (RoomCreatedReply room_id game_name server_version
                (max_players game_info))),
     set_rooms (dict_set room_id room (rooms s)) s)
  end.

Definition handle_list_rooms (s : server) : response * server :=
  (Success None
     (Some (RoomsReply
        ((λ e : string * room,
            {| rs_room_id := e.1; rs_game_name := room_game_name e.2;
               rs_version := room_version e.2; rs_host := host e.2;
               rs_players := players e.2;
               rs_current_players := length (players e.2);
               rs_max_players := room_max_players e.2;
               rs_status := room_status_of e.2 |}) <$>
         filter (λ e : string * room, room_status_of e.2 ≠ finished) (rooms s)))),
   s).

Definition set_players (l : list string) (r : room) : room :=
  {| room_id := room_id r; room_game_name := room_game_name r;
     room_version := room_version r; host := host r; players := l;
     ready_players := ready_players r; room_max_players := room_max_players r;
     room_status_of := room_status_of r; room_created_at := room_created_at r;
     game_server_port := game_server_port r;
     game_server_pid := game_server_pid r;
     game_server_process := game_server_process r |}.

Definition handle_join_room (data : request) (player_name : string)
    (s : server) : response * server :=
  let player_version := req_version data in
  if negb (truthy (req_room_id data)) then (Error "Missing room_id", s) else
  let room_id := get_default (req_room_id data) "" in
  match dict_get room_id (rooms s) with
  | None => (Error "Room not found", s)
  | Some room =>
    if negb (bool_decide (room_status_of room = waiting)) then
      (Error "Room is not accepting players", s)
    else if bool_decide (player_name ∈ players room) then
      (Error "Already in room", s)
    else if (room_max_players room <=? Z.of_nat (length (players room)))%Z then
      (Error "Room is full", s)
    else
    let room_version := room_version room in
    if truthy player_version
       && negb (String.eqb (get_default player_version "") room_version) then
      (Error ("版本不匹配！房間版本: " +:+ room_version +:+ ", 你的版本: "
              +:+ get_default player_version "" +:+ "。請更新遊戲。"), s)
    else
    let room := set_players (players room ++ [player_name])%list room in
    (Success (Some "Joined room")
       (Some (JoinReply room_id (room_game_name room) room_version (players room))),
     set_rooms (dict_set room_id room (rooms s)) s)
  end.

(** [l.remove(x)]: the first occurrence of [x] is removed. *)
Fixpoint list_remove_first (x : string) (l : list string) : list string :=
  match l with
  | y :: l' => if decide (x = y) then l' else y :: list_remove_first x l'
  | [] => []
  end.

Definition handle_leave_room (data : request) (player_name : string)
    (s : server) : response * server :=
  if negb (truthy (req_room_id data)) then (Error "Missing room_id", s) else
  let room_id := get_default (req_room_id data) "" in
  match dict_get room_id (rooms s) with
  | None => (Error "Room not found", s)
  | Some room =>
    if negb (bool_decide (player_name ∈ players room)) then
      (Error "Not in room", s)
    else
    let is_host := bool_decide (player_name = host room) in
    let room := set_players (list_remove_first player_name (players room)) room in
    let s := set_rooms (dict_set room_id room (rooms s)) s in
    if is_host then
      let remaining_players := players room in
      let s := set_terminated (stop_game_server room (terminated s)) s in
      let s := set_rooms (dict_del room_id (rooms s)) s in
      (Success (Some "Room disbanded (host left)")
         (Some (DisbandedReply room_id remaining_players)), s)
    else
    match players room with
    | [] =>
      let s := set_rooms (dict_del room_id (rooms s)) s in
      (Success (Some "Left room (room deleted)") (Some (RoomDeletedReply room_id)), s)
    | _ =>
      (Success (Some "Left room") (Some (LeftReply room_id (length (players room)))), s)
    end
  end.

(** ** Player handlers: game servers *)

(** What the server observes of the world outside it while it handles one
    request. *)
Inductive popen_result :=
  | PopenRaises (exn : string)
  | PopenExited
  | PopenRunning (pid : Z).

Inductive db_answer :=
  | DbResponse (r : response)
  | DbRaises (exn : string).

Record environment := {
  (** [time.time()] and [time.strftime("%Y-%m-%d %H:%M:%S")] *)
  env_time : Z;
  env_strftime : string;
  (** the answer of the credential server *)
  env_db : db_answer;
  (** [random.randint(20000, 30000)] *)
  env_randint : Z;
  (** [subprocess.Popen] followed, half a second later, by [poll] *)
  env_popen : popen_result;
  (** [process.poll()], by process id: the return code of a finished process *)
  env_poll : Z → option Z;
  (** whether [os.kill(pid, 0)] raises [OSError] *)
  env_kill0_raises : Z → bool;
}.

Definition set_room_status (st : room_status) (r : room) : room :=
  {| room_id := room_id r; room_game_name := room_game_name r;
     room_version := room_version r; host := host r; players := players r;
     ready_players := ready_players r; room_max_players := room_max_players r;
     room_status_of := st; room_created_at := room_created_at r;
     game_server_port := game_server_port r;
     game_server_pid := game_server_pid r;
     game_server_process := game_server_process r |}.

Definition set_ready_players (l : list string) (r : room) : room :=
  {| room_id := room_id r; room_game_name := room_game_name r;
     room_version := room_version r; host := host r; players := players r;
     ready_players := l; room_max_players := room_max_players r;
     room_status_of := room_status_of r; room_created_at := room_created_at r;
     game_server_port := game_server_port r;
     game_server_pid := game_server_pid r;
     game_server_process := game_server_process r |}.

Definition set_game_server (pid : pid_slot) (port : option Z) (process : option Z)
    (r : room) : room :=
  {| room_id := room_id r; room_game_name := room_game_name r;
     room_version := room_version r; host := host r; players := players r;
     ready_players := ready_players r; room_max_players := room_max_players r;
     room_status_of := room_status_of r; room_created_at := room_created_at r;
     game_server_port := port; game_server_pid := pid;
     game_server_process := process |}.

Definition update_room (room_id : string) (r : room) (s : server) : server :=
  set_rooms (dict_set room_id r (rooms s)) s.

(** The command line built for the game server is not part of the state and
    is left out; what [Popen] does with it is [env_popen]. *)
Definition handle_start_game (data : request) (player_name : string)
    (e : environment) (s : server) : response * server :=
  if negb (truthy (req_room_id data)) then (Error "Missing room_id", s) else
  let room_id := get_default (req_room_id data) "" in
  match dict_get room_id (rooms s) with
  | None => (Error "Room not found", s)
  | Some room =>
    if negb (String.eqb player_name (host room)) then
      (Error "Only host can start game", s)
    else if bool_decide (room_status_of room = playing) then
      (Error "Game already started", s)
    else if (length (players room) <? 2)%nat then
      (Error "Need at least 2 players", s)
    else
    let game_name := room_game_name room in
    match games_metadata s !! game_name with
    | None => (Error "Game not found", s)
    | Some info =>
      let version := version info in
      let config := game_config info in
      match game_dir game_name version s with
      | None => (Error "Game files not found", s)
      | Some _ =>
        if negb (truthy (server_command config)) then
          (Success (Some "Game started (no server needed)")
             (Some (StartReply room_id game_name version (players room) config
                      None false)),
           update_room room_id (set_room_status playing room) s)
        else
        let game_server_port := env_randint e in
        match env_popen e with
        | PopenRaises exn => (Error ("Failed to start: " +:+ exn), s)
        | PopenExited => (Error "Game Server failed to start", s)
        | PopenRunning pid =>
          let room :=
            set_room_status playing
              (set_game_server (Pid pid) (Some game_server_port) (Some pid) room) in
          (Success (Some "Game server started! Connect now.")
             (Some (StartReply room_id game_name version (players room) config
                      (Some game_server_port) false)),
           update_room room_id room s)
        end
      end
    end
  end.

(** The thread started with each game server: when the process ends, the
    room, if it still exists, goes back to waiting. *)
Definition monitor_game_server (rid : string) (s : server) : server :=
  match dict_get rid (rooms s) with
  | Some r =>
    update_room rid (set_room_status waiting (set_game_server PidNone None None r)) s
  | None => s
  end.

Definition _actually_start_game (room_id : string) (room : room)
    (e : environment) (s : server) : response * server :=
  let game_name := room_game_name room in
  match games_metadata s !! game_name with
  | None => (Error "Game not found", s)
  | Some info =>
    let version := version info in
    let config := game_config info in
    match game_dir game_name version s with
    | None => (Error "Game files not found", s)
    | Some _ =>
      if negb (truthy (server_command config)) then
        (Success (Some "Game started (no server needed)")
           (Some (StartReply room_id game_name version (players room) config
                    None true)),
         update_room room_id (set_room_status playing room) s)
      else
      let game_server_port := env_randint e in
      match env_popen e with
      | PopenRaises exn =>
        (Error ("Failed to start game server: " +:+ exn),
         update_room room_id (set_ready_players [] (set_room_status waiting room)) s)
      | PopenExited =>
        (Error "Game Server failed to start: Unknown error",
         update_room room_id (set_ready_players [] (set_room_status waiting room)) s)
      | PopenRunning pid =>
        let room :=
          set_room_status playing
            (set_game_server (Pid pid) (Some game_server_port) (Some pid) room) in
        (Success (Some "Game server started! Connect now.")
           (Some (StartReply room_id game_name version (players room) config
                    (Some game_server_port) false)),
         update_room room_id room s)
      end
    end
  end.

Definition handle_player_ready (data : request) (player_name : string)
    (e : environment) (s : server) : response * server :=
  if negb (truthy (req_room_id data)) then (Error "Missing room_id", s) else
  let room_id := get_default (req_room_id data) "" in
  match dict_get room_id (rooms s) with
  | None => (Error "Room not found", s)
  | Some room =>
    if negb (bool_decide (player_name ∈ players room)) then
      (Error "Not in room", s)
    else if negb (bool_decide (room_status_of room = ready_check)) then
      (Error "Not in ready check phase", s)
    else if bool_decide (player_name ∈ ready_players room) then
      (Error "Already ready", s)
    else
    let room := set_ready_players (ready_players room ++ [player_name])%list room in
    let s := update_room room_id room s in
    if (length (ready_players room) =? length (players room))%nat then
      _actually_start_game room_id room e s
    else
      (Success (Some "You are ready")
         (Some (ReadyReply room_id (ready_players room) (length (players room))
                  (filter (λ p, p ∉ ready_players room) (players room)))), s)
  end.

Definition handle_cancel_ready_check (data : request) (player_name : string)
    (s : server) : response * server :=
  if negb (truthy (req_room_id data)) then (Error "Missing room_id", s) else
  let room_id := get_default (req_room_id data) "" in
  match dict_get room_id (rooms s) with
  | None => (Error "Room not found", s)
  | Some room =>
    if negb (String.eqb player_name (host room)) then
      (Error "Only host can cancel", s)
    else if negb (bool_decide (room_status_of room = ready_check)) then
      (Error "Not in ready check phase", s)
    else
      (Success (Some "Ready check cancelled") (Some (RoomIdReply room_id)),
       update_room room_id (set_ready_players [] (set_room_status waiting room)) s)
  end.

Definition handle_reset_room (data : request) (player_name : string)
    (s : server) : response * server :=
  if negb (truthy (req_room_id data)) then (Error "Missing room_id", s) else
  let room_id := get_default (req_room_id data) "" in
  match dict_get room_id (rooms s) with
  | None => (Error "Room not found", s)
  | Some room =>
    if negb (String.eqb player_name (host room)) then
      (Error "Only host can reset room", s)
    else
    let s :=
      match game_server_pid room with
      | Pid p => if (p =? 0)%Z then s else set_terminated (Kill p :: terminated s) s
      | _ => s
      end in
    let room :=
      set_room_status waiting
        (set_game_server PidNone None (game_server_process room) room) in
    (Success (Some "Room reset to waiting")
       (Some (ResetReply room_id (room_status_of room) (players room))),
     update_room room_id room s)
  end.

Definition handle_get_room_status (data : request) (player_name : string)
    (e : environment) (s : server) : response * server :=
  if negb (truthy (req_room_id data)) then (Error "Missing room_id", s) else
  let room_id := get_default (req_room_id data) "" in
  match dict_get room_id (rooms s) with
  | None => (Error "Room not found or has been closed", s)
  | Some room =>
    if negb (bool_decide (player_name ∈ players room)) then
      (Error "You are not in this room", s)
    else
    let should_reset :=
      bool_decide (room_status_of room = playing) &&
      match game_server_process room, game_server_pid room with
      | Some process, _ => bool_decide (is_Some (env_poll e process))
      | None, Pid p => if (p =? 0)%Z then true else env_kill0_raises e p
      | None, _ => true
      end in
    let room :=
      if should_reset then set_room_status waiting (set_game_server PidNone None None room)
      else room in
    let s := update_room room_id room s in
    let is_playing := bool_decide (room_status_of room = playing) in
    let room_data :=
      {| rd_room_id := room_id; rd_game_name := room_game_name room;
         rd_version := room_version room; rd_host := host room;
         rd_players := players room; rd_current_players := length (players room);
         rd_max_players := room_max_players room;
         rd_status := room_status_of room;
         rd_is_host := String.eqb player_name (host room);
         rd_ready_check :=
           if bool_decide (room_status_of room = ready_check) then
             Some (ready_players room,
                   filter (λ p, p ∉ ready_players room) (players room),
                   bool_decide (player_name ∈ ready_players room))
           else None;
         rd_config :=
           if is_playing then
             game_config <$> (games_metadata s !! room_game_name room)
           else None;
         rd_server_port :=
           if is_playing then Some (game_server_port room) else None |} in
    (Success None (Some (RoomStatusReply room_data)), s)
  end.

(** ** Presence *)

(** [player_room_map]: for each player the last room, in the order of
    [rooms], that lists them. *)
Definition player_room_map (rs : list (string * room))
    : gmap string (string * string * room_status * bool) :=
  foldl (λ m (e : string * room),
           if bool_decide (room_status_of e.2 ≠ finished) then
             foldl (λ m p, <[p := (e.1, room_game_name e.2, room_status_of e.2,
                                   bool_decide (p = host e.2))]> m)
                   m (players e.2)
           else m)
        ∅ rs.

Definition status_order (st : player_status) : nat :=
  match st with status_playing => 0 | status_in_room => 1 | status_idle => 2 end.

(** The sort key [(status_order[x["status"]], x["username"])]. *)
Definition player_info_le (a b : player_info) : bool :=
  (status_order (pi_status a) <? status_order (pi_status b))%nat
  || ((status_order (pi_status a) =? status_order (pi_status b))%nat
      && String.leb (pi_username a) (pi_username b)).

Fixpoint insert_player_info (x : player_info) (l : list player_info)
    : list player_info :=
  match l with
  | y :: l' => if player_info_le x y then x :: l else y :: insert_player_info x l'
  | [] => [x]
  end.

Definition sort_player_list (l : list player_info) : list player_info :=
  foldr insert_player_info [] l.

Definition handle_list_online_players (s : server) : response * server :=
  let online_usernames := (map_to_list (online_players s)).*1 in
  let player_room_map := player_room_map (rooms s) in
  let player_list :=
    (λ username,
       match player_room_map !! username with
       | Some (room_id, game_name, room_status, is_host) =>
         {| pi_username := username;
            pi_status := if bool_decide (room_status = playing) then status_playing
                         else status_in_room;
            pi_room := Some (room_id, game_name, is_host) |}
       | None =>
         {| pi_username := username; pi_status := status_idle; pi_room := None |}
       end) <$> online_usernames in
  let player_list := sort_player_list player_list in
  (Success None (Some (OnlinePlayersReply player_list (length player_list))), s).

(** ** The player endpoint *)

Definition action_is (action : option string) (name : string) : bool :=
  bool_decide (action = Some name).

Definition room_request (room_id : string) : request :=
  {| req_game_name := None; req_game_type := None; req_description := None;
     req_max_players := None; req_version := None; req_game_files := None;
     req_config := None; req_update_notes := None; req_room_id := Some room_id;
     req_rating := None; req_comment := None; req_username := None;
     req_password := None |}.

(** One turn of the request loop of [handle_lobby_client], on connection
    [conn] whose session is bound to [player_name] ([None] before a
    successful login).  Returns the response, the new binding of the session
    and the new server state. *)
Definition lobby_request (conn : nat) (e : environment) (action : option string)
    (data : request) (player_name : option string) (s : server)
    : response * option string * server :=
  let keep (r : response * server) := (r.1, player_name, r.2) in
  if action_is action "list_games" then keep (handle_list_games s)
  else if action_is action "get_game_info" then keep (handle_get_game_info data s)
  else if action_is action "register" then
    if negb (truthy (req_username data) && truthy (req_password data)) then
      (Error "Missing username or password", player_name, s)
    else
    match env_db e with
    | DbResponse db_response => (db_response, player_name, s)
    | DbRaises exn => (Error ("Register failed: " +:+ exn), player_name, s)
    end
  else if action_is action "login" then
    if negb (truthy (req_username data) && truthy (req_password data)) then
      (Error "Missing username or password", player_name, s)
    else
    let username := get_default (req_username data) "" in
    match env_db e with
    | DbResponse db_response =>
      if is_success db_response then
        match online_players s !! username with
        | Some _ => (Error "此帳號已在其他地方登入", player_name, s)
        | None =>
          (Success (Some "Login successful") None, Some username,
           set_online_players (<[username := conn]> (online_players s)) s)
        end
      else (Error "Invalid username or password", player_name, s)
    | DbRaises exn => (Error ("Login failed: " +:+ exn), player_name, s)
    end
  else if negb (truthy player_name) then
    (Error "Please login first", player_name, s)
  else
  let name := get_default player_name "" in
  if action_is action "download_game" then keep (handle_download_game data name s)
  else if action_is action "submit_review" then
    keep (handle_submit_review data name (env_strftime e) s)
  else if action_is action "create_room" then
    keep (handle_create_room data name (env_time e) s)
  else if action_is action "list_rooms" then keep (handle_list_rooms s)
  else if action_is action "list_online_players" then
    keep (handle_list_online_players s)
  else if action_is action "get_room_status" then
    keep (handle_get_room_status data name e s)
  else if action_is action "get_reviews" then keep (handle_get_reviews data name s)
  else if action_is action "join_room" then keep (handle_join_room data name s)
  else if action_is action "leave_room" then keep (handle_leave_room data name s)
  else if action_is action "start_game" then keep (handle_start_game data name e s)
  else if action_is action "player_ready" then
    keep (handle_player_ready data name e s)
  else if action_is action "cancel_ready_check" then
    keep (handle_cancel_ready_check data name s)
  else if action_is action "reset_room" then keep (handle_reset_room data name s)
  else if action_is action "upload_game" || action_is action "update_game"
          || action_is action "remove_game" || action_is action "list_my_games" then
    (Error "❌ 這是 Lobby Server（玩家用）！請使用 Developer Port 連線。",
     player_name, s)
  else
    (Error ("Unknown action: " +:+ get_default action "None"), player_name, s).

(** The [finally] block of [handle_lobby_client], run when the connection
    closes: leave the first room, in the order of [rooms], that lists the
    player, then drop the player from [online_players]. *)
Definition lobby_disconnect (player_name : option string) (s : server) : server :=
  if negb (truthy player_name) then s else
  let name := get_default player_name "" in
  let player_room :=
    list_find (λ e : string * room, name ∈ players e.2) (rooms s) in
  let s :=
    match player_room with
    | Some (_, (room_id, _)) =>
      if String.eqb room_id "" then s
      else (handle_leave_room (room_request room_id) name s).2
    | None => s
    end in
  set_online_players (delete name (online_players s)) s.

(** ** The developer endpoint *)

(** An entry of the list of [handle_list_my_games]. *)
Record my_game := {
  mg_game_name : string;
  mg_version : string;
  mg_game_type : string;
  mg_status : string;
  mg_download_count : nat;
  mg_average_rating : Q;
  mg_review_count : nat;
  mg_created_at : Z;
  mg_updated_at : Z;
}.

(** A response of the developer endpoint: that of a handler, or the list of
    [handle_list_my_games]. *)
Inductive developer_response :=
  | Handled (r : response)
  | MyGames (games : list my_game).

(** [db] is the frame the credential server sends back, if it sends one. *)
Definition handle_developer_login (data : request) (db : option db_answer) : response :=
  if negb (truthy (req_username data)) || negb (truthy (req_password data)) then
    Error "Missing credentials"
  else
  match db with
  | Some (DbResponse response) => response
  | None => Error "DB connection failed"
  | Some (DbRaises exn) => Error exn
  end.

Definition handle_developer_register (data : request) (db : option db_answer)
    : response :=
  if negb (truthy (req_username data)) || negb (truthy (req_password data)) then
    Error "Missing credentials"
  else
  match db with
  | Some (DbResponse response) => response
  | None => Error "DB connection failed"
  | Some (DbRaises exn) => Error exn
  end.

Definition my_game_of (name : string) (info : game_info) : my_game :=
  {| mg_game_name := name; mg_version := version info;
     mg_game_type := game_type info; mg_status := status info;
     mg_download_count := download_count info;
     mg_average_rating := average_rating info;
     mg_review_count := review_count info;
     mg_created_at := created_at info; mg_updated_at := updated_at info |}.

(** The games are listed in the order of [map_to_list], as in
    [handle_list_games]. *)
Definition handle_list_my_games (developer_name : string) (s : server)
    : developer_response :=
  MyGames
    ((λ e, my_game_of e.1 e.2) <$>
       filter (λ e : string * game_info,
                 developer e.2 = developer_name ∧ status e.2 = "active")
              (map_to_list (games_metadata s))).

(** One turn of the request loop of [handle_developer_client], on a
    connection bound to [developer_name] ([None] before a successful login).
    Returns the response, the new binding and the new server state. *)
Definition developer_request (db : option db_answer) (now : Z) (action : option string)
    (data : request) (developer_name : option string) (s : server)
    : developer_response * option string * server :=
  let keep (r : response * server) := (Handled r.1, developer_name, r.2) in
  if action_is action "login" then
    let response := handle_developer_login data db in
    (Handled response,
     if is_success response then req_username data else developer_name, s)
  else if action_is action "register" then
    (Handled (handle_developer_register data db), developer_name, s)
  else if negb (truthy developer_name) then
    (Handled (Error "Please login first"), developer_name, s)
  else
  let name := get_default developer_name "" in
  if action_is action "upload_game" then keep (handle_upload_game data name now s)
  else if action_is action "update_game" then keep (handle_update_game data name now s)
  else if action_is action "remove_game" then keep (handle_remove_game data name s)
  else if action_is action "list_my_games" then
    (handle_list_my_games name s, developer_name, s)
  else if bool_decide (action ∈ (Some <$> ["register"; "list_games"; "download_game";
                                            "create_room"; "join_room"; "leave_room";
                                            "start_game"; "get_room_status";
                                            "list_rooms"])) then
    (Handled (Error "❌ 這是 Developer Server！請使用 Lobby Port 連線。"),
     developer_name, s)
  else
    (Handled (Error ("Unknown action: " +:+ get_default action "None")),
     developer_name, s).

(** ** The version prompt of the developer client *)

(** [version.split('.')]. *)
Fixpoint split_dot (s : string) : list string :=
  match s with
  | EmptyString => [""]
  | String a s' =>
    if Ascii.eqb a "." then "" :: split_dot s'
    else match split_dot s' with
         | part :: parts => String a part :: parts
         | [] => [String a ""]
         end
  end.

Fixpoint all_chars (f : ascii → bool) (s : string) : bool :=
  match s with
  | String a s' => f a && all_chars f s'
  | EmptyString => true
  end.

(** [p.isdigit()] (codes below 256: the ten digits and the superscripts
    one, two and three). *)
Definition isdigit (p : string) : bool :=
  negb (String.eqb p "") &&
  all_chars (λ a, let n := nat_of_ascii a in
                  ((48 <=? n)%nat && (n <=? 57)%nat)
                  || (n =? 178)%nat || (n =? 179)%nat || (n =? 185)%nat) p.

(** The test both version prompts of [developer_client.py] loop on:
    [len(parts) == 3 and all(p.isdigit() for p in parts)]. *)
Definition version_format_ok (version : string) : bool :=
  let parts := split_dot version in
  (length parts =? 3)%nat && forallb isdigit parts.

(** ** The credential server *)

(** [server/db_server_extended.py].  The two JSON documents of the server are
    the fields of [database]; they hold well-formed JSON. *)

(** An account of [developers.json] or [players.json].  [acc_items] is the
    list [games] of a developer and [playHistory] of a player. *)
Record account := {
  acc_name : string;
  acc_password_hash : string;
  acc_created_at : Z;
  acc_last_login_at : option Z;
  acc_items : list string;
}.

Record database := {
  (** [db_data/developers.json] *)
  db_developers : gmap string account;
  (** [db_data/players.json] *)
  db_players : gmap string account;
}.

Definition set_db_developers (d : gmap string account) (db : database) : database :=
  {| db_developers := d; db_players := db_players db |}.

Definition set_db_players (p : gmap string account) (db : database) : database :=
  {| db_developers := db_developers db; db_players := p |}.

(** A request frame of the credential server, with the keys of its [data]
    object. *)
Record db_request := {
  dbr_collection : option string;
  dbr_action : option string;
  dbr_type : option string;
  dbr_name : option string;
  dbr_password : option string;
}.

(** The [data] of a success response. *)
Inductive db_reply :=
  | DbName (name : string)
  (** name, [createdAt] and [games_count] *)
  | DbDeveloperList (l : list (string * Z * nat))
  (** name, [createdAt] and [lastLoginAt] *)
  | DbPlayerList (l : list (string * Z * option Z)).

Inductive db_response :=
  | DbError (message : string)
  | DbSuccess (message : option string) (data : db_reply).

Definition set_last_login (now : Z) (a : account) : account :=
  {| acc_name := acc_name a; acc_password_hash := acc_password_hash a;
     acc_created_at := acc_created_at a; acc_last_login_at := Some now;
     acc_items := acc_items a |}.

Section credential_server.
(** [hashlib.sha256(password.encode('utf-8')).hexdigest()] *)
Variable hash_password : string → string.

(** [now] is [time.time()], [saved] tells whether [save_json] succeeds. *)
Definition developer_create (data : db_request) (now : Z) (saved : bool)
    (db : database) : db_response * database :=
  if negb (truthy (dbr_name data)) || negb (truthy (dbr_password data)) then
    (DbError "Missing name or password", db)
  else
  let name := get_default (dbr_name data) "" in
  let password := get_default (dbr_password data) "" in
  match db_developers db !! name with
  | Some _ => (DbError "Developer already exists", db)
  | None =>
    let developers :=
      <[name := {| acc_name := name; acc_password_hash := hash_password password;
                   acc_created_at := now; acc_last_login_at := None;
                   acc_items := [] |}]> (db_developers db) in
    if saved then
      (DbSuccess (Some "Developer created") (DbName name),
       set_db_developers developers db)
    else (DbError "Failed to save developer", db)
  end.

Definition developer_query (data : db_request) (now : Z) (saved : bool)
    (db : database) : db_response * database :=
  if bool_decide (dbr_type data = Some "login") then
    if negb (truthy (dbr_name data)) || negb (truthy (dbr_password data)) then
      (DbError "Missing credentials", db)
    else
    let name := get_default (dbr_name data) "" in
    let password := get_default (dbr_password data) "" in
    match db_developers db !! name with
    | None => (DbError "Developer not found", db)
    | Some a =>
      if negb (String.eqb (acc_password_hash a) (hash_password password)) then
        (DbError "Wrong password", db)
      else
        (DbSuccess (Some "Login success") (DbName name),
         if saved then
           set_db_developers (<[name := set_last_login now a]> (db_developers db)) db
         else db)
    end
  else if bool_decide (dbr_type data = Some "list_all") then
    (DbSuccess None
       (DbDeveloperList
          ((λ e : string * account,
              (e.1, acc_created_at e.2, length (acc_items e.2))) <$>
             map_to_list (db_developers db))), db)
  else (DbError "Unknown query type", db).

Definition player_create (data : db_request) (now : Z) (saved : bool)
    (db : database) : db_response * database :=
  if negb (truthy (dbr_name data)) || negb (truthy (dbr_password data)) then
    (DbError "Missing name or password", db)
  else
  let name := get_default (dbr_name data) "" in
  let password := get_default (dbr_password data) "" in
  match db_players db !! name with
  | Some _ => (DbError "Player already exists", db)
  | None =>
    let players :=
      <[name := {| acc_name := name; acc_password_hash := hash_password password;
                   acc_created_at := now; acc_last_login_at := None;
                   acc_items := [] |}]> (db_players db) in
    if saved then
      (DbSuccess (Some "Player created") (DbName name), set_db_players players db)
    else (DbError "Failed to save player", db)
  end.

Definition player_query (data : db_request) (now : Z) (saved : bool)
    (db : database) : db_response * database :=
  if bool_decide (dbr_type data = Some "login") then
    if negb (truthy (dbr_name data)) || negb (truthy (dbr_password data)) then
      (DbError "Missing credentials", db)
    else
    let name := get_default (dbr_name data) "" in
    let password := get_default (dbr_password data) "" in
    match db_players db !! name with
    | None => (DbError "Player not found", db)
    | Some a =>
      if negb (String.eqb (acc_password_hash a) (hash_password password)) then
        (DbError "Wrong password", db)
      else
        (DbSuccess (Some "Login success") (DbName name),
         if saved then
           set_db_players (<[name := set_last_login now a]> (db_players db)) db
         else db)
    end
  else if bool_decide (dbr_type data = Some "list_all") then
    (DbSuccess None
       (DbPlayerList
          ((λ e : string * account,
              (e.1, acc_created_at e.2, acc_last_login_at e.2)) <$>
             map_to_list (db_players db))), db)
  else (DbError "Unknown query type", db).

Definition handle_request (request : db_request) (now : Z) (saved : bool)
    (db : database) : db_response * database :=
  if bool_decide (dbr_collection request = Some "Developer") then
    if bool_decide (dbr_action request = Some "create") then
      developer_create request now saved db
    else if bool_decide (dbr_action request = Some "query") then
      developer_query request now saved db
    else (DbError ("Unknown action: " +:+ get_default (dbr_action request) "None"), db)
  else if bool_decide (dbr_collection request = Some "Player") then
    if bool_decide (dbr_action request = Some "create") then
      player_create request now saved db
    else if bool_decide (dbr_action request = Some "query") then
      player_query request now saved db
    else (DbError ("Unknown action: " +:+ get_default (dbr_action request) "None"), db)
  else
    (DbError ("Unknown collection: "
              +:+ get_default (dbr_collection request) "None"), db).
End credential_server.

(** The response of the credential server as the store server reads it. *)
Definition db_to_response (r : db_response) : response :=
  match r with
  | DbError message => Error message
  | DbSuccess message (DbName name) => Success message (Some (NameReply name))
  | DbSuccess message _ => Success message None
  end.

(** The requests the store server sends to the credential server. *)
Definition db_create_request (collection : string) (data : request) : db_request :=
  {| dbr_collection := Some collection; dbr_action := Some "create";
     dbr_type := None; dbr_name := req_username data;
     dbr_password := req_password data |}.

Definition db_login_request (collection : string) (data : request) : db_request :=
  {| dbr_collection := Some collection; dbr_action := Some "query";
     dbr_type := Some "login"; dbr_name := req_username data;
     dbr_password := req_password data |}.

(** ** Frames *)

(** The two copies of [lpfp.py] that come with the games
    ([player/downloads/22/tetris] and [player/downloads/22/bomb]).  A
    connection does not fail while a frame is sent or received. *)

(** A byte string. *)
Abbreviation bytes := (list ascii).

(** The receiving side of a connection: the bytes that arrive before the
    peer closes it, and how many bytes the successive calls of [recv] hand
    over at most (the network may cut the stream anywhere). *)
Record socket := {
  incoming : bytes;
  deliveries : list positive;
}.

(** [sock.recv(n)] for a positive [n]: some bytes, at most [n], while bytes
    remain; the empty byte string at the end of the stream. *)
Definition recv (n : nat) (sock : socket) : bytes * socket :=
  let k := match deliveries sock with
           | d :: _ => n `min` Pos.to_nat d
           | [] => n
           end in
  (take k (incoming sock),
   {| incoming := drop k (incoming sock); deliveries := tail (deliveries sock) |}).

(** [int.from_bytes(b, byteorder='big')] and [struct.unpack("!I", b)]. *)
Definition from_bytes (b : bytes) : N :=
  foldl (λ acc a, acc * 256 + N_of_ascii a)%N 0%N b.

(** [n.to_bytes(4, byteorder='big')] and [struct.pack("!I", n)]: the four
    bytes, unless [n] does not fit. *)
Definition to_bytes4 (n : N) : option bytes :=
  if (n <? 2 ^ 32)%N then
    Some [ascii_of_N (n / 2 ^ 24); ascii_of_N (n / 2 ^ 16 mod 256);
          ascii_of_N (n / 2 ^ 8 mod 256); ascii_of_N (n mod 256)]
  else None.

(** The loop [while len(data) < length: chunk = recv(length - len(data)) ...]:
    [None] when the stream ends early.  Every turn adds at least one byte,
    so [length] turns are enough; [fuel] bounds the turns. *)
Fixpoint recv_exactly (fuel : nat) (length : nat) (data : bytes) (sock : socket)
    : option bytes * socket :=
  if (List.length data <? length)%nat then
    match fuel with
    | S fuel =>
      let '(chunk, sock) := recv (length - List.length data) sock in
      match chunk with
      | [] => (None, sock)
      | _ => recv_exactly fuel length (data ++ chunk)%list sock
      end
    | O => (None, sock)
    end
  else (Some data, sock).

Module Bomb.
(** [send_frame]: the bytes written to the connection; [None] when
    [to_bytes] raises [OverflowError]. *)
Definition send_frame (data : bytes) : option bytes :=
  (λ header, header ++ data)%list <$> to_bytes4 (N.of_nat (List.length data)).

Definition recv_frame (sock : socket) : option bytes * socket :=
  let '(length_bytes, sock) := recv 4 sock in
  if (List.length length_bytes <? 4)%nat then (None, sock) else
  let length := N.to_nat (from_bytes length_bytes) in
  recv_exactly length length [] sock.
End Bomb.

Module Tetris.
(** [send_frame] on a byte string: whether it succeeded, and the bytes
    written to the connection ([struct.error] is caught). *)
Definition send_frame (payload : bytes) : bool * bytes :=
  match to_bytes4 (N.of_nat (List.length payload)) with
  | Some length => (true, (length ++ payload)%list)
  | None => (false, [])
  end.

Definition recv_frame (conn : socket) : option bytes * socket :=
  match recv_exactly 4 4 [] conn with
  | (None, conn) => (None, conn)
  | (Some header, conn) =>
    let length := N.to_nat (from_bytes header) in
    if (10 * 1024 * 1024 <? from_bytes header)%N then (None, conn)
    else recv_exactly length length [] conn
  end.
End Tetris.

(** ** Connections *)

(** A frame a client sends: text that is not JSON, or a JSON object, with
    its keys [client_type] (read from the first frame only), [action] and
    [data]. *)
Inductive client_frame :=
  | NotJson
  | Json (client_type : option string) (action : option string) (data : request).

(** What the server sends on a connection: the answer to the handshake, with
    its [message] and [server_type], or a response. *)
Inductive server_frame (R : Type) :=
  | Welcome (message server_type : string)
  | Reply (r : R).
Arguments Welcome {R} message server_type.
Arguments Reply {R} r.

(** The request loop of [handle_lobby_client], over the frames received
    until the connection ends (it is closed, or a frame is empty or cannot
    be read as text), each with what the server observes while it handles
    the frame.  Returns the responses sent, the name the connection is
    bound to in the end, and the server state. *)
Fixpoint lobby_loop (conn : nat) (frames : list (client_frame * environment))
    (player_name : option string) (s : server)
    : list response * option string * server :=
  match frames with
  | [] => ([], player_name, s)
  | (NotJson, _) :: frames =>
    let '(responses, player_name, s) := lobby_loop conn frames player_name s in
    (Error "Invalid JSON" :: responses, player_name, s)
  | (Json _ action data, e) :: frames =>
    let '(response, player_name, s) := lobby_request conn e action data player_name s in
    let '(responses, player_name, s) := lobby_loop conn frames player_name s in
    (response :: responses, player_name, s)
  end.

(** [handle_lobby_client]: the handshake ([None]: the connection ends
    before a frame arrives, or the frame is empty), the request loop, and
    the cleanup of the [finally] block, which a refused handshake reaches
    with no name bound. *)
Definition handle_lobby_client (conn : nat) (handshake : option client_frame)
    (frames : list (client_frame * environment)) (s : server)
    : list (server_frame response) * server :=
  match handshake with
  | None | Some NotJson => ([], s)
  | Some (Json client_type _ _) =>
    if negb (bool_decide (client_type = Some "player")) then
      ([Reply (Error ("❌ 這是 Lobby Server（玩家用）！你連到了錯誤的 Port。" +:+
                      String "010" "請使用 Player Client 連線，或改用 Developer Port。"))],
       s)
    else
    let '(responses, player_name, s) := lobby_loop conn frames None s in
    (Welcome "Connected to Lobby Server" "lobby" :: (Reply <$> responses),
     lobby_disconnect player_name s)
  end.



(** ** Runs of the server *)

(** What can happen to the server: a request of a logged-in developer, one
    turn of a player connection, the end of a player connection, the end of
    a game server process.  The session of a connection is not tracked here:
    a player event may carry any binding, so that every state the server can
    be in is the result of some list of events. *)
Inductive event :=
  | UploadGame (data : request) (developer_name : string) (now : Z)
  | UpdateGame (data : request) (developer_name : string) (now : Z)
  | RemoveGame (data : request) (developer_name : string)
  | LobbyRequest (conn : nat) (e : environment) (action : option string)
      (data : request) (player_name : option string)
  | LobbyDisconnect (player_name : option string)
  | GameServerExit (room_id : string).

Definition run_event (s : server) (ev : event) : server :=
  match ev with
  | UploadGame data developer_name now =>
      (handle_upload_game data developer_name now s).2
  | UpdateGame data developer_name now =>
      (handle_update_game data developer_name now s).2
  | RemoveGame data developer_name => (handle_remove_game data developer_name s).2
  | LobbyRequest conn e action data player_name =>
      (lobby_request conn e action data player_name s).2
  | LobbyDisconnect player_name => lobby_disconnect player_name s
  | GameServerExit room_id => monitor_game_server room_id s
  end.

Definition run (evs : list event) : server := foldl run_event initial_server evs.

Definition reachable (s : server) : Prop := ∃ evs, run evs = s.

(** ** Properties stated about the server *)


(** At most one review per player in every review list. *)
Definition reviews_unique (s : server) : Prop :=
  ∀ game_name game_reviews,
    reviews s !! game_name = Some game_reviews → NoDup (player <$> game_reviews).

(** The host of a room is one of its players, and no player is listed twice. *)
Definition room_ok (r : room) : Prop := host r ∈ players r ∧ NoDup (players r).

Definition rooms_ok (s : server) : Prop := Forall (λ e, room_ok e.2) (rooms s).

(** The check of [handle_upload_game] on [start_command]. *)
Definition start_command_accepted (c : config) : bool :=
  let start_command := strip (get_default (start_command c) "") in
  negb (String.eqb start_command "")
  && contains "{host}" start_command && contains "{port}" start_command.

(** A configuration as the catalog wants it: a [start_command] that contains
    both placeholders. *)
Definition has_placeholders (c : config) : bool :=
  match start_command c with
  | Some cmd => contains "{host}" cmd && contains "{port}" cmd
  | None => false
  end.

(** The reviews of a game. *)
Definition reviews_of (game_name : string) (s : server) : list review :=
  default [] (reviews s !! game_name).

(** The review [handle_submit_review] builds from a request. *)
Definition new_review (data : request) (player_name now : string) (rating : Z) : review :=
  {| player := player_name; rating := rating;
     review_comment := get_default (req_comment data) ""; timestamp := now |}.

(** The state after a review is stored: the review list of the game is
    replaced and the two aggregates of its catalog entry are recomputed. *)
Definition reviewed (game_name : string) (info : game_info)
    (game_reviews : list review) (s : server) : server :=
  set_games_metadata
    (<[game_name := set_rating (py_round (avg_rating (ratings_of game_reviews)) 2)
                      (length (ratings_of game_reviews)) info]> (games_metadata s))
    (set_reviews (<[game_name := game_reviews]> (reviews s)) s).


(** The version test of [handle_join_room] and [handle_create_room]: a
    missing or empty version is not compared. *)
Definition version_admitted (player_version : option string) (room_version : string)
    : bool :=
  negb (truthy player_version
        && negb (String.eqb (get_default player_version "") room_version)).

(** [all([game_name, game_type, game_files_b64])] in [handle_upload_game]. *)
Definition upload_fields_present (data : request) : bool :=
  truthy (req_game_name data) && truthy (req_game_type data)
  && bool_decide (is_Some (req_game_files data)).

(** What holds of every room of a reachable state, beside [room_ok]. *)
Definition room_wf (r : room) : Prop :=
  (room_status_of r = waiting ∨ room_status_of r = playing) ∧
  (Z.of_nat (length (players r)) <= Z.max 1 (room_max_players r))%Z ∧
  (∀ p, game_server_pid r = Pid p →
        room_status_of r = playing ∧ game_server_process r = Some p ∧
        is_Some (game_server_port r)).

Definition rooms_wf (s : server) : Prop := Forall (λ e, room_wf e.2) (rooms s).

(** The number a room id was made from: the decimal value of what follows
    the five characters of the prefix. *)
Definition digit_value (a : ascii) : N := N.of_nat (nat_of_ascii a) - 48.

Fixpoint decimal_value (acc : N) (s : string) : N :=
  match s with
  | String a s' => decimal_value (acc * 10 + digit_value a) s'
  | EmptyString => acc
  end.

Definition room_number (rid : string) : N :=
  match rid with
  | String _ (String _ (String _ (String _ (String _ digits)))) =>
      decimal_value 0 digits
  | _ => 0%N
  end.

(** Room ids are distinct and were made from counter values already used. *)
Definition room_ids_ok (s : server) : Prop :=
  NoDup (rooms s).*1 ∧
  Forall (λ rid, ∃ k, (k < room_id_counter s)%nat ∧ rid = format_room_id k)
         (rooms s).*1.

(** The room ids and the counter after a handler that creates no room. *)
Definition room_ids_kept (s s' : server) : Prop :=
  room_id_counter s' = room_id_counter s ∧ sublist (rooms s').*1 (rooms s).*1.

(** The room [handle_create_room] makes. *)
Definition new_room (room_id game_name : string) (info : game_info)
    (player_name : string) (now : Z) : room :=
  {| room_id := room_id; room_game_name := game_name;
     room_version := version info; host := player_name;
     players := [player_name]; ready_players := [];
     room_max_players := max_players info; room_status_of := waiting;
     room_created_at := now; game_server_port := None;
     game_server_pid := PidMissing; game_server_process := None |}.

(** What holds of every entry of the catalog of a reachable state. *)
Definition game_ok (s : server) (g : string) (info : game_info) : Prop :=
  g ≠ "" ∧ game_name info = g ∧ status info = "active" ∧
  is_Some (game_dir g (version info) s) ∧
  start_command_accepted (game_config info) = true ∧
  (0 <= average_rating info <= 5)%Q.

Definition catalog_ok (s : server) : Prop :=
  (∀ g info, games_metadata s !! g = Some info → game_ok s g info) ∧
  (∀ g l, reviews s !! g = Some l → Forall (λ r, (1 <= rating r <= 5)%Z) l) ∧
  (∀ p l, players_file s !! p = Some l → NoDup l).

(** The documents a handler of rooms leaves alone. *)
Definition catalog_kept (s s' : server) : Prop :=
  games_metadata s' = games_metadata s ∧ uploaded_games s' = uploaded_games s ∧
  reviews s' = reviews s ∧ players_file s' = players_file s.

(** A room is for a game of the catalog, at its current version, and has
    the process of a game server only if the game has a server command. *)
Definition room_current (catalog : gmap string game_info) (r : room) : Prop :=
  ∃ info, catalog !! room_game_name r = Some info ∧
          version info = room_version r ∧ max_players info = room_max_players r ∧
          (is_Some (game_server_process r) →
           truthy (server_command (game_config info)) = true).

Definition rooms_current (s : server) : Prop :=
  Forall (λ e, room_current (games_metadata s) e.2) (rooms s).

(** The state after [player_name] downloads [game_name]. *)
Definition after_download (game_name : string) (info : game_info) (player_name : string)
    (s : server) : server :=
  let history := default [] (players_file s !! player_name) in
  set_players_file
    (<[player_name := if bool_decide (game_name ∈ history) then history
                      else (history ++ [game_name])%list]> (players_file s))
    (set_games_metadata (<[game_name := count_download info]> (games_metadata s)) s).

(** The order of the player list: by status, then by name. *)
Definition player_info_order (a b : player_info) : Prop := player_info_le a b = true.

(** The entry of the player list for [username]. *)
Definition player_info_of (rs : list (string * room)) (username : string) : player_info :=
  match player_room_map rs !! username with
  | Some (room_id, game_name, room_status, is_host) =>
    {| pi_username := username;
       pi_status := if bool_decide (room_status = playing) then status_playing
                    else status_in_room;
       pi_room := Some (room_id, game_name, is_host) |}
  | None => {| pi_username := username; pi_status := status_idle; pi_room := None |}
  end.

Definition db_is_success (r : db_response) : bool :=
  match r with DbSuccess _ _ => true | DbError _ => false end.

(** The accounts of a collection. *)
Definition accounts_of (collection : string) (db : database) : gmap string account :=
  if String.eqb collection "Developer" then db_developers db else db_players db.

(** No frame asks for a login. *)
Definition no_login {E} (frames : list (client_frame * E)) : Prop :=
  Forall (λ f : client_frame * E,
            match f.1 with
            | Json _ action _ => action ≠ Some "login"
            | NotJson => True
            end) frames.

(** ** Sample data *)

Module Sample.
Definition tic_config : config :=
  {| start_command := Some "python3 game.py {host} {port}";
     server_command := None; compile_command := None |}.

Definition tic_bundle : zip_archive :=
  {| members := [{| arcname := "game.py"; content := "print('tic')";
                    compress_method := ZIP_STORED |}];
     zip_comment := "" |}.

(** An [upload_game] request for game [name] at [version]. *)
Definition upload (name version : string) (cfg : config) : request :=
  {| req_game_name := Some name; req_game_type := Some "CLI";
     req_description := Some "a game"; req_max_players := Some 3%Z;
     req_version := Some version; req_game_files := Some (Archive tic_bundle);
     req_config := Some cfg; req_update_notes := None; req_room_id := None;
     req_rating := None; req_comment := None; req_username := None;
     req_password := None |}.

(** A request that names a game: [download_game], [get_reviews],
    [remove_game], and [create_room] with the version of the player. *)
Definition about_game (name : string) (version : option string) : request :=
  {| req_game_name := Some name; req_game_type := None; req_description := None;
     req_max_players := None; req_version := version; req_game_files := None;
     req_config := None; req_update_notes := None; req_room_id := None;
     req_rating := None; req_comment := None; req_username := None;
     req_password := None |}.

Definition submit_review (name : string) (rating : Z) (comment : string) : request :=
  {| req_game_name := Some name; req_game_type := None; req_description := None;
     req_max_players := None; req_version := None; req_game_files := None;
     req_config := None; req_update_notes := None; req_room_id := None;
     req_rating := Some rating; req_comment := Some comment;
     req_username := None; req_password := None |}.

(** [join_room] or [leave_room] on a room, with the version of the player. *)
Definition about_room (room_id : string) (version : option string) : request :=
  {| req_game_name := None; req_game_type := None; req_description := None;
     req_max_players := None; req_version := version; req_game_files := None;
     req_config := None; req_update_notes := None; req_room_id := Some room_id;
     req_rating := None; req_comment := None; req_username := None;
     req_password := None |}.

Definition login (username password : string) : request :=
  {| req_game_name := None; req_game_type := None; req_description := None;
     req_max_players := None; req_version := None; req_game_files := None;
     req_config := None; req_update_notes := None; req_room_id := None;
     req_rating := None; req_comment := None; req_username := Some username;
     req_password := Some password |}.

(** A game played through a game server. *)
Definition duel_config : config :=
  {| start_command := Some "python3 client.py {host} {port}";
     server_command := Some "python3 server.py {port}"; compile_command := None |}.

(** The credential server accepts, no game server runs. *)
Definition env : environment :=
  {| env_time := 1700000000; env_strftime := "2024-01-01 12:00:00";
     env_db := DbResponse (Success (Some "Login success") None);
     env_randint := 20000; env_popen := PopenExited;
     env_poll := λ _, None; env_kill0_raises := λ _, false |}.

(** The credential server accepts, and a game server started now runs as
    process 4242. *)
Definition env_running : environment :=
  {| env_time := 1700000100; env_strftime := "2024-01-01 12:01:40";
     env_db := DbResponse (Success (Some "Login success") None);
     env_randint := 20001; env_popen := PopenRunning 4242;
     env_poll := λ _, None; env_kill0_raises := λ _, false |}.
End Sample.

(** Runs of the server used as examples. *)
Module Runs.
Import Sample.

Definition login_as (conn : nat) (name : string) : event :=
  LobbyRequest conn env (Some "login") (login name "secret") None.

Definition as_player (conn : nat) (name action : string) (data : request) : event :=
  LobbyRequest conn env (Some action) data (Some name).

(** A developer publishes [tic] at version 1.0.0. *)
Definition published : list event :=
  [UploadGame (upload "tic" "1.0.0" tic_config) "dev" 100].

(** Then [ann] logs in and downloads it. *)
Definition downloaded : list event :=
  (published ++
   [login_as 1 "ann"; as_player 1 "ann" "download_game" (about_game "tic" None)])%list.

(** Three players log in, download [tic] and rate it 5, 4 and 4. *)
Definition rated : list event :=
  (downloaded ++
   [as_player 1 "ann" "submit_review" (submit_review "tic" 5 "great");
    login_as 2 "bob"; as_player 2 "bob" "download_game" (about_game "tic" None);
    as_player 2 "bob" "submit_review" (submit_review "tic" 4 "good");
    login_as 3 "cat"; as_player 3 "cat" "download_game" (about_game "tic" None);
    as_player 3 "cat" "submit_review" (submit_review "tic" 4 "fine")])%list.

(** [alice] opens a room for [tic]. *)
Definition room_open : list event :=
  (published ++
   [login_as 1 "alice";
    as_player 1 "alice" "create_room" (about_game "tic" (Some "1.0.0"))])%list.

(** Then [bob] joins it. *)
Definition room_joined : list event :=
  (room_open ++
   [login_as 2 "bob"; as_player 2 "bob" "join_room" (about_room "ROOM_0001" (Some "1.0.0"))])%list.

(** [alice] opens a second room without leaving the first. *)
Definition two_rooms : list event :=
  (room_open ++
   [as_player 1 "alice" "create_room" (about_game "tic" (Some "1.0.0"))])%list.

(** [duel] is published, [alice] opens a room, [bob] joins, [alice] starts
    the game: the room is playing and owns process 4242. *)
Definition game_started : list event :=
  [UploadGame (upload "duel" "1.0.0" duel_config) "dev" 100;
   login_as 1 "alice";
   as_player 1 "alice" "create_room" (about_game "duel" (Some "1.0.0"));
   login_as 2 "bob";
   as_player 2 "bob" "join_room" (about_room "ROOM_0001" (Some "1.0.0"));
   LobbyRequest 1 env_running (Some "start_game") (about_room "ROOM_0001" None)
     (Some "alice")].

(** The room of [game_started]. *)
Definition duel_room : room :=
  {| room_id := "ROOM_0001"; room_game_name := "duel"; room_version := "1.0.0";
     host := "alice"; players := ["alice"; "bob"]; ready_players := [];
     room_max_players := 3; room_status_of := playing;
     room_created_at := 1700000000; game_server_port := Some 20001%Z;
     game_server_pid := Pid 4242; game_server_process := Some 4242%Z |}.
End Runs.

(** Further requests, states and runs used as examples. *)
Module Cases.
Import Sample Runs.

(** The catalog entry of [tic] after [published]. *)
Definition tic_info : game_info :=
  {| game_id := "tic_100"; game_name := "tic"; developer := "dev";
     game_type := "CLI"; description := "a game"; max_players := 3;
     version := "1.0.0"; created_at := 100; updated_at := 100;
     status := "active"; game_config := tic_config; download_count := 0;
     average_rating := 0; review_count := 0; update_notes := None |}.

(** The files of [tic] on the server. *)
Definition tic_dir : directory := extractall tic_bundle ∅.

(** The room of [room_joined]. *)
Definition tic_room : room :=
  {| room_id := "ROOM_0001"; room_game_name := "tic"; room_version := "1.0.0";
     host := "alice"; players := ["alice"; "bob"]; ready_players := [];
     room_max_players := 3; room_status_of := waiting;
     room_created_at := 1700000000; game_server_port := None;
     game_server_pid := PidMissing; game_server_process := None |}.

(** [alice] starts [tic], a game without server command, in that room. *)
Definition tic_started : list event :=
  (room_joined ++
   [LobbyRequest 1 env (Some "start_game") (about_room "ROOM_0001" None)
      (Some "alice")])%list.

(** An update of [tic] at its current version whose payload is not a zip
    archive. *)
Definition broken_update : request :=
  {| req_game_name := Some "tic"; req_game_type := None; req_description := None;
     req_max_players := None; req_version := Some "1.0.0";
     req_game_files := Some (BadZipFile "not a zip" "File is not a zip file");
     req_config := None; req_update_notes := Some "fix"; req_room_id := None;
     req_rating := None; req_comment := None; req_username := None;
     req_password := None |}.

(** A stand-in for the hash of a password. *)
Definition toy_hash (password : string) : string := "#" +:+ password.

Definition empty_database : database := {| db_developers := ∅; db_players := ∅ |}.

(** The credential server has created the player [ann], and has checked
    her password. *)
Definition env_created : environment :=
  {| env_time := 1700000000; env_strftime := "2024-01-01 12:00:00";
     env_db := DbResponse (Success (Some "Player created") (Some (NameReply "ann")));
     env_randint := 20000; env_popen := PopenExited;
     env_poll := λ _, None; env_kill0_raises := λ _, false |}.

Definition env_checked : environment :=
  {| env_time := 1700000000; env_strftime := "2024-01-01 12:00:00";
     env_db := DbResponse (Success (Some "Login success") (Some (NameReply "ann")));
     env_randint := 20000; env_popen := PopenExited;
     env_poll := λ _, None; env_kill0_raises := λ _, false |}.

(** The frame of the two bytes [hi]. *)
Definition hi_frame : bytes := ["000"; "000"; "000"; "002"; "h"; "i"]%char.
End Cases.

(** * Verification *)

(** ** The definitions at work *)

Example strip_example :
  strip "  python3 game.py {host} {port} " = "python3 game.py {host} {port}".
Proof. reflexivity. Qed.

Example contains_example :
  contains "{port}" "python3 game.py {host} {port}" = true ∧
  contains "{port}" "python3 game.py {host}" = false.
Proof. split; reflexivity. Qed.

Example format_room_id_example :
  format_room_id 1 = "ROOM_0001" ∧ format_room_id 123 = "ROOM_0123" ∧
  format_room_id (100 * 100) = "ROOM_10000".
Proof. repeat split; reflexivity. Qed.

Example version_format_ok_example :
  version_format_ok "1.0.0" = true ∧ version_format_ok "10.2.33" = true ∧
  version_format_ok "1.0" = false ∧ version_format_ok "1..0" = false ∧
  version_format_ok "1.0.0." = false ∧ version_format_ok "v1.0.0" = false.
Proof. repeat split; reflexivity. Qed.

Example py_round_example :
  py_round (13 # 3) 2 = (433 # 100)%Q ∧ py_round (13 # 3) 1 = (43 # 10)%Q ∧
  py_round (9 # 2) 2 = (9 # 2)%Q ∧ py_round 0 1 = 0%Q.
Proof. repeat split; reflexivity. Qed.

Example game_started_example :
  rooms (run Runs.game_started) = [("ROOM_0001", Runs.duel_room)] ∧
  room_id_counter (run Runs.game_started) = 2 ∧
  terminated (run Runs.game_started) = [].
Proof. repeat split; reflexivity. Qed.

(** ** Strings *)

Lemma prefix_app needle p t :
  String.prefix needle p = true → String.prefix needle (p +:+ t) = true.
Proof.
  revert needle. induction p as [|a p IH]; intros needle; destruct needle as [|c n];
    simpl; try done.
  - by destruct t.
  - destruct (ascii_dec c a); [apply IH|done].
Qed.

Lemma contains_app needle p t :
  contains needle p = true → contains needle (p +:+ t) = true.
Proof.
  induction p as [|a p IH]; simpl.
  - rewrite orb_false_r. destruct needle; [|done]. by destruct t.
  - intros [H|H]%orb_true_iff; apply orb_true_iff.
    + left. by apply (prefix_app needle (String a p)).
    + right. by apply IH.
Qed.

Lemma rstrip_prefix s : ∃ t, s = rstrip s +:+ t.
Proof.
  induction s as [|a s [t IH]]; [by exists ""|].
  simpl. destruct (rstrip s) as [|b r] eqn:Hr.
  - destruct (py_isspace a); [by exists (String a s)|].
    exists t. simpl in *. by rewrite IH at 1.
  - exists t. simpl in *. by rewrite IH at 1.
Qed.

Lemma contains_lstrip needle s :
  contains needle (lstrip s) = true → contains needle s = true.
Proof.
  induction s as [|a s IH]; [done|].
  simpl. destruct (py_isspace a); [|done].
  intros H. rewrite (IH H). apply orb_true_r.
Qed.

(** What a stripped string contains, the string contains. *)
Lemma contains_strip needle s :
  contains needle (strip s) = true → contains needle s = true.
Proof.
  intros H. apply contains_lstrip.
  destruct (rstrip_prefix (lstrip s)) as [t Ht]. rewrite Ht.
  by apply contains_app.
Qed.

(** ** Upload: the start command *)

(** C8. An upload whose configuration has no [start_command], or one without
    both placeholders [{host}] and [{port}], is answered with an error and
    leaves the server as it was: no catalog entry, no stored file.  The error
    is one of the two configuration errors as soon as the required fields of
    the request are there (their absence is reported first). *)
Theorem upload_rejects_bad_start_command data developer_name now s :
  has_placeholders (get_default (req_config data) empty_config) = false →
  let r := handle_upload_game data developer_name now s in
  r.2 = s ∧
  (r.1 = Error "Missing required fields"
   ∨ r.1 = Error "start_command is required in config"
   ∨ r.1 = Error "start_command must include {host} and {port} placeholders") ∧
  (upload_fields_present data = true → r.1 ≠ Error "Missing required fields").
Proof.
  intros Hbad. unfold handle_upload_game, upload_fields_present.
  destruct (req_game_name data) as [game_name|]; simpl; [|by auto].
  destruct (req_game_type data) as [game_type|]; simpl; [|rewrite andb_false_r; by auto].
  destruct (req_game_files data) as [game_files|]; simpl; [|rewrite andb_false_r; by auto].
  destruct (String.eqb game_name ""); simpl; [by auto|].
  destruct (String.eqb game_type ""); simpl; [by auto|].
  set (cmd := strip _).
  destruct (String.eqb cmd "") eqn:He; simpl; [by auto 6|].
  destruct (contains "{host}" cmd) eqn:Hh; simpl; [|by auto 6].
  destruct (contains "{port}" cmd) eqn:Hp; simpl; [|by auto 6].
  exfalso. unfold has_placeholders in Hbad. subst cmd.
  destruct (start_command _) as [c|]; simpl in *.
  - apply contains_strip in Hh, Hp. by rewrite Hh, Hp in Hbad.
  - done.
Qed.

Lemma upload_rejects_bad_start_command_witness :
  let data :=
    Sample.upload "tic" "1.0.0"
      {| start_command := Some "python3 game.py {host}";
         server_command := None; compile_command := None |} in
  has_placeholders (get_default (req_config data) empty_config) = false ∧
  let r := handle_upload_game data "alice" 100 initial_server in
  r.2 = initial_server ∧
  (r.1 = Error "Missing required fields"
   ∨ r.1 = Error "start_command is required in config"
   ∨ r.1 = Error "start_command must include {host} and {port} placeholders") ∧
  (upload_fields_present data = true → r.1 ≠ Error "Missing required fields").
Proof.
  split; [reflexivity|].
  apply (upload_rejects_bad_start_command
           (Sample.upload "tic" "1.0.0"
              {| start_command := Some "python3 game.py {host}";
                 server_command := None; compile_command := None |})
           "alice" 100 initial_server).
  reflexivity.
Defined.
(** ** Dictionaries *)

Section dict_facts.
Context {V : Type}.
Implicit Types (d : list (string * V)) (k : string) (v : V).

Lemma dict_get_elem_of k v d : dict_get k d = Some v → (k, v) ∈ d.
Proof.
  induction d as [|[k' v'] d IH]; simpl; [done|].
  destruct (decide (k = k')) as [->|]; [intros [= ->]; left|right; auto].
Qed.

Lemma Forall_dict_set (P : string * V → Prop) k v d :
  P (k, v) → Forall P d → Forall P (dict_set k v d).
Proof.
  intros Hv. induction 1 as [|[k' v'] d Hx Hd IH]; simpl.
  - by repeat constructor.
  - destruct (decide (k = k')); constructor; auto.
Qed.

Lemma Forall_dict_del (P : string * V → Prop) k d :
  Forall P d → Forall P (dict_del k d).
Proof.
  rewrite !Forall_forall. intros H e He. apply H.
  unfold dict_del in He. by apply list_elem_of_filter in He as [_ ?].
Qed.

Lemma dict_del_dict_set k v d : dict_del k (dict_set k v d) = dict_del k d.
Proof.
  unfold dict_del. induction d as [|[k' v'] d IH]; simpl.
  - rewrite filter_cons. simpl. by destruct (decide (k ≠ k)).
  - destruct (decide (k = k')) as [->|Hne].
    + rewrite !filter_cons. simpl. by destruct (decide (k' ≠ k')).
    + rewrite !filter_cons. simpl. by rewrite IH.
Qed.

Lemma dict_get_dict_set k k' v d :
  dict_get k' (dict_set k v d) = if decide (k' = k) then Some v else dict_get k' d.
Proof.
  induction d as [|[k0 v0] d IH]; simpl.
  - by destruct (decide (k' = k)).
  - destruct (decide (k = k0)) as [->|Hne]; simpl.
    + by destruct (decide (k' = k0)).
    + destruct (decide (k' = k0)) as [->|]; [|done].
      by destruct (decide (k0 = k)).
Qed.

End dict_facts.


Lemma dict_get_dict_set_eq {V} k (v : V) d : dict_get k (dict_set k v d) = Some v.
Proof. rewrite dict_get_dict_set. by destruct (decide (k = k)). Qed.

(** ** Destroying the rooms of a game *)

Lemma delete_rooms_loop l acc s :
  foldl delete_rooms_step (acc, s) l
  = ((acc ++ (removed_room_of <$> l))%list,
     set_rooms (foldl (λ d e, dict_del e.1 d) (rooms s) l)
       (set_terminated (foldl (λ t e, stop_game_server e.2 t) (terminated s) l) s)).
Proof.
  revert acc s. induction l as [|e l IH]; intros acc s.
  - simpl. rewrite app_nil_r. by destruct s.
  - simpl. unfold delete_rooms_step at 2. simpl. rewrite IH. simpl.
    by rewrite <- app_assoc.
Qed.

Lemma delete_rooms_of_game_eq game_name s :
  let l := filter (λ e : string * room, room_game_name e.2 = game_name) (rooms s) in
  delete_rooms_of_game game_name s
  = (removed_room_of <$> l,
     set_rooms (foldl (λ d e, dict_del e.1 d) (rooms s) l)
       (set_terminated (foldl (λ t e, stop_game_server e.2 t) (terminated s) l) s)).
Proof. apply (delete_rooms_loop _ [] s). Qed.

Lemma elem_of_dict_del {V} (e : string * V) k d :
  e ∈ dict_del k d ↔ e ∈ d ∧ e.1 ≠ k.
Proof. unfold dict_del. rewrite list_elem_of_filter. tauto. Qed.

Lemma elem_of_foldl_dict_del {V} (e : string * V) (l : list (string * V)) d :
  e ∈ foldl (λ d e, dict_del e.1 d) d l ↔ e ∈ d ∧ e.1 ∉ l.*1.
Proof.
  revert d. induction l as [|x l IH]; intros d; simpl.
  - rewrite elem_of_nil. tauto.
  - rewrite IH, elem_of_dict_del, not_elem_of_cons. tauto.
Qed.



(** ** Bundles: upload, then download *)

Lemma foldl_insert_union (l : list (string * string)) (m : gmap string string) :
  NoDup l.*1 →
  foldl (λ d kv, <[kv.1 := kv.2]> d) m l = list_to_map l ∪ m.
Proof.
  revert m. induction l as [|[k v] l IH]; intros m Hnd.
  - simpl. by rewrite (left_id_L ∅ (∪)).
  - rewrite fmap_cons in Hnd. apply NoDup_cons in Hnd as [Hk Hnd].
    simpl. rewrite IH by done.
    rewrite <- insert_union_l. symmetry. apply insert_union_r.
    by apply not_elem_of_list_to_map_1.
Qed.

Lemma extractall_pack dir : extractall (pack dir) ∅ = dir.
Proof.
  unfold extractall, pack. simpl. rewrite foldl_fmap. simpl.
  rewrite (foldl_insert_union (map_to_list dir) ∅).
  - rewrite (right_id_L ∅ (∪)). apply list_to_map_to_list.
  - apply NoDup_fst_map_to_list.
Qed.

Lemma pack_deflated dir :
  Forall (λ m, compress_method m = ZIP_DEFLATED) (members (pack dir)).
Proof. unfold pack. simpl. apply Forall_fmap, Forall_forall. by intros. Qed.

Lemma game_dir_write name ver dir s :
  game_dir name ver (write_game_dir name ver dir s) = Some dir.
Proof.
  unfold game_dir, write_game_dir. simpl.
  rewrite lookup_insert_eq. simpl. by rewrite lookup_insert_eq.
Qed.

Lemma game_dir_set_games_metadata name ver g s :
  game_dir name ver (set_games_metadata g s) = game_dir name ver s.
Proof. done. Qed.

Lemma extractall_lookup_other a dir name :
  name ∉ arcname <$> members a → extractall a dir !! name = dir !! name.
Proof.
  unfold extractall. revert dir.
  induction (members a) as [|m l IH]; intros dir Hn; [done|].
  rewrite fmap_cons in Hn. apply not_elem_of_cons in Hn as [Hm Hl].
  simpl. rewrite IH by done. by apply lookup_insert_ne.
Qed.

(** C1 (amended). The server keeps the files of an uploaded bundle, not its
    bytes: the bundle a download returns is a new archive of the version
    directory, every member deflated and without comment.  Extracting it
    gives the files of that directory, that is the files extracted from the
    uploaded bundle over what the directory held, [game.zip] removed; for a
    directory that did not exist and a bundle without a member [game.zip]
    these are the files of the uploaded bundle. *)
Theorem download_after_upload data developer_name now s player_name request :
  is_success (handle_upload_game data developer_name now s).1 = true →
  req_game_name request = req_game_name data →
  ∃ game_name a,
    req_game_name data = Some game_name ∧
    req_game_files data = Some (Archive a) ∧
    let version := get_default (req_version data) "1.0.0" in
    let s1 := (handle_upload_game data developer_name now s).2 in
    let stored :=
      delete "game.zip" (extractall a (default ∅ (game_dir game_name version s))) in
    (handle_download_game request player_name s1).1
    = Success None
        (Some (DownloadReply game_name version (pack stored)
                 (get_default (req_config data) empty_config))) ∧
    extractall (pack stored) ∅ = stored ∧
    (game_dir game_name version s = None →
     "game.zip" ∉ arcname <$> members a →
     extractall (pack stored) ∅ = extractall a ∅) ∧
    Forall (λ m, compress_method m = ZIP_DEFLATED) (members (pack stored)) ∧
    zip_comment (pack stored) = "".
Proof.
  unfold handle_upload_game. intros Hok Hreq.
  destruct (req_game_name data) as [game_name|] eqn:Hname; [|done].
  destruct (req_game_type data) as [game_type|]; [|done].
  destruct (req_game_files data) as [game_files|]; [|done].
  destruct (String.eqb game_name "") eqn:Hne; [done|].
  destruct (String.eqb game_type ""); [done|]. simpl in Hok |- *.
  destruct (String.eqb (strip _) ""); [done|].
  destruct (negb (contains "{host}" _) || negb (contains "{port}" _)); [done|].
  destruct (games_metadata s !! game_name) eqn:Hfresh; [done|].
  destruct game_files as [err|raw err|a]; simpl in Hok; [done|done|].
  exists game_name, a. split; [done|]. split; [done|]. simpl.
  split; [|split; [apply extractall_pack|split; [|split; [apply pack_deflated|done]]]].
  - unfold handle_download_game. rewrite Hreq. simpl. rewrite Hne. simpl.
    rewrite lookup_insert_eq. simpl.
    rewrite game_dir_set_games_metadata, game_dir_write. done.
  - intros -> Hzip. rewrite extractall_pack. simpl. apply delete_id.
    by rewrite extractall_lookup_other.
Qed.

Lemma download_after_upload_witness :
  let data := Sample.upload "tic" "1.0.0" Sample.tic_config in
  let s1 := (handle_upload_game data "dev" 100 initial_server).2 in
  let stored :=
    delete "game.zip"
      (extractall Sample.tic_bundle
         (default ∅ (game_dir "tic" "1.0.0" initial_server))) in
  is_success (handle_upload_game data "dev" 100 initial_server).1 = true ∧
  req_game_name (Sample.about_game "tic" None) = req_game_name data ∧
  (handle_download_game (Sample.about_game "tic" None) "bob" s1).1
  = Success None (Some (DownloadReply "tic" "1.0.0" (pack stored) Sample.tic_config)) ∧
  extractall (pack stored) ∅ = extractall Sample.tic_bundle ∅.
Proof.
  destruct (download_after_upload (Sample.upload "tic" "1.0.0" Sample.tic_config)
              "dev" 100 initial_server "bob" (Sample.about_game "tic" None)
              eq_refl eq_refl)
    as (game_name & a & Hn & Ha & Hd & _ & Hsame & _).
  injection Hn as <-. injection Ha as <-.
  split; [reflexivity|]. split; [reflexivity|].
  split; [exact Hd|].
  apply Hsame; [reflexivity|].
  simpl. intros H%list_elem_of_singleton. discriminate H.
Defined.

(** C1, counterexample: a bundle with one stored (uncompressed) member comes
    back with that member deflated, so the two archives differ. *)
Lemma download_differs_from_upload :
  let data := Sample.upload "tic" "1.0.0" Sample.tic_config in
  let uploaded := handle_upload_game data "dev" 100 initial_server in
  let repacked :=
    {| members := [{| arcname := "game.py"; content := "print('tic')";
                      compress_method := ZIP_DEFLATED |}];
       zip_comment := "" |} in
  req_game_files data = Some (Archive Sample.tic_bundle) ∧
  is_success uploaded.1 = true ∧
  (handle_download_game (Sample.about_game "tic" None) "bob" uploaded.2).1
  = Success None (Some (DownloadReply "tic" "1.0.0" repacked Sample.tic_config)) ∧
  repacked ≠ Sample.tic_bundle.
Proof. repeat split; by vm_compute. Qed.

(** ** Versions *)




(** ** Ratings *)



(** ** Reviews *)

(** Case analysis along the branches of a handler: destruct what the
    handler tests, one test after the other. *)
Ltac handler_cases :=
  repeat first
    [ rewrite delete_rooms_of_game_eq
    | progress simpl
    | match goal with
      | |- context [match ?x with _ => _ end] => destruct x eqn:?
      end ];
  try done.

Lemma reviews_upload data dev now s :
  reviews (handle_upload_game data dev now s).2 = reviews s.
Proof. unfold handle_upload_game. handler_cases. Qed.

Lemma reviews_update data dev now s :
  reviews (handle_update_game data dev now s).2 = reviews s.
Proof. unfold handle_update_game. handler_cases. Qed.

Lemma reviews_remove data dev s :
  reviews (handle_remove_game data dev s).2 = reviews s.
Proof. unfold handle_remove_game. handler_cases. Qed.

Lemma reviews_leave data p s :
  reviews (handle_leave_room data p s).2 = reviews s.
Proof. unfold handle_leave_room. handler_cases. Qed.

Lemma reviews_disconnect p s : reviews (lobby_disconnect p s) = reviews s.
Proof.
  unfold lobby_disconnect. handler_cases. apply reviews_leave.
Qed.

Lemma reviews_monitor rid s : reviews (monitor_game_server rid s) = reviews s.
Proof. unfold monitor_game_server. handler_cases. Qed.

Lemma reviews_actually_start rid r e s :
  reviews (_actually_start_game rid r e s).2 = reviews s.
Proof. unfold _actually_start_game. handler_cases. Qed.

Lemma reviews_player_ready data p e s :
  reviews (handle_player_ready data p e s).2 = reviews s.
Proof.
  unfold handle_player_ready.
  repeat (case_match; try done); simpl; by rewrite reviews_actually_start.
Qed.

Lemma submit_review_success data player_name now s :
  is_success (handle_submit_review data player_name now s).1 = true →
  ∃ game_name rating info downloaded,
    req_game_name data = Some game_name ∧ req_rating data = Some rating ∧
    (1 <= rating <= 5)%Z ∧
    games_metadata s !! game_name = Some info ∧ status info = "active" ∧
    players_file s !! player_name = Some downloaded ∧ game_name ∈ downloaded ∧
    (handle_submit_review data player_name now s).2
    = reviewed game_name info
        (upsert_review player_name (new_review data player_name now rating)
           (default [] (reviews s !! game_name))) s.
Proof.
  unfold handle_submit_review.
  destruct (req_rating data) as [rating|]; [|done].
  destruct (req_game_name data) as [game_name|]; [|done]. simpl.
  destruct (negb (negb (game_name =? ""))); [done|].
  destruct ((1 <=? rating)%Z && (rating <=? 5)%Z) eqn:Hr; [|done]. simpl.
  destruct (games_metadata s !! game_name) as [info|] eqn:Hg; [|done].
  destruct (status info =? "active") eqn:Hs; [|done]. simpl.
  destruct (players_file s !! player_name) as [downloaded|]; [|done].
  destruct (bool_decide (game_name ∈ downloaded)) eqn:Hd; [|done]. simpl.
  rewrite ?Hg. intros _.
  exists game_name, rating, info, downloaded.
  apply andb_true_iff in Hr as [?%Z.leb_le ?%Z.leb_le].
  apply String.eqb_eq in Hs. apply bool_decide_eq_true in Hd.
  done.
Qed.

Lemma submit_review_accepted data player_name now s game_name rating info downloaded :
  req_game_name data = Some game_name → game_name ≠ "" →
  req_rating data = Some rating → (1 <= rating <= 5)%Z →
  games_metadata s !! game_name = Some info → status info = "active" →
  players_file s !! player_name = Some downloaded → game_name ∈ downloaded →
  handle_submit_review data player_name now s
  = (Success
       (Some (match list_find (λ r, player r = player_name)
                      (default [] (reviews s !! game_name)) with
              | Some _ => "Review updated successfully"
              | None => "Review submitted successfully"
              end)) None,
     reviewed game_name info
       (upsert_review player_name (new_review data player_name now rating)
          (default [] (reviews s !! game_name))) s).
Proof.
  intros Hn Hne Hr [H1 H5] Hg Hs Hp Hd. unfold handle_submit_review.
  rewrite Hr, Hn. simpl.
  apply String.eqb_neq in Hne. rewrite Hne. simpl.
  apply Z.leb_le in H1, H5. rewrite H1, H5. simpl.
  rewrite Hg. apply String.eqb_eq in Hs. rewrite Hs. simpl.
  rewrite Hp. rewrite bool_decide_eq_true_2 by done. simpl.
  by rewrite ?Hg.
Qed.

(** *** Upserting a review *)

Lemma upsert_review_players p new l :
  player new = p →
  player <$> upsert_review p new l
  = match list_find (λ r, player r = p) l with
    | Some _ => player <$> l
    | None => (player <$> l) ++ [p]
    end%list.
Proof.
  intros Hp. unfold upsert_review.
  destruct (list_find _ l) as [[i x]|] eqn:Hf.
  - apply list_find_Some in Hf as (Hi & Hx & _).
    rewrite list_fmap_insert. apply list_insert_id.
    by rewrite list_lookup_fmap, Hi, Hp, <- Hx.
  - by rewrite fmap_app, <- Hp.
Qed.

Lemma upsert_review_NoDup p new l :
  player new = p → NoDup (player <$> l) → NoDup (player <$> upsert_review p new l).
Proof.
  intros Hp Hnd. rewrite upsert_review_players by done.
  destruct (list_find _ l) eqn:Hf; [done|].
  apply NoDup_app. split; [done|]. split; [|apply NoDup_singleton].
  intros q Hq ->%list_elem_of_singleton.
  apply list_elem_of_fmap in Hq as (x & Hx & Hin).
  apply list_find_None in Hf. rewrite Forall_forall in Hf. by apply (Hf x).
Qed.

Lemma upsert_review_find p new l :
  player new = p → is_Some (list_find (λ r, player r = p) (upsert_review p new l)).
Proof.
  intros Hp. destruct (list_find _ (upsert_review p new l)) eqn:Hf; [done|].
  apply list_find_None in Hf. rewrite Forall_forall in Hf.
  exfalso. apply (Hf new); [|done]. unfold upsert_review.
  destruct (list_find _ l) as [[i x]|] eqn:Hl.
  - apply list_find_Some in Hl as (Hi & _).
    apply list_elem_of_lookup. exists i. apply list_lookup_insert_eq.
    by eapply lookup_lt_Some.
  - apply elem_of_app. right. left.
Qed.

Lemma filter_none {A} (P : A → Prop) `{∀ x, Decision (P x)} (l : list A) :
  Forall (λ x, ¬ P x) l → filter P l = [].
Proof.
  induction 1 as [|x l Hx Hl IH]; [done|].
  rewrite filter_cons. by destruct (decide (P x)).
Qed.

(** In a list without two reviews of one player, the reviews of [p] after
    [p] submits are the submitted review alone. *)
Lemma upsert_review_filter p new l :
  player new = p → NoDup (player <$> l) →
  filter (λ r, player r = p) (upsert_review p new l) = [new].
Proof.
  intros Hp Hnd. unfold upsert_review.
  destruct (list_find _ l) as [[i x]|] eqn:Hf.
  - apply list_find_Some in Hf as (Hi & Hx & Hmin).
    rewrite insert_take_drop by (by eapply lookup_lt_Some).
    rewrite <- (take_drop_middle l i x Hi) in Hnd.
    rewrite fmap_app, fmap_cons in Hnd.
    apply NoDup_app in Hnd as (_ & Hnot & Hnd).
    apply NoDup_cons in Hnd as [Hnd _].
    rewrite filter_app, filter_cons. destruct (decide (player new = p)); [|done].
    rewrite !filter_none; [done| |].
    + apply Forall_forall. intros y Hy Hpy. apply Hnd.
      apply list_elem_of_fmap. exists y. split; [congruence|done].
    + apply Forall_forall. intros y Hy Hpy.
      apply list_elem_of_lookup in Hy as [j Hj].
      rewrite lookup_take_Some in Hj. destruct Hj as [Hj Hlt].
      by apply (Hmin j y).
  - apply list_find_None in Hf.
    rewrite filter_app, filter_none by done.
    rewrite filter_cons. by destruct (decide (player new = p)).
Qed.

Lemma upsert_review_length_again p new new' l :
  player new = p →
  length (upsert_review p new' (upsert_review p new l))
  = length (upsert_review p new l).
Proof.
  intros Hp. unfold upsert_review at 1.
  destruct (upsert_review_find p new l Hp) as [[i x] ->].
  apply length_insert.
Qed.

(** ** Reachable states *)

Lemma reviews_download data p s :
  reviews (handle_download_game data p s).2 = reviews s.
Proof. unfold handle_download_game. handler_cases. Qed.

Lemma reviews_create data p now s :
  reviews (handle_create_room data p now s).2 = reviews s.
Proof. unfold handle_create_room. handler_cases. Qed.

Lemma reviews_join data p s : reviews (handle_join_room data p s).2 = reviews s.
Proof. unfold handle_join_room. handler_cases. Qed.

Lemma reviews_start data p e s :
  reviews (handle_start_game data p e s).2 = reviews s.
Proof. unfold handle_start_game. handler_cases. Qed.

Lemma reviews_cancel data p s :
  reviews (handle_cancel_ready_check data p s).2 = reviews s.
Proof. unfold handle_cancel_ready_check. handler_cases. Qed.

Lemma reviews_reset data p s : reviews (handle_reset_room data p s).2 = reviews s.
Proof. unfold handle_reset_room. handler_cases. Qed.

Lemma reviews_status data p e s :
  reviews (handle_get_room_status data p e s).2 = reviews s.
Proof. unfold handle_get_room_status. handler_cases. Qed.

Lemma get_game_info_state data s : (handle_get_game_info data s).2 = s.
Proof. unfold handle_get_game_info. handler_cases. Qed.

Lemma get_reviews_state data p s : (handle_get_reviews data p s).2 = s.
Proof. unfold handle_get_reviews. handler_cases. Qed.

Lemma reviews_unique_submit data p now s :
  reviews_unique s → reviews_unique (handle_submit_review data p now s).2.
Proof.
  intros Hu.
  destruct (is_success (handle_submit_review data p now s).1) eqn:Hok.
  - apply submit_review_success in Hok
      as (g & r & info & dl & _ & _ & _ & _ & _ & _ & _ & ->).
    intros g' l. unfold reviewed. simpl.
    destruct (decide (g = g')) as [<-|Hne].
    + rewrite lookup_insert_eq. intros [= <-].
      apply upsert_review_NoDup; [done|].
      destruct (reviews s !! g) as [l0|] eqn:Hl; simpl; [by eapply Hu|constructor].
    + rewrite lookup_insert_ne by done. apply Hu.
  - revert Hok. unfold handle_submit_review. handler_cases.
Qed.

Lemma reviews_unique_eq s s' :
  reviews s' = reviews s → reviews_unique s → reviews_unique s'.
Proof. unfold reviews_unique. by intros ->. Qed.

Lemma reviews_unique_lobby_request conn e action data p s :
  reviews_unique s → reviews_unique (lobby_request conn e action data p s).2.
Proof.
  intros Hu. unfold lobby_request.
  repeat match goal with
         | |- context [if ?b then _ else _] => destruct b eqn:?
         | |- context [match ?x with _ => _ end] => destruct x eqn:?
         end; cbv zeta beta; cbn [fst snd]; try done;
    first [ by apply reviews_unique_submit
          | by rewrite get_game_info_state
          | by rewrite get_reviews_state
          | eapply reviews_unique_eq; [|done];
            first [ apply reviews_download | apply reviews_create | apply reviews_join
                  | apply reviews_leave | apply reviews_start
                  | apply reviews_player_ready | apply reviews_cancel
                  | apply reviews_reset | apply reviews_status ] ].
Qed.

Lemma reviews_unique_run_event s ev :
  reviews_unique s → reviews_unique (run_event s ev).
Proof.
  intros Hu. destruct ev; simpl.
  - eapply reviews_unique_eq; [apply reviews_upload|done].
  - eapply reviews_unique_eq; [apply reviews_update|done].
  - eapply reviews_unique_eq; [apply reviews_remove|done].
  - by apply reviews_unique_lobby_request.
  - eapply reviews_unique_eq; [apply reviews_disconnect|done].
  - eapply reviews_unique_eq; [apply reviews_monitor|done].
Qed.

(** An invariant of the events holds in every reachable state. *)
Lemma reachable_ind (P : server → Prop) :
  P initial_server → (∀ s ev, P s → P (run_event s ev)) → ∀ s, reachable s → P s.
Proof.
  intros H0 Hstep s [evs <-]. unfold run.
  induction evs as [|ev evs IH] using rev_ind; [done|].
  rewrite foldl_app. simpl. by apply Hstep.
Qed.

Lemma reachable_reviews_unique s : reachable s → reviews_unique s.
Proof.
  apply reachable_ind; [|apply reviews_unique_run_event].
  intros g l. simpl. by rewrite lookup_empty.
Qed.

Lemma reachable_step s ev : reachable s → reachable (run_event s ev).
Proof.
  intros [evs <-]. exists (evs ++ [ev])%list. unfold run. by rewrite foldl_app.
Qed.

(** ** Rooms stay well formed *)

Lemma elem_of_list_remove_first x p l :
  x ∈ list_remove_first p l → x ∈ l.
Proof.
  induction l as [|y l IH]; simpl; [done|].
  destruct (decide (p = y)); [by right|].
  intros [->|H]%elem_of_cons; [left|right; auto].
Qed.

Lemma elem_of_list_remove_first_ne x p l :
  x ≠ p → x ∈ l → x ∈ list_remove_first p l.
Proof.
  intros Hne. induction l as [|y l IH]; simpl; [done|].
  intros [->|H]%elem_of_cons.
  - destruct (decide (p = y)); [done|left].
  - destruct (decide (p = y)); [done|right; auto].
Qed.

Lemma NoDup_list_remove_first p l : NoDup l → NoDup (list_remove_first p l).
Proof.
  induction 1 as [|y l Hy Hl IH]; simpl; [constructor|].
  destruct (decide (p = y)); [done|]. constructor; [|done].
  intros H. by apply Hy, elem_of_list_remove_first with p.
Qed.

Lemma not_elem_of_list_remove_first p l : NoDup l → p ∉ list_remove_first p l.
Proof.
  induction 1 as [|y l Hy Hl IH]; simpl; [apply not_elem_of_nil|].
  destruct (decide (p = y)) as [->|Hne]; [done|].
  by apply not_elem_of_cons.
Qed.

Lemma Forall_foldl_dict_del {V} (P : string * V → Prop) (l : list (string * V)) d :
  Forall P d → Forall P (foldl (λ d e, dict_del e.1 d) d l).
Proof.
  revert d. induction l as [|x l IH]; intros d Hd; simpl; [done|].
  by apply IH, Forall_dict_del.
Qed.

Lemma dict_get_room_ok rid r s : rooms_ok s → dict_get rid (rooms s) = Some r → room_ok r.
Proof.
  intros Hok Hr%dict_get_elem_of. unfold rooms_ok in Hok.
  rewrite Forall_forall in Hok. by apply (Hok (rid, r)).
Qed.

(** One step towards [Forall P (rooms s')] for the rooms a handler leaves. *)
Ltac rooms_ok_step :=
  match goal with
  | |- Forall _ (dict_del ?k (dict_set ?k _ _)) => rewrite dict_del_dict_set
  | |- Forall _ (dict_del _ _) => apply Forall_dict_del
  | |- Forall _ (dict_set _ _ _) => apply Forall_dict_set
  | |- Forall _ (foldl _ _ _) => apply Forall_foldl_dict_del
  | H : rooms_ok ?s |- Forall _ (rooms ?s) => exact H
  end.

Ltac rooms_ok_cases :=
  repeat first
    [ rewrite delete_rooms_of_game_eq
    | match goal with
      | |- context [match ?x with _ => _ end] => destruct x eqn:?
      end ];
  cbv zeta beta; cbn [fst snd];
  try done;
  unfold rooms_ok, update_room; simpl; repeat rooms_ok_step.

Lemma rooms_ok_upload data dev now s :
  rooms_ok s → rooms_ok (handle_upload_game data dev now s).2.
Proof. intros Hok. unfold handle_upload_game. rooms_ok_cases. Qed.

Lemma rooms_ok_update data dev now s :
  rooms_ok s → rooms_ok (handle_update_game data dev now s).2.
Proof. intros Hok. unfold handle_update_game. rooms_ok_cases. Qed.

Lemma rooms_ok_remove data dev s :
  rooms_ok s → rooms_ok (handle_remove_game data dev s).2.
Proof. intros Hok. unfold handle_remove_game. rooms_ok_cases. Qed.

Lemma rooms_ok_download data p s :
  rooms_ok s → rooms_ok (handle_download_game data p s).2.
Proof. intros Hok. unfold handle_download_game. rooms_ok_cases. Qed.

Lemma rooms_ok_submit data p now s :
  rooms_ok s → rooms_ok (handle_submit_review data p now s).2.
Proof. intros Hok. unfold handle_submit_review. rooms_ok_cases. Qed.

Lemma rooms_ok_create data p now s :
  rooms_ok s → rooms_ok (handle_create_room data p now s).2.
Proof.
  intros Hok. unfold handle_create_room, generate_room_id. rooms_ok_cases.
  split; simpl; [left|apply NoDup_singleton].
Qed.

Lemma rooms_ok_join data p s :
  rooms_ok s → rooms_ok (handle_join_room data p s).2.
Proof.
  intros Hok. unfold handle_join_room. rooms_ok_cases.
  match goal with H : dict_get _ _ = Some ?r |- _ =>
    destruct (dict_get_room_ok _ _ _ Hok H) as [Hhost Hnd] end.
  split; simpl.
  - apply elem_of_app. by left.
  - apply NoDup_app. split; [done|]. split; [|apply NoDup_singleton].
    intros x Hx ->%list_elem_of_singleton.
    match goal with H : bool_decide _ = false |- _ =>
      by apply bool_decide_eq_false in H end.
Qed.

Lemma rooms_ok_leave data p s :
  rooms_ok s → rooms_ok (handle_leave_room data p s).2.
Proof.
  intros Hok. unfold handle_leave_room. rooms_ok_cases.
  match goal with H : dict_get _ _ = Some ?r |- _ =>
    destruct (dict_get_room_ok _ _ _ Hok H) as [Hhost Hnd] end.
  match goal with H : bool_decide (p = _) = false |- _ =>
    apply bool_decide_eq_false in H end.
  split; simpl.
  - apply elem_of_list_remove_first_ne; [congruence|done].
  - by apply NoDup_list_remove_first.
Qed.

(** A room whose host and players are those of a well-formed room. *)
Lemma room_ok_same r r' :
  host r' = host r → players r' = players r → room_ok r → room_ok r'.
Proof. unfold room_ok. by intros -> ->. Qed.

Ltac room_ok_same :=
  match goal with
  | Hok : rooms_ok ?s, H : dict_get _ (rooms ?s) = Some ?r |- room_ok _ =>
    apply (room_ok_same r); [done|done|exact (dict_get_room_ok _ _ _ Hok H)]
  end.

Lemma rooms_ok_start data p e s :
  rooms_ok s → rooms_ok (handle_start_game data p e s).2.
Proof. intros Hok. unfold handle_start_game. rooms_ok_cases; room_ok_same. Qed.

Lemma rooms_ok_monitor rid s : rooms_ok s → rooms_ok (monitor_game_server rid s).
Proof. intros Hok. unfold monitor_game_server. rooms_ok_cases; room_ok_same. Qed.

Lemma rooms_ok_actually_start rid r e s :
  rooms_ok s → room_ok r → rooms_ok (_actually_start_game rid r e s).2.
Proof.
  intros Hok Hr. unfold _actually_start_game.
  rooms_ok_cases; by apply (room_ok_same r).
Qed.

Lemma rooms_ok_player_ready data p e s :
  rooms_ok s → rooms_ok (handle_player_ready data p e s).2.
Proof.
  intros Hok. unfold handle_player_ready.
  repeat match goal with
         | |- context [match ?x with _ => _ end] => destruct x eqn:?
         end; cbv zeta beta; cbn [fst snd]; try done.
  - apply rooms_ok_actually_start.
    + unfold rooms_ok, update_room; simpl; repeat rooms_ok_step. room_ok_same.
    + room_ok_same.
  - unfold rooms_ok, update_room; simpl; repeat rooms_ok_step. room_ok_same.
Qed.

Lemma rooms_ok_cancel data p s :
  rooms_ok s → rooms_ok (handle_cancel_ready_check data p s).2.
Proof. intros Hok. unfold handle_cancel_ready_check. rooms_ok_cases; room_ok_same. Qed.

Lemma rooms_ok_reset data p s :
  rooms_ok s → rooms_ok (handle_reset_room data p s).2.
Proof. intros Hok. unfold handle_reset_room. rooms_ok_cases; room_ok_same. Qed.

Lemma rooms_ok_status data p e s :
  rooms_ok s → rooms_ok (handle_get_room_status data p e s).2.
Proof.
  intros Hok. unfold handle_get_room_status. rooms_ok_cases; room_ok_same.
Qed.

Lemma rooms_ok_eq s s' : rooms s' = rooms s → rooms_ok s → rooms_ok s'.
Proof. unfold rooms_ok. by intros ->. Qed.

Lemma rooms_ok_disconnect p s : rooms_ok s → rooms_ok (lobby_disconnect p s).
Proof.
  intros Hok. unfold lobby_disconnect.
  repeat match goal with
         | |- context [match ?x with _ => _ end] => destruct x eqn:?
         end; try done;
    (eapply rooms_ok_eq; [reflexivity|]); try done.
  by apply rooms_ok_leave.
Qed.

Lemma rooms_ok_lobby_request conn e action data p s :
  rooms_ok s → rooms_ok (lobby_request conn e action data p s).2.
Proof.
  intros Hok. unfold lobby_request.
  repeat match goal with
         | |- context [if ?b then _ else _] => destruct b eqn:?
         | |- context [match ?x with _ => _ end] => destruct x eqn:?
         end; cbv zeta beta; cbn [fst snd]; try done;
    first [ by rewrite get_game_info_state
          | by rewrite get_reviews_state
          | by apply rooms_ok_download | by apply rooms_ok_submit
          | by apply rooms_ok_create | by apply rooms_ok_join
          | by apply rooms_ok_leave | by apply rooms_ok_start
          | by apply rooms_ok_player_ready | by apply rooms_ok_cancel
          | by apply rooms_ok_reset | by apply rooms_ok_status ].
Qed.

Lemma rooms_ok_run_event s ev : rooms_ok s → rooms_ok (run_event s ev).
Proof.
  intros Hok. destruct ev; simpl.
  - by apply rooms_ok_upload.
  - by apply rooms_ok_update.
  - by apply rooms_ok_remove.
  - by apply rooms_ok_lobby_request.
  - by apply rooms_ok_disconnect.
  - by apply rooms_ok_monitor.
Qed.

Lemma reachable_rooms_ok s : reachable s → rooms_ok s.
Proof.
  apply reachable_ind; [|apply rooms_ok_run_event]. constructor.
Qed.

(** ** Reviews: one per player *)

(** C2. In every reachable state a review list holds at most one review per
    player.  When a player whose review of a game was just accepted submits
    again, the second request is answered as an update, the list still has
    one review per player, the reviews of that player are the new review
    alone (new rating and comment), and neither the length of the list nor
    the [review_count] of the game changes. *)
Theorem second_review_replaces_first data data' player_name now now' s game_name rating' :
  reachable s →
  req_game_name data = Some game_name → req_game_name data' = Some game_name →
  req_rating data' = Some rating' → (1 <= rating' <= 5)%Z →
  is_success (handle_submit_review data player_name now s).1 = true →
  let s1 := (handle_submit_review data player_name now s).2 in
  let r2 := handle_submit_review data' player_name now' s1 in
  reviews_unique s ∧ reviews_unique s1 ∧ reviews_unique r2.2 ∧
  r2.1 = Success (Some "Review updated successfully") None ∧
  filter (λ r, player r = player_name) (reviews_of game_name r2.2)
  = [new_review data' player_name now' rating'] ∧
  List.length (reviews_of game_name r2.2) = List.length (reviews_of game_name s1) ∧
  review_count <$> games_metadata r2.2 !! game_name
  = review_count <$> games_metadata s1 !! game_name.
Proof.
  intros Hreach Hn Hn' Hr' Hrange Hok s1 r2.
  pose proof (reachable_reviews_unique s Hreach) as Hu.
  pose proof (reviews_unique_submit data player_name now s Hu) as Hu1.
  pose proof (reviews_unique_submit data' player_name now' s1 Hu1) as Hu2.
  split; [done|]. split; [done|]. split; [done|].
  destruct (submit_review_success _ _ _ _ Hok)
    as (g & rating & info & dl & Hg & Hrat & Hrng & Hinfo & Hact & Hdl & Hin & Hs1).
  rewrite Hn in Hg. injection Hg as <-.
  assert (Hne : game_name ≠ "").
  { intros ->. revert Hok. unfold handle_submit_review. rewrite Hrat, Hn. done. }
  set (l1 := upsert_review player_name (new_review data player_name now rating)
               (default [] (reviews s !! game_name))) in *.
  set (info1 := set_rating (py_round (avg_rating (ratings_of l1)) 2)
                  (List.length (ratings_of l1)) info).
  assert (Hrev1 : reviews s1 !! game_name = Some l1).
  { unfold s1. rewrite Hs1. unfold reviewed. simpl. apply lookup_insert_eq. }
  assert (Hmeta1 : games_metadata s1 !! game_name = Some info1).
  { unfold s1. rewrite Hs1. unfold reviewed. simpl. apply lookup_insert_eq. }
  assert (Hpl1 : players_file s1 !! player_name = Some dl).
  { unfold s1. rewrite Hs1. done. }
  pose proof (submit_review_accepted data' player_name now' s1 game_name rating' info1 dl
                Hn' Hne Hr' Hrange Hmeta1 Hact Hpl1 Hin) as Hs2.
  rewrite Hrev1 in Hs2. simpl in Hs2.
  destruct (upsert_review_find player_name (new_review data player_name now rating)
              (default [] (reviews s !! game_name)) eq_refl) as [[i x] Hfind].
  fold l1 in Hfind. rewrite Hfind in Hs2.
  unfold r2. rewrite Hs2. simpl. split; [done|].
  unfold reviews_of. rewrite Hrev1. simpl. rewrite !lookup_insert_eq. simpl.
  split; [|split].
  - apply upsert_review_filter; [done|]. by apply (Hu1 game_name).
  - unfold l1. by apply upsert_review_length_again.
  - rewrite Hmeta1. simpl. f_equal. unfold ratings_of. rewrite !length_fmap.
    unfold l1. by apply upsert_review_length_again.
Qed.

Lemma second_review_replaces_first_witness :
  let s := run Runs.downloaded in
  let data := Sample.submit_review "tic" 5 "great" in
  let data' := Sample.submit_review "tic" 2 "too hard" in
  let s1 := (handle_submit_review data "ann" "day 1" s).2 in
  let r2 := handle_submit_review data' "ann" "day 2" s1 in
  reachable s ∧
  is_success (handle_submit_review data "ann" "day 1" s).1 = true ∧
  reviews_of "tic" s1
  = [{| player := "ann"; rating := 5; review_comment := "great";
        timestamp := "day 1" |}] ∧
  r2.1 = Success (Some "Review updated successfully") None ∧
  filter (λ r, player r = "ann") (reviews_of "tic" r2.2)
  = [{| player := "ann"; rating := 2; review_comment := "too hard";
        timestamp := "day 2" |}] ∧
  review_count <$> games_metadata r2.2 !! "tic" = Some 1 ∧
  review_count <$> games_metadata r2.2 !! "tic"
  = review_count <$> games_metadata s1 !! "tic".
Proof.
  assert (Hreach : reachable (run Runs.downloaded)) by by eexists.
  destruct (second_review_replaces_first
              (Sample.submit_review "tic" 5 "great")
              (Sample.submit_review "tic" 2 "too hard")
              "ann" "day 1" "day 2" (run Runs.downloaded) "tic" 2 Hreach
              eq_refl eq_refl eq_refl ltac:(lia) eq_refl)
    as (_ & _ & _ & Hr & Hf & _ & Hc).
  split; [exact Hreach|]. split; [reflexivity|]. split; [reflexivity|].
  split; [exact Hr|]. split; [exact Hf|]. split; [reflexivity|exact Hc].
Defined.




(** The stored aggregates follow the reviews only when a review is
    submitted: a game removed and uploaded again starts at zero reviews
    while the reviews of the removed game are still in the review file. *)
Lemma reupload_keeps_old_reviews :
  let s := run (Runs.rated ++
                [RemoveGame (Sample.about_game "tic" None) "dev";
                 UploadGame (Sample.upload "tic" "2.0.0" Sample.tic_config) "dev" 200]) in
  review_count <$> games_metadata s !! "tic" = Some 0 ∧
  ratings_of (reviews_of "tic" s) = [5; 4; 4]%Z.
Proof. split; by vm_compute. Qed.

(** ** Removing and updating a game *)




(** ** Leaving a room *)

(** [handle_leave_room] on a member of an existing room. *)
Lemma leave_room_member data player_name s room_id room :
  req_room_id data = Some room_id → room_id ≠ "" →
  dict_get room_id (rooms s) = Some room →
  player_name ∈ players room →
  let remaining := list_remove_first player_name (players room) in
  handle_leave_room data player_name s
  = if bool_decide (player_name = host room) then
      (Success (Some "Room disbanded (host left)")
         (Some (DisbandedReply room_id remaining)),
       set_rooms (dict_del room_id (rooms s))
         (set_terminated (stop_game_server room (terminated s)) s))
    else match remaining with
         | [] =>
           (Success (Some "Left room (room deleted)") (Some (RoomDeletedReply room_id)),
            set_rooms (dict_del room_id (rooms s)) s)
         | _ =>
           (Success (Some "Left room")
              (Some (LeftReply room_id (List.length remaining))),
            set_rooms (dict_set room_id (set_players remaining room) (rooms s)) s)
         end.
Proof.
  intros Hid Hne%String.eqb_neq Hroom Hin. unfold handle_leave_room.
  rewrite Hid. simpl. rewrite Hne. simpl. rewrite Hroom.
  rewrite bool_decide_eq_true_2 by done. simpl.
  destruct (bool_decide (player_name = host room)).
  - simpl. by rewrite dict_del_dict_set.
  - destruct (list_remove_first _ _); simpl; [by rewrite dict_del_dict_set|done].
Qed.



(** ** Joining a room *)

Lemma version_admitted_spec player_version room_version :
  version_admitted player_version room_version = true
  ↔ player_version = None ∨ player_version = Some ""
    ∨ player_version = Some room_version.
Proof.
  unfold version_admitted. destruct player_version as [v|]; simpl;
    [|split; [by left|done]].
  destruct (String.eqb_spec v ""); simpl.
  - subst. split; [by right; left|done].
  - destruct (String.eqb_spec v room_version); simpl.
    + subst. split; [by right; right|done].
    + split; [done|]. intros [?|[?|?]]; congruence.
Qed.

(** The answer of [handle_join_room] for an existing room. *)
Lemma join_room_cases data player_name s room_id room :
  req_room_id data = Some room_id → room_id ≠ "" →
  dict_get room_id (rooms s) = Some room →
  handle_join_room data player_name s
  = if bool_decide (room_status_of room ≠ waiting) then
      (Error "Room is not accepting players", s)
    else if bool_decide (player_name ∈ players room) then
      (Error "Already in room", s)
    else if bool_decide (room_max_players room <= Z.of_nat (List.length (players room)))%Z then
      (Error "Room is full", s)
    else if version_admitted (req_version data) (room_version room) then
      (Success (Some "Joined room")
         (Some (JoinReply room_id (room_game_name room) (room_version room)
                  (players room ++ [player_name]))),
       set_rooms
         (dict_set room_id (set_players (players room ++ [player_name]) room)
            (rooms s)) s)
    else
      (Error ("版本不匹配！房間版本: " +:+ room_version room +:+ ", 你的版本: "
              +:+ get_default (req_version data) "" +:+ "。請更新遊戲。"), s).
Proof.
  intros Hid Hne%String.eqb_neq Hroom. unfold handle_join_room.
  rewrite Hid. simpl. rewrite Hne. simpl. rewrite Hroom. unfold version_admitted.
  destruct (decide (room_status_of room = waiting)) as [Hw|Hw].
  - rewrite (bool_decide_eq_true_2 _ Hw).
    rewrite (bool_decide_eq_false_2 (room_status_of room ≠ waiting)) by auto. simpl.
    destruct (bool_decide (player_name ∈ players room)); [done|].
    destruct (Z.leb_spec (room_max_players room)
                (Z.of_nat (List.length (players room)))).
    + by rewrite bool_decide_eq_true_2.
    + rewrite bool_decide_eq_false_2 by lia.
      by destruct (truthy _ && _).
  - rewrite (bool_decide_eq_false_2 _ Hw).
    by rewrite (bool_decide_eq_true_2 (room_status_of room ≠ waiting)).
Qed.

(** C6 (amended). [join_room] on an existing room tests, in this order: the
    room is waiting, the player is not yet a member, the room is not full,
    and the version of the player, when the request carries one that is not
    empty, equals the version of the room.  The first test that fails gives
    its error and the server is left as it was; when all pass the player is
    appended to the members.  A request without version passes the last
    test.  An unknown or missing room id is an error as well. *)
Theorem join_room_admission data player_name s :
  let r := handle_join_room data player_name s in
  (is_success r.1 = true ↔
   ∃ room_id room,
     req_room_id data = Some room_id ∧ room_id ≠ "" ∧
     dict_get room_id (rooms s) = Some room ∧
     room_status_of room = waiting ∧
     (player_name ∉ players room) ∧
     (Z.of_nat (List.length (players room)) < room_max_players room)%Z ∧
     (req_version data = None ∨ req_version data = Some ""
      ∨ req_version data = Some (room_version room))) ∧
  (∀ room_id room,
     req_room_id data = Some room_id → room_id ≠ "" →
     dict_get room_id (rooms s) = Some room →
     r = if bool_decide (room_status_of room ≠ waiting) then
           (Error "Room is not accepting players", s)
         else if bool_decide (player_name ∈ players room) then
           (Error "Already in room", s)
         else if bool_decide (room_max_players room
                              <= Z.of_nat (List.length (players room)))%Z then
           (Error "Room is full", s)
         else if version_admitted (req_version data) (room_version room) then
           (Success (Some "Joined room")
              (Some (JoinReply room_id (room_game_name room) (room_version room)
                       (players room ++ [player_name]))),
            set_rooms
              (dict_set room_id (set_players (players room ++ [player_name]) room)
                 (rooms s)) s)
         else
           (Error ("版本不匹配！房間版本: " +:+ room_version room +:+ ", 你的版本: "
                   +:+ get_default (req_version data) "" +:+ "。請更新遊戲。"), s)) ∧
  (∀ room_id,
     req_room_id data = Some room_id → dict_get room_id (rooms s) = None →
     r = (Error (if String.eqb room_id "" then "Missing room_id" else "Room not found"),
          s)) ∧
  (req_room_id data = None → r = (Error "Missing room_id", s)) ∧
  (is_success r.1 = false → r.2 = s).
Proof.
  intros r. split; [|split; [|split; [|split]]].
  - split.
    + intros Hok.
      destruct (req_room_id data) as [room_id|] eqn:Hid.
      2:{ revert Hok. unfold r, handle_join_room. by rewrite Hid. }
      destruct (String.eqb_spec room_id "") as [->|Hne].
      { revert Hok. unfold r, handle_join_room. by rewrite Hid. }
      destruct (dict_get room_id (rooms s)) as [room|] eqn:Hroom.
      2:{ revert Hok. unfold r, handle_join_room. rewrite Hid. simpl.
          apply String.eqb_neq in Hne. by rewrite Hne, Hroom. }
      exists room_id, room. unfold r in Hok.
      rewrite (join_room_cases _ _ _ _ _ Hid Hne Hroom) in Hok.
      destruct (bool_decide (room_status_of room ≠ waiting)) eqn:H1; [done|].
      destruct (bool_decide (player_name ∈ players room)) eqn:H2; [done|].
      destruct (bool_decide (_ <= _)%Z) eqn:H3; [done|].
      destruct (version_admitted _ _) eqn:H4; [|done].
      apply bool_decide_eq_false in H1, H2, H3.
      apply version_admitted_spec in H4.
      repeat split; try done; [by apply dec_stable|lia].
    + intros (room_id & room & Hid & Hne & Hroom & Hw & Hout & Hfree & Hver).
      unfold r. rewrite (join_room_cases _ _ _ _ _ Hid Hne Hroom).
      rewrite bool_decide_eq_false_2 by auto.
      rewrite bool_decide_eq_false_2 by done.
      rewrite bool_decide_eq_false_2 by lia.
      apply version_admitted_spec in Hver. by rewrite Hver.
  - intros room_id room Hid Hne Hroom. by apply join_room_cases.
  - intros room_id Hid Hroom. unfold r, handle_join_room. rewrite Hid. simpl.
    destruct (room_id =? ""); simpl; [done|]. by rewrite Hroom.
  - intros Hid. unfold r, handle_join_room. by rewrite Hid.
  - unfold r, handle_join_room. handler_cases.
Qed.

(** C6, counterexample: a request without [version] joins a room created at
    version 1.0.0. *)
Lemma join_without_version_succeeds :
  let s := run Runs.room_open in
  let data := Sample.about_room "ROOM_0001" None in
  reachable s ∧
  room_version <$> dict_get "ROOM_0001" (rooms s) = Some "1.0.0" ∧
  req_version data = None ∧
  (handle_join_room data "bob" s).1
  = Success (Some "Joined room")
      (Some (JoinReply "ROOM_0001" "tic" "1.0.0" ["alice"; "bob"])).
Proof. split; [by eexists|]. repeat split; by vm_compute. Qed.

(** ** The player endpoint before login *)

Lemma action_is_true action name : action_is action name = true ↔ action = Some name.
Proof. apply bool_decide_eq_true. Qed.

Lemma action_is_false action name : action_is action name = false ↔ action ≠ Some name.
Proof. apply bool_decide_eq_false. Qed.

Lemma list_games_not_refused s :
  (handle_list_games s).1 ≠ Error "Please login first".
Proof. done. Qed.

Lemma get_game_info_not_refused data s :
  (handle_get_game_info data s).1 ≠ Error "Please login first".
Proof. unfold handle_get_game_info. handler_cases. Qed.

(** C10. On a connection that has not logged in, [list_games] and
    [get_game_info] get the answer of their handler, which is never the
    login error, and every action other than these two, [register] and
    [login] gets the error [Please login first] and changes nothing. *)
Theorem requests_before_login conn e action data s :
  action ≠ Some "register" → action ≠ Some "login" →
  let r := lobby_request conn e action data None s in
  r = (if bool_decide (action = Some "list_games") then
         ((handle_list_games s).1, None, (handle_list_games s).2)
       else if bool_decide (action = Some "get_game_info") then
         ((handle_get_game_info data s).1, None, (handle_get_game_info data s).2)
       else (Error "Please login first", None, s)) ∧
  (action = Some "list_games" ∨ action = Some "get_game_info" →
   r.1.1 ≠ Error "Please login first").
Proof.
  intros Hr%action_is_false Hl%action_is_false r. unfold r, lobby_request.
  fold (action_is action "list_games") (action_is action "get_game_info").
  destruct (action_is action "list_games") eqn:H1; simpl.
  { split; [done|]. intros _. apply list_games_not_refused. }
  destruct (action_is action "get_game_info") eqn:H2; simpl.
  { split; [done|]. intros _. apply get_game_info_not_refused. }
  rewrite Hr, Hl. simpl. split; [done|].
  apply action_is_false in H1, H2. by intros [?|?].
Qed.

Lemma requests_before_login_witness :
  let s := run Runs.published in
  let r := lobby_request 7 Sample.env (Some "download_game")
             (Sample.about_game "tic" None) None s in
  let l := lobby_request 7 Sample.env (Some "list_games") empty_request None s in
  Some "download_game" ≠ Some "register" ∧ Some "download_game" ≠ Some "login" ∧
  r = (Error "Please login first", None, s) ∧
  l = ((handle_list_games s).1, None, (handle_list_games s).2) ∧
  is_success l.1.1 = true.
Proof.
  destruct (requests_before_login 7 Sample.env (Some "download_game")
              (Sample.about_game "tic" None) (run Runs.published)
              ltac:(discriminate) ltac:(discriminate)) as [Hr _].
  destruct (requests_before_login 7 Sample.env (Some "list_games")
              empty_request (run Runs.published)
              ltac:(discriminate) ltac:(discriminate)) as [Hl _].
  split; [discriminate|]. split; [discriminate|].
  split; [exact Hr|]. split; [exact Hl|reflexivity].
Defined.

(** ** Presence: one session per player *)

Lemma online_players_leave data p s :
  online_players (handle_leave_room data p s).2 = online_players s.
Proof. unfold handle_leave_room. handler_cases. Qed.

Lemma online_players_disconnect username s :
  username ≠ "" →
  online_players (lobby_disconnect (Some username) s)
  = delete username (online_players s).
Proof.
  intros Hne%String.eqb_neq. unfold lobby_disconnect. simpl. rewrite Hne. simpl.
  destruct (list_find _ _) as [[i [room_id room]]|]; simpl; [|done].
  destruct (room_id =? ""); [done|]. by rewrite online_players_leave.
Qed.

(** X11. What holds of the presence table: a login for a name that is online is
    refused and changes nothing; the end of a connection drops the name the
    connection is logged in as and no other; after that a login for the
    name is accepted. *)
Theorem presence_single_session conn e data username s :
  req_username data = Some username → username ≠ "" →
  truthy (req_password data) = true →
  (∀ player_name,
     is_Some (online_players s !! username) →
     let r := lobby_request conn e (Some "login") data player_name s in
     is_success r.1.1 = false ∧ r.1.2 = player_name ∧ r.2 = s ∧
     (∀ db, env_db e = DbResponse db → is_success db = true →
            r.1.1 = Error "此帳號已在其他地方登入")) ∧
  (let s' := lobby_disconnect (Some username) s in
   online_players s' !! username = None ∧
   (∀ other, other ≠ username → online_players s' !! other = online_players s !! other) ∧
   (∀ db, env_db e = DbResponse db → is_success db = true →
          lobby_request conn e (Some "login") data None s'
          = (Success (Some "Login successful") None, Some username,
             set_online_players (<[username := conn]> (online_players s')) s'))).
Proof.
  intros Hu Hne Hpw.
  assert (Hlogin : ∀ player_name s,
    lobby_request conn e (Some "login") data player_name s
    = match env_db e with
      | DbResponse db_response =>
        if is_success db_response then
          match online_players s !! username with
          | Some _ => (Error "此帳號已在其他地方登入", player_name, s)
          | None =>
            (Success (Some "Login successful") None, Some username,
             set_online_players (<[username := conn]> (online_players s)) s)
          end
        else (Error "Invalid username or password", player_name, s)
      | DbRaises exn => (Error ("Login failed: " +:+ exn), player_name, s)
      end).
  { intros player_name s0. unfold lobby_request. simpl.
    rewrite Hu, Hpw. simpl. apply String.eqb_neq in Hne. by rewrite Hne. }
  split.
  - intros player_name [c Hc] r. unfold r. rewrite Hlogin, Hc.
    destruct (env_db e) as [db|exn]; [destruct (is_success db) eqn:Hdb|]; simpl;
      repeat split; try done; intros db' [= <-] Hok; congruence.
  - simpl. rewrite online_players_disconnect by done.
    split; [apply lookup_delete_eq|]. split.
    + intros other Ho. by apply lookup_delete_ne.
    + intros db Hdb Hok. rewrite Hlogin, Hdb, Hok.
      rewrite online_players_disconnect by done. by rewrite lookup_delete_eq.
Qed.

Lemma presence_single_session_witness :
  let s := run Runs.downloaded in
  let data := Sample.login "ann" "secret" in
  let r := lobby_request 2 Sample.env (Some "login") data None s in
  req_username data = Some "ann" ∧ "ann" ≠ "" ∧
  truthy (req_password data) = true ∧ is_Some (online_players s !! "ann") ∧
  r.1.1 = Error "此帳號已在其他地方登入" ∧ r.2 = s ∧
  online_players (lobby_disconnect (Some "ann") s) !! "ann" = None.
Proof.
  assert (Hne : "ann" ≠ "") by discriminate.
  assert (Hon : is_Some (online_players (run Runs.downloaded) !! "ann"))
    by (by exists 1%nat).
  destruct (presence_single_session 2 Sample.env (Sample.login "ann" "secret") "ann"
              (run Runs.downloaded) eq_refl Hne eq_refl) as [Hbusy Hgone].
  destruct (Hbusy None Hon) as (_ & _ & Hsame & Herr).
  destruct Hgone as (Hoff & _).
  split; [reflexivity|]. split; [exact Hne|]. split; [reflexivity|].
  split; [exact Hon|]. split; [exact (Herr _ eq_refl eq_refl)|].
  split; [exact Hsame|exact Hoff].
Defined.

(** C7, failing run: [alice] opens two rooms on one connection and the
    connection closes.  Her presence entry is dropped and the first room is
    disbanded, but she stays host and member of the second. *)
Lemma disconnect_leaves_second_room :
  let s := run Runs.two_rooms in
  let s' := lobby_disconnect (Some "alice") s in
  reachable s ∧
  host <$> dict_get "ROOM_0001" (rooms s) = Some "alice" ∧
  host <$> dict_get "ROOM_0002" (rooms s) = Some "alice" ∧
  online_players s' !! "alice" = None ∧
  dict_get "ROOM_0001" (rooms s') = None ∧
  players <$> dict_get "ROOM_0002" (rooms s') = Some ["alice"].
Proof. split; [by eexists|]. repeat split; by vm_compute. Qed.

(** A second failing run: a connection logged in as [bob] logs in as
    [alice] and closes.  Only the entry of [alice] is dropped; [bob] stays
    online without a connection and his next login is refused. *)
Lemma relogin_keeps_first_name_online :
  let s := run [Runs.login_as 1 "bob"] in
  let r := lobby_request 1 Sample.env (Some "login") (Sample.login "alice" "secret")
             (Some "bob") s in
  let s' := lobby_disconnect r.1.2 r.2 in
  r.1.2 = Some "alice" ∧
  online_players s' !! "alice" = None ∧
  online_players s' !! "bob" = Some 1 ∧
  (lobby_request 2 Sample.env (Some "login") (Sample.login "bob" "secret") None s').1.1
  = Error "此帳號已在其他地方登入".
Proof. repeat split; by vm_compute. Qed.

(** ** Further examples *)

Example cases_example :
  games_metadata (run Runs.published) !! "tic" = Some Cases.tic_info ∧
  game_dir "tic" "1.0.0" (run Runs.published) = Some Cases.tic_dir ∧
  rooms (run Runs.room_joined) = [("ROOM_0001", Cases.tic_room)] ∧
  rooms (run Cases.tic_started)
  = [("ROOM_0001", set_room_status playing Cases.tic_room)] ∧
  Bomb.send_frame ["h"; "i"]%char = Some Cases.hi_frame.
Proof. repeat split; reflexivity. Qed.

(** ** Rooms: status, capacity and game servers *)

Lemma length_list_remove_first p l :
  (length (list_remove_first p l) <= length l)%nat.
Proof.
  induction l as [|y l IH]; simpl; [done|].
  destruct (decide (p = y)); simpl; lia.
Qed.

Lemma dict_get_room_wf rid r s :
  rooms_wf s → dict_get rid (rooms s) = Some r → room_wf r.
Proof.
  intros Hok Hr%dict_get_elem_of. unfold rooms_wf in Hok.
  rewrite Forall_forall in Hok. by apply (Hok (rid, r)).
Qed.

Ltac rooms_wf_step :=
  match goal with
  | |- Forall _ (dict_del ?k (dict_set ?k _ _)) => rewrite dict_del_dict_set
  | |- Forall _ (dict_del _ _) => apply Forall_dict_del
  | |- Forall _ (dict_set _ _ _) => apply Forall_dict_set
  | |- Forall _ (foldl _ _ _) => apply Forall_foldl_dict_del
  | H : rooms_wf ?s |- Forall _ (rooms ?s) => exact H
  end.

Ltac rooms_wf_cases :=
  repeat first
    [ rewrite delete_rooms_of_game_eq
    | match goal with
      | |- context [match ?x with _ => _ end] => destruct x eqn:?
      end ];
  cbv zeta beta; cbn [fst snd];
  try done;
  unfold rooms_wf, update_room; simpl; repeat rooms_wf_step.

(** The facts about the room a handler looked up. *)
Ltac room_wf_found :=
  match goal with
  | Hok : rooms_wf ?s, H : dict_get _ (rooms ?s) = Some ?r |- _ =>
    destruct (dict_get_room_wf _ _ _ Hok H) as (Hst & Hcap & Hpid)
  end;
  repeat match goal with
         | H : negb _ = false |- _ => apply negb_false_iff in H
         | H : negb _ = true |- _ => apply negb_true_iff in H
         | H : bool_decide _ = true |- _ => apply bool_decide_eq_true in H
         | H : bool_decide _ = false |- _ => apply bool_decide_eq_false in H
         end.

Lemma rooms_wf_upload data dev now s :
  rooms_wf s → rooms_wf (handle_upload_game data dev now s).2.
Proof. intros Hok. unfold handle_upload_game. rooms_wf_cases. Qed.

Lemma rooms_wf_update data dev now s :
  rooms_wf s → rooms_wf (handle_update_game data dev now s).2.
Proof. intros Hok. unfold handle_update_game. rooms_wf_cases. Qed.

Lemma rooms_wf_remove data dev s :
  rooms_wf s → rooms_wf (handle_remove_game data dev s).2.
Proof. intros Hok. unfold handle_remove_game. rooms_wf_cases. Qed.

Lemma rooms_wf_download data p s :
  rooms_wf s → rooms_wf (handle_download_game data p s).2.
Proof. intros Hok. unfold handle_download_game. rooms_wf_cases. Qed.

Lemma rooms_wf_submit data p now s :
  rooms_wf s → rooms_wf (handle_submit_review data p now s).2.
Proof. intros Hok. unfold handle_submit_review. rooms_wf_cases. Qed.

Lemma rooms_wf_create data p now s :
  rooms_wf s → rooms_wf (handle_create_room data p now s).2.
Proof.
  intros Hok. unfold handle_create_room, generate_room_id. rooms_wf_cases.
  split; [by left|]. split; simpl; [lia|done].
Qed.

Lemma rooms_wf_join data p s :
  rooms_wf s → rooms_wf (handle_join_room data p s).2.
Proof.
  intros Hok. unfold handle_join_room. rooms_wf_cases. room_wf_found.
  split; [done|]. split; simpl; [|done].
  rewrite length_app. simpl.
  match goal with H : (_ <=? _)%Z = false |- _ => apply Z.leb_gt in H end. lia.
Qed.

Lemma rooms_wf_leave data p s :
  rooms_wf s → rooms_wf (handle_leave_room data p s).2.
Proof.
  intros Hok. unfold handle_leave_room. rooms_wf_cases. room_wf_found.
  split; [done|]. split; simpl; [|done].
  pose proof (length_list_remove_first p (players r)). lia.
Qed.

Lemma rooms_wf_start data p e s :
  rooms_wf s → rooms_wf (handle_start_game data p e s).2.
Proof.
  intros Hok. unfold handle_start_game. rooms_wf_cases; room_wf_found.
  - split; [by right|]. split; simpl; [done|].
    intros q Hq. destruct (Hpid q Hq) as (? & ? & ?). done.
  - split; [by right|]. split; simpl; [done|].
    intros q [= ->]. by eauto.
Qed.

Lemma rooms_wf_monitor rid s : rooms_wf s → rooms_wf (monitor_game_server rid s).
Proof.
  intros Hok. unfold monitor_game_server. rooms_wf_cases; room_wf_found.
  split; [by left|]. split; simpl; [done|done].
Qed.

(** No room is in a ready check: [handle_player_ready] and
    [handle_cancel_ready_check] refuse every request. *)
Lemma player_ready_refused data p e s :
  rooms_wf s →
  is_success (handle_player_ready data p e s).1 = false ∧
  (handle_player_ready data p e s).2 = s.
Proof.
  intros Hok. unfold handle_player_ready.
  destruct (negb (truthy (req_room_id data))); [done|].
  destruct (dict_get _ (rooms s)) as [r|] eqn:Hr; [|done].
  destruct (dict_get_room_wf _ _ _ Hok Hr) as (Hst & _ & _).
  destruct (negb (bool_decide (p ∈ players r))); [done|].
  rewrite bool_decide_eq_false_2; [done|]. intros Heq. rewrite Heq in Hst.
  by destruct Hst.
Qed.

Lemma cancel_ready_check_refused data p s :
  rooms_wf s →
  is_success (handle_cancel_ready_check data p s).1 = false ∧
  (handle_cancel_ready_check data p s).2 = s.
Proof.
  intros Hok. unfold handle_cancel_ready_check.
  destruct (negb (truthy (req_room_id data))); [done|].
  destruct (dict_get _ (rooms s)) as [r|] eqn:Hr; [|done].
  destruct (dict_get_room_wf _ _ _ Hok Hr) as (Hst & _ & _).
  destruct (negb (p =? host r)); [done|].
  rewrite bool_decide_eq_false_2; [done|]. intros Heq. rewrite Heq in Hst.
  by destruct Hst.
Qed.

Lemma rooms_wf_reset data p s :
  rooms_wf s → rooms_wf (handle_reset_room data p s).2.
Proof.
  intros Hok. unfold handle_reset_room. rooms_wf_cases; room_wf_found;
    (split; [by left|]; split; simpl; [done|done]).
Qed.

Lemma rooms_wf_status data p e s :
  rooms_wf s → rooms_wf (handle_get_room_status data p e s).2.
Proof.
  intros Hok. unfold handle_get_room_status. rooms_wf_cases; room_wf_found;
    try done; (split; [by left|]; split; simpl; [done|done]).
Qed.

Lemma rooms_wf_eq s s' : rooms s' = rooms s → rooms_wf s → rooms_wf s'.
Proof. unfold rooms_wf. by intros ->. Qed.

Lemma rooms_wf_disconnect p s : rooms_wf s → rooms_wf (lobby_disconnect p s).
Proof.
  intros Hok. unfold lobby_disconnect.
  repeat match goal with
         | |- context [match ?x with _ => _ end] => destruct x eqn:?
         end; try done;
    (eapply rooms_wf_eq; [reflexivity|]); try done.
  by apply rooms_wf_leave.
Qed.

Lemma rooms_wf_lobby_request conn e action data p s :
  rooms_wf s → rooms_wf (lobby_request conn e action data p s).2.
Proof.
  intros Hok. unfold lobby_request.
  repeat match goal with
         | |- context [if ?b then _ else _] => destruct b eqn:?
         | |- context [match ?x with _ => _ end] => destruct x eqn:?
         end; cbv zeta beta; cbn [fst snd]; try done;
    first [ by rewrite get_game_info_state
          | by rewrite get_reviews_state
          | by apply rooms_wf_download | by apply rooms_wf_submit
          | by apply rooms_wf_create | by apply rooms_wf_join
          | by apply rooms_wf_leave | by apply rooms_wf_start
          | by rewrite (proj2 (player_ready_refused _ _ _ _ Hok))
          | by rewrite (proj2 (cancel_ready_check_refused _ _ _ Hok))
          | by apply rooms_wf_reset | by apply rooms_wf_status ].
Qed.

Lemma rooms_wf_run_event s ev : rooms_wf s → rooms_wf (run_event s ev).
Proof.
  intros Hok. destruct ev; simpl.
  - by apply rooms_wf_upload.
  - by apply rooms_wf_update.
  - by apply rooms_wf_remove.
  - by apply rooms_wf_lobby_request.
  - by apply rooms_wf_disconnect.
  - by apply rooms_wf_monitor.
Qed.

Lemma reachable_rooms_wf s : reachable s → rooms_wf s.
Proof.
  apply reachable_ind; [|apply rooms_wf_run_event]. constructor.
Qed.

(** ** Room ids *)

Lemma digit_value_pretty_N_char k :
  (k < 10)%N → digit_value (pretty_N_char k) = k.
Proof.
  intros Hk.
  assert (k = 0 ∨ k = 1 ∨ k = 2 ∨ k = 3 ∨ k = 4 ∨ k = 5 ∨ k = 6 ∨ k = 7
          ∨ k = 8 ∨ k = 9)%N as Hc by lia.
  repeat destruct Hc as [->|Hc]; try reflexivity. by subst.
Qed.

Lemma decimal_value_pretty_N_go x s :
  decimal_value 0 (pretty_N_go x s) = decimal_value x s.
Proof.
  revert s. induction (N.lt_wf_0 x) as [x _ IH]; intros s.
  assert (x = 0 ∨ 0 < x)%N as [->|Hx] by lia; [by rewrite pretty_N_go_0|].
  rewrite pretty_N_go_step by done.
  rewrite IH by (by apply N.div_lt). simpl.
  rewrite digit_value_pretty_N_char by (by apply N.mod_lt).
  f_equal. rewrite (N.div_mod x 10) at 3 by done. lia.
Qed.

Lemma decimal_value_pretty (n : nat) : decimal_value 0 (pretty n) = N.of_nat n.
Proof.
  unfold pretty, pretty_nat, pretty, pretty_N.
  destruct (decide (N.of_nat n = 0%N)) as [->|]; [done|].
  by rewrite decimal_value_pretty_N_go.
Qed.

Lemma decimal_value_zeros k s :
  decimal_value 0 (String.concat "" (replicate k "0") +:+ s) = decimal_value 0 s.
Proof.
  induction k as [|k IH]; [done|].
  destruct k as [|k]; [done|].
  change (replicate (S (S k)) "0") with ("0" :: replicate (S k) "0").
  change (String.concat "" ("0" :: replicate (S k) "0"))
    with ("0" +:+ "" +:+ String.concat "" (replicate (S k) "0")).
  simpl. exact IH.
Qed.

Lemma room_number_format_room_id n : room_number (format_room_id n) = N.of_nat n.
Proof.
  unfold format_room_id. cbv zeta.
  change (decimal_value 0
            (String.concat "" (replicate (4 - String.length (pretty n)) "0")
             +:+ pretty n) = N.of_nat n).
  by rewrite decimal_value_zeros, decimal_value_pretty.
Qed.

Lemma format_room_id_inj n m : format_room_id n = format_room_id m → n = m.
Proof.
  intros H. apply Nat2N.inj. by rewrite <-!room_number_format_room_id, H.
Qed.

Section dict_keys.
Context {V : Type}.
Implicit Types (d : list (string * V)) (k : string) (v : V).

Lemma dict_set_keys k v d :
  (dict_set k v d).*1 = if decide (k ∈ d.*1) then d.*1 else (d.*1 ++ [k])%list.
Proof.
  induction d as [|[k' v'] d IH].
  - destruct (decide (k ∈ ([] : list (string * V)).*1)) as [H|]; [|done].
    by apply elem_of_nil in H.
  - change (dict_set k v ((k', v') :: d))
      with (if decide (k = k') then (k, v) :: d else (k', v') :: dict_set k v d).
    destruct (decide (k = k')) as [->|Hne]; rewrite !fmap_cons; simpl.
    + by rewrite decide_True by left.
    + rewrite IH. destruct (decide (k ∈ d.*1)) as [Hin|Hnin].
      * by rewrite decide_True by (by right).
      * rewrite decide_False; [done|]. by intros [?|?]%elem_of_cons.
Qed.

Lemma dict_get_is_Some k d : is_Some (dict_get k d) ↔ k ∈ d.*1.
Proof.
  induction d as [|[k' v'] d IH].
  - split; [by intros [? ?]|by intros ?%elem_of_nil].
  - rewrite fmap_cons, elem_of_cons. simpl.
    destruct (decide (k = k')) as [->|Hne]; [by split; eauto|].
    rewrite IH. split; [by right|]. by intros [?|?].
Qed.

Lemma dict_get_None k d : dict_get k d = None ↔ k ∉ d.*1.
Proof. rewrite <-dict_get_is_Some, eq_None_not_Some. done. Qed.

Lemma dict_set_keys_found k v v' d :
  dict_get k d = Some v' → (dict_set k v d).*1 = d.*1.
Proof.
  intros H. rewrite dict_set_keys, decide_True; [done|].
  apply dict_get_is_Some. by eexists.
Qed.

Lemma dict_set_new k v d : dict_get k d = None → dict_set k v d = (d ++ [(k, v)])%list.
Proof.
  induction d as [|[k' v'] d IH]; simpl; [done|].
  destruct (decide (k = k')); [done|]. intros H. by rewrite IH.
Qed.

Lemma dict_del_keys k d : sublist (dict_del k d).*1 d.*1.
Proof. unfold dict_del. apply fmap_sublist, sublist_filter. Qed.

Lemma foldl_dict_del_keys (l : list (string * V)) d :
  sublist (foldl (λ d e, dict_del e.1 d) d l).*1 d.*1.
Proof.
  revert d. induction l as [|x l IH]; intros d; simpl; [done|].
  etrans; [apply IH|apply dict_del_keys].
Qed.

Lemma dict_get_NoDup k v d : NoDup d.*1 → (k, v) ∈ d → dict_get k d = Some v.
Proof.
  induction d as [|[k' v'] d IH]; [by intros _ ?%elem_of_nil|].
  rewrite fmap_cons. intros [Hk Hnd]%NoDup_cons [[= -> ->]|Hin]%elem_of_cons; simpl.
  - by rewrite decide_True.
  - destruct (decide (k = k')) as [->|]; [|auto].
    exfalso. apply Hk. apply list_elem_of_fmap. by exists (k', v).
Qed.
End dict_keys.

Ltac room_ids_step :=
  match goal with
  | |- sublist (dict_del ?k (dict_set ?k _ _)).*1 _ => rewrite dict_del_dict_set
  | |- sublist (dict_del _ _).*1 _ => etrans; [apply dict_del_keys|]
  | H : dict_get ?k ?d = Some _ |- sublist (dict_set ?k _ ?d).*1 _ =>
      rewrite (dict_set_keys_found _ _ _ _ H)
  | |- sublist (foldl _ _ _).*1 _ => etrans; [apply foldl_dict_del_keys|]
  | |- sublist ?l ?l => reflexivity
  end.

Ltac room_ids_cases :=
  repeat first
    [ rewrite delete_rooms_of_game_eq
    | match goal with
      | |- context [match ?x with _ => _ end] => destruct x eqn:?
      end ];
  cbv zeta beta; cbn [fst snd];
  try done;
  unfold room_ids_kept, update_room; simpl; (split; [done|]); repeat room_ids_step.

Lemma room_ids_kept_refl s : room_ids_kept s s.
Proof. done. Qed.

Lemma room_ids_upload data dev now s :
  room_ids_kept s (handle_upload_game data dev now s).2.
Proof. unfold handle_upload_game. room_ids_cases. Qed.

Lemma room_ids_update data dev now s :
  room_ids_kept s (handle_update_game data dev now s).2.
Proof. unfold handle_update_game. room_ids_cases. Qed.

Lemma room_ids_remove data dev s :
  room_ids_kept s (handle_remove_game data dev s).2.
Proof. unfold handle_remove_game. room_ids_cases. Qed.

Lemma room_ids_download data p s :
  room_ids_kept s (handle_download_game data p s).2.
Proof. unfold handle_download_game. room_ids_cases. Qed.

Lemma room_ids_submit data p now s :
  room_ids_kept s (handle_submit_review data p now s).2.
Proof. unfold handle_submit_review. room_ids_cases. Qed.

Lemma room_ids_join data p s :
  room_ids_kept s (handle_join_room data p s).2.
Proof. unfold handle_join_room. room_ids_cases. Qed.

Lemma room_ids_leave data p s :
  room_ids_kept s (handle_leave_room data p s).2.
Proof. unfold handle_leave_room. room_ids_cases. Qed.

Lemma room_ids_start data p e s :
  room_ids_kept s (handle_start_game data p e s).2.
Proof. unfold handle_start_game. room_ids_cases. Qed.

Lemma room_ids_monitor rid s : room_ids_kept s (monitor_game_server rid s).
Proof. unfold monitor_game_server. room_ids_cases. Qed.

Lemma room_ids_reset data p s :
  room_ids_kept s (handle_reset_room data p s).2.
Proof. unfold handle_reset_room. room_ids_cases. Qed.

Lemma room_ids_status data p e s :
  room_ids_kept s (handle_get_room_status data p e s).2.
Proof. unfold handle_get_room_status. room_ids_cases. Qed.

Lemma room_ids_ok_kept s s' : room_ids_kept s s' → room_ids_ok s → room_ids_ok s'.
Proof.
  intros [Hc Hsub] [Hnd Hk]. split.
  - by eapply sublist_NoDup.
  - rewrite Forall_forall in Hk |- *. intros rid Hin. rewrite Hc.
    apply Hk. by eapply elem_of_sublist.
Qed.

Lemma room_ids_ok_fresh s :
  room_ids_ok s → dict_get (format_room_id (room_id_counter s)) (rooms s) = None.
Proof.
  intros [_ Hk]. apply dict_get_None. intros Hin.
  rewrite Forall_forall in Hk. destruct (Hk _ Hin) as (k & Hlt & Heq).
  apply format_room_id_inj in Heq. lia.
Qed.

(** [handle_create_room] refuses and changes nothing, or makes one room. *)
Lemma create_room_cases data p now s :
  (is_success (handle_create_room data p now s).1 = false ∧
   (handle_create_room data p now s).2 = s) ∨
  (∃ game_name info,
     req_game_name data = Some game_name ∧ game_name ≠ "" ∧
     games_metadata s !! game_name = Some info ∧
     version_admitted (req_version data) (version info) = true ∧
     let rid := format_room_id (room_id_counter s) in
     handle_create_room data p now s
     = (Success (Some "Room created")
          (Some (RoomCreatedReply rid game_name (version info) (max_players info))),
        set_rooms (dict_set rid (new_room rid game_name info p now) (rooms s))
          (set_room_id_counter (room_id_counter s + 1) s))).
Proof.
  unfold handle_create_room, generate_room_id, version_admitted.
  destruct (req_game_name data) as [g|]; simpl; [|by left].
  destruct (g =? "") eqn:Hg; simpl; [by left|]. apply String.eqb_neq in Hg.
  destruct (games_metadata s !! g) as [info|] eqn:Hi; [|by left].
  destruct (negb (status info =? "active")); [by left|].
  destruct (truthy (req_version data) && _) eqn:Hv; [by left|].
  right. exists g, info. by rewrite Hv.
Qed.

Lemma room_ids_ok_create data p now s :
  room_ids_ok s → room_ids_ok (handle_create_room data p now s).2.
Proof.
  intros Hok.
  destruct (create_room_cases data p now s)
    as [[_ ->]|(g & info & _ & _ & _ & _ & ->)]; [done|].
  pose proof (room_ids_ok_fresh s Hok) as Hfresh. destruct Hok as [Hnd Hk].
  unfold room_ids_ok. simpl. rewrite dict_set_new by done.
  rewrite fmap_app. simpl. split.
  - apply NoDup_app. split; [done|]. split; [|apply NoDup_singleton].
    intros x Hx ->%list_elem_of_singleton. by apply dict_get_None in Hfresh.
  - apply Forall_app. split.
    + eapply Forall_impl; [exact Hk|]. intros rid (k & ? & ?). exists k. split; [lia|done].
    + apply Forall_singleton. exists (room_id_counter s). split; [lia|done].
Qed.

Lemma room_ids_ok_disconnect p s : room_ids_ok s → room_ids_ok (lobby_disconnect p s).
Proof.
  intros Hok. apply (room_ids_ok_kept s); [|done]. unfold lobby_disconnect.
  destruct (negb (truthy p)); [done|].
  destruct (list_find _ _) as [[i [rid r]]|]; [|done].
  destruct (rid =? ""); [done|].
  destruct (room_ids_leave (room_request rid) (get_default p "") s). by split.
Qed.

Lemma room_ids_ok_lobby_request conn e action data p s :
  rooms_wf s → room_ids_ok s → room_ids_ok (lobby_request conn e action data p s).2.
Proof.
  intros Hwf Hok. unfold lobby_request.
  repeat match goal with
         | |- context [if ?b then _ else _] => destruct b eqn:?
         | |- context [match ?x with _ => _ end] => destruct x eqn:?
         end; cbv zeta beta; cbn [fst snd]; try done;
    first [ by rewrite get_game_info_state
          | by rewrite get_reviews_state
          | by apply room_ids_ok_create
          | by rewrite (proj2 (player_ready_refused _ _ _ _ Hwf))
          | by rewrite (proj2 (cancel_ready_check_refused _ _ _ Hwf))
          | apply (room_ids_ok_kept s); [|done];
            first [ apply room_ids_download | apply room_ids_submit
                  | apply room_ids_join | apply room_ids_leave
                  | apply room_ids_start | apply room_ids_reset
                  | apply room_ids_status ] ].
Qed.

Lemma room_ids_ok_run_event s ev :
  rooms_wf s → room_ids_ok s → room_ids_ok (run_event s ev).
Proof.
  intros Hwf Hok. destruct ev; simpl.
  - apply (room_ids_ok_kept s); [apply room_ids_upload|done].
  - apply (room_ids_ok_kept s); [apply room_ids_update|done].
  - apply (room_ids_ok_kept s); [apply room_ids_remove|done].
  - by apply room_ids_ok_lobby_request.
  - by apply room_ids_ok_disconnect.
  - apply (room_ids_ok_kept s); [apply room_ids_monitor|done].
Qed.

Lemma reachable_room_ids_ok s : reachable s → room_ids_ok s.
Proof.
  intros Hr. cut (rooms_wf s ∧ room_ids_ok s); [by intros [_ ?]|].
  revert s Hr. apply reachable_ind.
  - split; [constructor|]. split; simpl; constructor.
  - intros s ev [Hwf Hok]. split; [by apply rooms_wf_run_event|].
    by apply room_ids_ok_run_event.
Qed.

(** X5. [create_room] in a reachable state is refused and changes nothing, or
    it makes one room for a game of the catalog, at its current version and
    with the player as host and only member: the room is added under an id
    that no room has, and the other rooms stay as they are. *)
Theorem create_room_fresh data player_name now s :
  reachable s →
  (is_success (handle_create_room data player_name now s).1 = false ∧
   (handle_create_room data player_name now s).2 = s) ∨
  (∃ name info,
     req_game_name data = Some name ∧
     games_metadata s !! name = Some info ∧
     version_admitted (req_version data) (version info) = true ∧
     let rid := format_room_id (room_id_counter s) in
     dict_get rid (rooms s) = None ∧
     handle_create_room data player_name now s
     = (Success (Some "Room created")
          (Some (RoomCreatedReply rid name (version info) (max_players info))),
        set_rooms (rooms s ++ [(rid, new_room rid name info player_name now)])%list
          (set_room_id_counter (room_id_counter s + 1) s))).
Proof.
  intros Hr%reachable_room_ids_ok.
  destruct (create_room_cases data player_name now s)
    as [?|(g & info & Hg & _ & Hi & Hv & Heq)]; [by left|].
  right. exists g, info. pose proof (room_ids_ok_fresh s Hr) as Hfresh.
  repeat split; [done..|]. rewrite Heq. by rewrite dict_set_new.
Qed.

Lemma create_room_fresh_witness :
  let s := run Runs.room_open in
  let data := Sample.about_game "tic" (Some "1.0.0") in
  reachable s ∧
  ∃ name info,
    req_game_name data = Some name ∧ games_metadata s !! name = Some info ∧
    dict_get (format_room_id (room_id_counter s)) (rooms s) = None ∧
    rooms (handle_create_room data "bob" 5 s).2
    = (rooms s ++ [(format_room_id (room_id_counter s),
                    new_room (format_room_id (room_id_counter s)) name info "bob" 5)])%list.
Proof.
  assert (Hreach : reachable (run Runs.room_open)) by by eexists.
  split; [exact Hreach|].
  destruct (create_room_fresh (Sample.about_game "tic" (Some "1.0.0")) "bob" 5
              (run Runs.room_open) Hreach)
    as [[Hfail _]|(name & info & Hn & Hi & _ & Hfresh & Heq)].
  - vm_compute in Hfail. discriminate Hfail.
  - exists name, info. split; [exact Hn|]. split; [exact Hi|].
    split; [exact Hfresh|]. cbv zeta in Heq. rewrite Heq. reflexivity.
Defined.

(** ** The catalog in reachable states *)

Lemma round_half_even_bounds (n : Z) (d : positive) (a b : Z) :
  (a * Z.pos d <= n <= b * Z.pos d)%Z → (a <= round_half_even (n # d) <= b)%Z.
Proof.
  intros [Ha Hb]. unfold round_half_even. simpl.
  pose proof (Z.div_mod n (Z.pos d) ltac:(lia)) as Hdm.
  pose proof (Z.mod_pos_bound n (Z.pos d) ltac:(lia)) as Hm.
  destruct (Z.compare_spec (2 * (n mod Z.pos d)) (Z.pos d)) as [He|Hl|Hg];
    [destruct (Z.even _)|..]; nia.
Qed.

Lemma py_round_bounds x ndigits (a b : Z) :
  (inject_Z a <= x <= inject_Z b)%Q →
  (inject_Z a <= py_round x ndigits <= inject_Z b)%Q.
Proof.
  intros [Ha Hb]. unfold py_round. set (P := pow10 ndigits).
  rewrite Qred_correct. destruct x as [n d].
  unfold Qle in Ha, Hb. simpl in Ha, Hb.
  pose proof (round_half_even_bounds (n * Z.pos P) (d * 1) (a * Z.pos P) (b * Z.pos P))
    as Hk.
  change (round_half_even (n * Z.pos P # d * 1))
    with (round_half_even ((n # d) * inject_Z (Z.pos P))) in Hk.
  rewrite Pos.mul_1_r in Hk.
  unfold Qle. simpl. nia.
Qed.

Lemma sum_bounds (l : list Z) :
  Forall (λ r, (1 <= r <= 5)%Z) l →
  (Z.of_nat (length l) <= sum l <= 5 * Z.of_nat (length l))%Z.
Proof.
  induction 1 as [|r l Hr Hl IH]; [simpl; lia|].
  change (sum (r :: l)) with (r + sum l)%Z. rewrite length_cons. lia.
Qed.

Lemma avg_rating_bounds (l : list Z) :
  Forall (λ r, (1 <= r <= 5)%Z) l →
  (inject_Z 0 <= avg_rating l <= inject_Z 5)%Q.
Proof.
  intros Hl. pose proof (sum_bounds l Hl) as Hs.
  unfold avg_rating. destruct l as [|r l]; [done|].
  set (n := length (r :: l)) in *.
  assert (Hn : Z.pos (Pos.of_nat n) = Z.of_nat n).
  { unfold n. simpl length. lia. }
  change (sum (r :: l)) with (r + sum l)%Z in Hs.
  unfold Qle. simpl Qnum. simpl Qden. rewrite Hn. lia.
Qed.

Lemma game_dir_write_ne g v dir s g' v' :
  g' ≠ g → game_dir g' v' (write_game_dir g v dir s) = game_dir g' v' s.
Proof.
  intros Hne. unfold game_dir, write_game_dir. simpl.
  by rewrite lookup_insert_ne.
Qed.

Lemma game_dir_write_is_Some g v dir s g' v' :
  is_Some (game_dir g' v' s) → is_Some (game_dir g' v' (write_game_dir g v dir s)).
Proof.
  destruct (decide (g' = g)) as [->|Hne]; [|by rewrite game_dir_write_ne].
  unfold game_dir, write_game_dir. simpl. rewrite lookup_insert_eq. simpl.
  destruct (uploaded_games s !! g) as [vs|]; simpl; [|by intros [? ?]].
  destruct (decide (v' = v)) as [->|Hv].
  - rewrite lookup_insert_eq. by eexists.
  - by rewrite lookup_insert_ne.
Qed.

Lemma game_ok_write g v dir s g' info :
  game_ok s g' info → game_ok (write_game_dir g v dir s) g' info.
Proof.
  intros (? & ? & ? & Hd & ? & ? & ?). repeat split; try done.
  by apply game_dir_write_is_Some.
Qed.

Lemma catalog_ok_kept s s' : catalog_kept s s' → catalog_ok s → catalog_ok s'.
Proof.
  intros (Hg & Hu & Hr & Hp) (Hgs & Hrs & Hps).
  unfold catalog_ok. rewrite Hg, Hr, Hp. split; [|done].
  intros g info Hi. destruct (Hgs g info Hi) as (? & ? & ? & Hd & ? & ? & ?).
  repeat split; try done. unfold game_dir in *. by rewrite Hu.
Qed.

Lemma catalog_ok_upload data dev now s :
  catalog_ok s → catalog_ok (handle_upload_game data dev now s).2.
Proof.
  intros (Hg & Hr & Hp). unfold handle_upload_game. cbv zeta.
  destruct (req_game_name data) as [g|]; [|done].
  destruct (req_game_type data) as [ty|]; [|done].
  destruct (req_game_files data) as [files|]; [|done].
  destruct (String.eqb g "" || String.eqb ty "") eqn:Hne; [done|].
  destruct (String.eqb (strip _) "") eqn:Hsc; [done|].
  destruct (negb (contains "{host}" _) || negb (contains "{port}" _)) eqn:Hph; [done|].
  destruct (games_metadata s !! g) eqn:Hfresh; [done|].
  destruct (save_game_files files _) as [new_dir [exn|]]; simpl.
  - split; [|done]. intros g' info' Hi. by apply game_ok_write, Hg.
  - split; [|done]. intros g' info'. simpl.
    destruct (decide (g' = g)) as [->|Hneq].
    + rewrite lookup_insert_eq. intros [= <-].
      apply orb_false_iff in Hne as [Hne%String.eqb_neq _].
      apply orb_false_iff in Hph as [Hh%negb_false_iff Hpt%negb_false_iff].
      repeat split; simpl; try done.
      * unfold game_dir. simpl. rewrite lookup_insert_eq. simpl.
        rewrite lookup_insert_eq. by eexists.
      * unfold start_command_accepted. by rewrite Hsc, Hh, Hpt.
    + rewrite lookup_insert_ne by done. intros Hi. by apply game_ok_write, Hg.
Qed.

Lemma catalog_ok_update data dev now s :
  catalog_ok s → catalog_ok (handle_update_game data dev now s).2.
Proof.
  intros (Hg & Hr & Hp). unfold handle_update_game. cbv zeta.
  destruct (req_game_name data) as [g|]; [|done].
  destruct (req_version data) as [ver|]; [|done].
  destruct (req_game_files data) as [files|]; [|done].
  destruct (String.eqb g "" || String.eqb ver ""); [done|].
  destruct (games_metadata s !! g) as [info|] eqn:Hi; [|done].
  destruct (negb (status info =? "active")); [done|].
  destruct (negb (developer info =? dev)); [done|].
  destruct (save_game_files files _) as [new_dir [exn|]]; simpl.
  - split; [|done]. intros g' info' Hi'. by apply game_ok_write, Hg.
  - rewrite delete_rooms_of_game_eq. simpl.
    split; [|done]. intros g' info'. simpl.
    destruct (decide (g' = g)) as [->|Hneq].
    + rewrite lookup_insert_eq. intros [= <-].
      destruct (Hg g info Hi) as (? & ? & ? & ? & ? & ? & ?).
      repeat split; simpl; try done.
      unfold game_dir. simpl. rewrite lookup_insert_eq. simpl.
      rewrite lookup_insert_eq. by eexists.
    + rewrite lookup_insert_ne by done. intros Hi'.
      destruct (Hg g' info' Hi') as (? & ? & ? & Hd & ? & ? & ?).
      repeat split; try done.
      unfold game_dir in *. simpl. by rewrite lookup_insert_ne.
Qed.

Lemma catalog_ok_remove data dev s :
  catalog_ok s → catalog_ok (handle_remove_game data dev s).2.
Proof.
  intros (Hg & Hr & Hp). unfold handle_remove_game. cbv zeta.
  destruct (negb (truthy (req_game_name data))); [done|].
  destruct (games_metadata s !! _) as [info|] eqn:Hi; [|done].
  destruct (negb (developer info =? dev)); [done|].
  rewrite delete_rooms_of_game_eq. simpl.
  split; [|done]. intros g' info'. simpl.
  intros [Hne Hi']%lookup_delete_Some.
  destruct (Hg g' info' Hi') as (? & ? & ? & Hd & ? & ? & ?).
  repeat split; try done.
  unfold game_dir in *. simpl. by rewrite lookup_delete_ne.
Qed.

Lemma catalog_ok_download data p s :
  catalog_ok s → catalog_ok (handle_download_game data p s).2.
Proof.
  intros (Hg & Hr & Hp). unfold handle_download_game. cbv zeta.
  destruct (negb (truthy (req_game_name data))); [done|].
  destruct (games_metadata s !! _) as [info|] eqn:Hi; [|done].
  destruct (negb (status info =? "active")); [done|].
  destruct (game_dir _ _ s) as [dir|]; [|done]. simpl.
  set (g := get_default (req_game_name data) "") in *.
  split; [|split; [done|]].
  - intros g' info'. simpl. destruct (decide (g' = g)) as [->|Hneq].
    + rewrite lookup_insert_eq. intros [= <-]. by apply (Hg g info).
    + rewrite lookup_insert_ne by done. apply Hg.
  - intros q l. simpl. destruct (decide (q = p)) as [->|Hneq].
    + rewrite lookup_insert_eq. intros [= <-].
      assert (Hl : NoDup (default [] (players_file s !! p))).
      { destruct (players_file s !! p) as [l0|] eqn:Hl0; simpl;
          [by eapply Hp|constructor]. }
      case_bool_decide as Hin; [done|].
      apply NoDup_app. split; [done|]. split; [|apply NoDup_singleton].
      by intros x Hx ->%list_elem_of_singleton.
    + rewrite lookup_insert_ne by done. apply Hp.
Qed.

Lemma upsert_review_Forall (P : review → Prop) p new l :
  P new → Forall P l → Forall P (upsert_review p new l).
Proof.
  intros Hn Hl. unfold upsert_review.
  destruct (list_find _ l) as [[i r]|].
  - by apply Forall_insert.
  - apply Forall_app. split; [done|]. by apply Forall_singleton.
Qed.

Lemma catalog_ok_submit data p now s :
  catalog_ok s → catalog_ok (handle_submit_review data p now s).2.
Proof.
  intros (Hg & Hr & Hp).
  destruct (is_success (handle_submit_review data p now s).1) eqn:Hok.
  - apply submit_review_success in Hok
      as (g & r & info & dl & _ & _ & Hrange & Hi & _ & _ & _ & ->).
    assert (Hl : Forall (λ r, (1 <= rating r <= 5)%Z)
                   (upsert_review p (new_review data p now r)
                      (default [] (reviews s !! g)))).
    { apply upsert_review_Forall; [done|].
      destruct (reviews s !! g) as [l0|] eqn:Hl0; simpl; [by eapply Hr|constructor]. }
    unfold reviewed. split; [|split; [|done]]; simpl.
    + intros g' info'. destruct (decide (g' = g)) as [->|Hneq].
      * rewrite lookup_insert_eq. intros [= <-].
        destruct (Hg g info Hi) as (? & ? & ? & ? & ? & ? & ?).
        repeat split; try done; simpl;
          apply (py_round_bounds _ 2 0 5), avg_rating_bounds;
          unfold ratings_of; by apply Forall_fmap.
      * rewrite lookup_insert_ne by done. apply Hg.
    + intros g' l. destruct (decide (g' = g)) as [->|Hneq].
      * rewrite lookup_insert_eq. by intros [= <-].
      * rewrite lookup_insert_ne by done. apply Hr.
  - revert Hok. unfold handle_submit_review. handler_cases.
Qed.

Ltac catalog_kept_cases :=
  unfold catalog_kept, update_room;
  repeat first
    [ progress simpl
    | match goal with
      | |- context [match ?x with _ => _ end] => destruct x eqn:?
      end ];
  try done.

Lemma catalog_kept_create data p now s :
  catalog_kept s (handle_create_room data p now s).2.
Proof. unfold handle_create_room, generate_room_id. catalog_kept_cases. Qed.

Lemma catalog_kept_join data p s : catalog_kept s (handle_join_room data p s).2.
Proof. unfold handle_join_room. catalog_kept_cases. Qed.

Lemma catalog_kept_leave data p s : catalog_kept s (handle_leave_room data p s).2.
Proof. unfold handle_leave_room. catalog_kept_cases. Qed.

Lemma catalog_kept_start data p e s :
  catalog_kept s (handle_start_game data p e s).2.
Proof. unfold handle_start_game. catalog_kept_cases. Qed.

Lemma catalog_kept_monitor rid s : catalog_kept s (monitor_game_server rid s).
Proof. unfold monitor_game_server. catalog_kept_cases. Qed.

Lemma catalog_kept_player_ready data p e s :
  catalog_kept s (handle_player_ready data p e s).2.
Proof. unfold handle_player_ready, _actually_start_game. catalog_kept_cases. Qed.

Lemma catalog_kept_cancel data p s :
  catalog_kept s (handle_cancel_ready_check data p s).2.
Proof. unfold handle_cancel_ready_check. catalog_kept_cases. Qed.

Lemma catalog_kept_reset data p s : catalog_kept s (handle_reset_room data p s).2.
Proof. unfold handle_reset_room. catalog_kept_cases. Qed.

Lemma catalog_kept_status data p e s :
  catalog_kept s (handle_get_room_status data p e s).2.
Proof. unfold handle_get_room_status. catalog_kept_cases. Qed.

Lemma catalog_kept_disconnect p s : catalog_kept s (lobby_disconnect p s).
Proof.
  unfold lobby_disconnect.
  destruct (negb (truthy p)); [done|].
  destruct (list_find _ _) as [[i [rid r]]|]; [|done].
  destruct (rid =? ""); [done|].
  destruct (catalog_kept_leave (room_request rid) (get_default p "") s)
    as (? & ? & ? & ?).
  by repeat split.
Qed.

Lemma catalog_ok_lobby_request conn e action data p s :
  catalog_ok s → catalog_ok (lobby_request conn e action data p s).2.
Proof.
  intros Hok. unfold lobby_request.
  repeat match goal with
         | |- context [if ?b then _ else _] => destruct b eqn:?
         | |- context [match ?x with _ => _ end] => destruct x eqn:?
         end; cbv zeta beta; cbn [fst snd]; try done;
    first [ by rewrite get_game_info_state
          | by rewrite get_reviews_state
          | by apply catalog_ok_download
          | by apply catalog_ok_submit
          | apply (catalog_ok_kept s); [|done];
            first [ apply catalog_kept_create | apply catalog_kept_join
                  | apply catalog_kept_leave | apply catalog_kept_start
                  | apply catalog_kept_player_ready | apply catalog_kept_cancel
                  | apply catalog_kept_reset | apply catalog_kept_status ] ].
Qed.

Lemma catalog_ok_run_event s ev : catalog_ok s → catalog_ok (run_event s ev).
Proof.
  intros Hok. destruct ev; simpl.
  - by apply catalog_ok_upload.
  - by apply catalog_ok_update.
  - by apply catalog_ok_remove.
  - by apply catalog_ok_lobby_request.
  - apply (catalog_ok_kept s); [apply catalog_kept_disconnect|done].
  - apply (catalog_ok_kept s); [apply catalog_kept_monitor|done].
Qed.

Lemma reachable_catalog_ok s : reachable s → catalog_ok s.
Proof.
  apply reachable_ind; [|apply catalog_ok_run_event].
  split; [|split]; intros ? ?; simpl; by rewrite lookup_empty.
Qed.

(** ** Rooms follow the catalog *)

Lemma room_current_same catalog r r' :
  room_game_name r' = room_game_name r → room_version r' = room_version r →
  room_max_players r' = room_max_players r →
  (is_Some (game_server_process r') → is_Some (game_server_process r)) →
  room_current catalog r → room_current catalog r'.
Proof.
  unfold room_current. intros -> -> -> Hp (info & Hi & Hv & Hm & Hc).
  exists info. split; [done|]. split; [done|]. split; [done|].
  intros Hs. by apply Hc, Hp.
Qed.

Lemma dict_get_room_current rid r s :
  rooms_current s → dict_get rid (rooms s) = Some r →
  room_current (games_metadata s) r.
Proof.
  intros Hok Hr%dict_get_elem_of. unfold rooms_current in Hok.
  rewrite Forall_forall in Hok. by apply (Hok (rid, r)).
Qed.

Ltac rooms_current_step :=
  match goal with
  | |- Forall _ (dict_del ?k (dict_set ?k _ _)) => rewrite dict_del_dict_set
  | |- Forall _ (dict_del _ _) => apply Forall_dict_del
  | |- Forall _ (dict_set _ _ _) => apply Forall_dict_set
  | |- Forall _ (foldl _ _ _) => apply Forall_foldl_dict_del
  | H : rooms_current ?s |- Forall _ (rooms ?s) => exact H
  end.

Ltac room_current_same :=
  match goal with
  | Hok : rooms_current ?s, H : dict_get _ (rooms ?s) = Some ?r |- room_current _ _ =>
    apply (room_current_same _ r);
      [done|done|done|by simpl; try intros [? ?]
      |exact (dict_get_room_current _ _ _ Hok H)]
  end.

Ltac rooms_current_cases :=
  repeat first
    [ rewrite delete_rooms_of_game_eq
    | match goal with
      | |- context [match ?x with _ => _ end] => destruct x eqn:?
      end ];
  cbv zeta beta; cbn [fst snd];
  try done;
  unfold rooms_current, update_room; simpl; repeat rooms_current_step;
  try room_current_same.

(** The rooms that stay when the entry of [g] changes are rooms of other
    games. *)
Lemma rooms_current_others g s (catalog : gmap string game_info) :
  (∀ other, other ≠ g → catalog !! other = games_metadata s !! other) →
  rooms_current s →
  Forall (λ e, room_current catalog e.2)
    (foldl (λ d e, dict_del e.1 d) (rooms s)
       (filter (λ e : string * room, room_game_name e.2 = g) (rooms s))).
Proof.
  intros Hcat Hok. apply Forall_forall. intros e [He Hk]%elem_of_foldl_dict_del.
  unfold rooms_current in Hok. rewrite Forall_forall in Hok.
  destruct (Hok e He) as (info & Hi & Hv & Hm & Hc).
  exists info. split; [|done]. rewrite Hcat; [done|].
  intros Hg. apply Hk. apply list_elem_of_fmap. exists e. split; [done|].
  by apply list_elem_of_filter.
Qed.

Lemma rooms_current_upload data dev now s :
  rooms_current s → rooms_current (handle_upload_game data dev now s).2.
Proof.
  intros Hok. unfold handle_upload_game. cbv zeta.
  repeat match goal with
         | |- context [match ?x with _ => _ end] => destruct x eqn:?
         end; try done.
  all: first [ exact Hok | unfold rooms_current in *; simpl ].
  eapply Forall_impl; [exact Hok|].
  intros e (info & Hi & Hv & Hm & Hc). exists info. split; [|done].
  rewrite lookup_insert_ne; [done|]. intros Heq. rewrite <-Heq in Hi. congruence.
Qed.

Lemma rooms_current_update data dev now s :
  rooms_current s → rooms_current (handle_update_game data dev now s).2.
Proof.
  intros Hok. unfold handle_update_game. cbv zeta.
  repeat first
    [ rewrite delete_rooms_of_game_eq
    | match goal with
      | |- context [match ?x with _ => _ end] => destruct x eqn:?
      end ]; try done.
  all: first [ exact Hok | unfold rooms_current; simpl ].
  all: apply rooms_current_others; [|done].
  all: intros other Ho; by rewrite lookup_insert_ne.
Qed.

Lemma rooms_current_remove data dev s :
  rooms_current s → rooms_current (handle_remove_game data dev s).2.
Proof.
  intros Hok. unfold handle_remove_game. cbv zeta.
  repeat first
    [ rewrite delete_rooms_of_game_eq
    | match goal with
      | |- context [match ?x with _ => _ end] => destruct x eqn:?
      end ]; try done.
  all: first [ exact Hok | unfold rooms_current; simpl ].
  all: apply rooms_current_others; [|done].
  all: intros other Ho; by rewrite lookup_delete_ne.
Qed.

Lemma rooms_current_entry s g info info' s' :
  games_metadata s !! g = Some info →
  version info' = version info → max_players info' = max_players info →
  game_config info' = game_config info →
  games_metadata s' = <[g := info']> (games_metadata s) → rooms s' = rooms s →
  rooms_current s → rooms_current s'.
Proof.
  intros Hi Hv Hm Hcfg Hcat Hrooms Hok. unfold rooms_current in *.
  rewrite Hcat, Hrooms. eapply Forall_impl; [exact Hok|].
  intros e (i & Hi' & Hv' & Hm' & Hc').
  destruct (decide (room_game_name e.2 = g)) as [Hg|Hg].
  - exists info'. rewrite Hg, lookup_insert_eq. rewrite Hg, Hi in Hi'.
    injection Hi' as <-. split; [done|]. by rewrite Hv, Hm, Hcfg.
  - exists i. by rewrite lookup_insert_ne.
Qed.

Lemma rooms_current_download data p s :
  rooms_current s → rooms_current (handle_download_game data p s).2.
Proof.
  intros Hok. unfold handle_download_game. cbv zeta.
  repeat match goal with
         | |- context [match ?x with _ => _ end] => destruct x eqn:?
         end; try done.
  all: eapply (rooms_current_entry s _ _ (count_download _));
    [eassumption|done|done|done|reflexivity|reflexivity|done].
Qed.

Lemma rooms_current_submit data p now s :
  rooms_current s → rooms_current (handle_submit_review data p now s).2.
Proof.
  intros Hok.
  destruct (is_success (handle_submit_review data p now s).1) eqn:Hs.
  - apply submit_review_success in Hs
      as (g & r & info & dl & _ & _ & _ & Hi & _ & _ & _ & ->).
    eapply (rooms_current_entry s _ _ (set_rating _ _ info));
      [exact Hi|done|done|done|reflexivity|reflexivity|done].
  - revert Hs. unfold handle_submit_review. handler_cases.
Qed.

Lemma rooms_current_create data p now s :
  rooms_current s → rooms_current (handle_create_room data p now s).2.
Proof.
  intros Hok. unfold handle_create_room, generate_room_id. rooms_current_cases.
  eexists. split; [eassumption|]. split; [done|]. split; [done|].
  simpl. by intros [? ?].
Qed.

Lemma rooms_current_join data p s :
  rooms_current s → rooms_current (handle_join_room data p s).2.
Proof. intros Hok. unfold handle_join_room. rooms_current_cases. Qed.

Lemma rooms_current_leave data p s :
  rooms_current s → rooms_current (handle_leave_room data p s).2.
Proof. intros Hok. unfold handle_leave_room. rooms_current_cases. Qed.

Lemma rooms_current_start data p e s :
  rooms_current s → rooms_current (handle_start_game data p e s).2.
Proof.
  intros Hok. unfold handle_start_game. rooms_current_cases.
  match goal with H : dict_get _ (rooms s) = Some ?r |- _ =>
    destruct (dict_get_room_current _ _ _ Hok H) as (info & Hi & Hv & Hm & Hc) end.
  exists info. repeat split; try done. intros _. simpl.
  match goal with H : negb (truthy _) = false |- _ =>
    apply negb_false_iff in H end.
  congruence.
Qed.

Lemma rooms_current_monitor rid s :
  rooms_current s → rooms_current (monitor_game_server rid s).
Proof. intros Hok. unfold monitor_game_server. rooms_current_cases. Qed.

Lemma rooms_current_reset data p s :
  rooms_current s → rooms_current (handle_reset_room data p s).2.
Proof. intros Hok. unfold handle_reset_room. rooms_current_cases. Qed.

Lemma rooms_current_status data p e s :
  rooms_current s → rooms_current (handle_get_room_status data p e s).2.
Proof. intros Hok. unfold handle_get_room_status. rooms_current_cases. Qed.

Lemma rooms_current_disconnect p s :
  rooms_current s → rooms_current (lobby_disconnect p s).
Proof.
  intros Hok. unfold lobby_disconnect.
  destruct (negb (truthy p)); [done|].
  destruct (list_find _ _) as [[i [rid r]]|]; [|done].
  destruct (rid =? ""); [done|].
  by apply (rooms_current_leave (room_request rid) (get_default p "")) in Hok.
Qed.

Lemma rooms_current_lobby_request conn e action data p s :
  rooms_wf s → rooms_current s →
  rooms_current (lobby_request conn e action data p s).2.
Proof.
  intros Hwf Hok. unfold lobby_request.
  repeat match goal with
         | |- context [if ?b then _ else _] => destruct b eqn:?
         | |- context [match ?x with _ => _ end] => destruct x eqn:?
         end; cbv zeta beta; cbn [fst snd]; try done;
    first [ by rewrite get_game_info_state
          | by rewrite get_reviews_state
          | by apply rooms_current_download | by apply rooms_current_submit
          | by apply rooms_current_create | by apply rooms_current_join
          | by apply rooms_current_leave | by apply rooms_current_start
          | by rewrite (proj2 (player_ready_refused _ _ _ _ Hwf))
          | by rewrite (proj2 (cancel_ready_check_refused _ _ _ Hwf))
          | by apply rooms_current_reset | by apply rooms_current_status ].
Qed.

Lemma rooms_current_run_event s ev :
  rooms_wf s → rooms_current s → rooms_current (run_event s ev).
Proof.
  intros Hwf Hok. destruct ev; simpl.
  - by apply rooms_current_upload.
  - by apply rooms_current_update.
  - by apply rooms_current_remove.
  - by apply rooms_current_lobby_request.
  - by apply rooms_current_disconnect.
  - by apply rooms_current_monitor.
Qed.

Lemma reachable_rooms_current s : reachable s → rooms_current s.
Proof.
  intros Hr. cut (rooms_wf s ∧ rooms_current s); [by intros [_ ?]|].
  revert s Hr. apply reachable_ind.
  - split; constructor.
  - intros s ev [Hwf Hok]. split; [by apply rooms_wf_run_event|].
    by apply rooms_current_run_event.
Qed.

(** X1. No room is ever in a ready check or finished: every room of a reachable
    state is waiting or playing, so [player_ready] and [cancel_ready_check]
    are refused whatever the request, and change nothing. *)
Theorem ready_check_never_opens data player_name e s :
  reachable s →
  (∀ rid r, (rid, r) ∈ rooms s →
            room_status_of r = waiting ∨ room_status_of r = playing) ∧
  is_success (handle_player_ready data player_name e s).1 = false ∧
  (handle_player_ready data player_name e s).2 = s ∧
  is_success (handle_cancel_ready_check data player_name s).1 = false ∧
  (handle_cancel_ready_check data player_name s).2 = s.
Proof.
  intros Hwf%reachable_rooms_wf. split.
  - intros rid r Hin. unfold rooms_wf in Hwf. rewrite Forall_forall in Hwf.
    by destruct (Hwf _ Hin) as [? _].
  - destruct (player_ready_refused data player_name e s Hwf).
    by destruct (cancel_ready_check_refused data player_name s Hwf).
Qed.

Lemma ready_check_never_opens_witness :
  let s := run Runs.room_joined in
  let data := Sample.about_room "ROOM_0001" None in
  reachable s ∧
  is_success (handle_player_ready data "bob" Sample.env s).1 = false ∧
  (handle_player_ready data "bob" Sample.env s).2 = s ∧
  is_success (handle_cancel_ready_check data "alice" s).1 = false.
Proof.
  assert (Hreach : reachable (run Runs.room_joined)) by by eexists.
  destruct (ready_check_never_opens (Sample.about_room "ROOM_0001" None) "bob"
              Sample.env (run Runs.room_joined) Hreach) as (_ & H1 & H2 & _).
  destruct (ready_check_never_opens (Sample.about_room "ROOM_0001" None) "alice"
              Sample.env (run Runs.room_joined) Hreach) as (_ & _ & _ & H3 & _).
  split; [exact Hreach|]. split; [exact H1|]. split; [exact H2|exact H3].
Defined.

(** X2. A room never holds more players than the game allows (one, for a game
    uploaded with [max_players] below one). *)
Theorem room_capacity s rid r :
  reachable s → (rid, r) ∈ rooms s →
  (1 <= Z.of_nat (List.length (players r)) <= Z.max 1 (room_max_players r))%Z.
Proof.
  intros Hr Hin.
  pose proof (reachable_rooms_wf s Hr) as Hwf.
  pose proof (reachable_rooms_ok s Hr) as Hok.
  unfold rooms_wf in Hwf. unfold rooms_ok in Hok. rewrite Forall_forall in Hwf, Hok.
  destruct (Hwf _ Hin) as (_ & Hcap & _). destruct (Hok _ Hin) as [Hhost _].
  simpl in *. split; [|done].
  destruct (players r); [by apply elem_of_nil in Hhost|simpl; lia].
Qed.

Lemma room_capacity_witness :
  let s := run Runs.game_started in
  reachable s ∧ ("ROOM_0001", Runs.duel_room) ∈ rooms s ∧
  (1 <= Z.of_nat (List.length (players Runs.duel_room))
   <= Z.max 1 (room_max_players Runs.duel_room))%Z.
Proof.
  assert (Hreach : reachable (run Runs.game_started)) by by eexists.
  assert (Hin : ("ROOM_0001", Runs.duel_room) ∈ rooms (run Runs.game_started))
    by (rewrite (proj1 game_started_example); left).
  split; [exact Hreach|]. split; [exact Hin|].
  exact (room_capacity (run Runs.game_started) "ROOM_0001" Runs.duel_room Hreach Hin).
Defined.

(** X3. A room records the process id of a game server only while it is
    playing, together with the process and the port; a waiting room has
    none, so that leaving or destroying it signals no process. *)
Theorem game_server_bookkeeping s rid r :
  reachable s → (rid, r) ∈ rooms s →
  (∀ p, game_server_pid r = Pid p →
        room_status_of r = playing ∧ game_server_process r = Some p ∧
        is_Some (game_server_port r)) ∧
  (room_status_of r = waiting → ∀ t, stop_game_server r t = t).
Proof.
  intros Hwf%reachable_rooms_wf Hin.
  unfold rooms_wf in Hwf. rewrite Forall_forall in Hwf.
  destruct (Hwf _ Hin) as (_ & _ & Hpid). split; [done|].
  intros Hw t. unfold stop_game_server.
  destruct (game_server_pid r) as [| |p] eqn:Hp; [done|done|].
  destruct (Hpid p Hp) as [Hs _]. simpl in Hs. congruence.
Qed.

Lemma game_server_bookkeeping_witness :
  let s := run Runs.game_started in
  reachable s ∧ ("ROOM_0001", Runs.duel_room) ∈ rooms s ∧
  room_status_of Runs.duel_room = playing ∧
  game_server_process Runs.duel_room = Some 4242%Z ∧
  is_Some (game_server_port Runs.duel_room).
Proof.
  assert (Hreach : reachable (run Runs.game_started)) by by eexists.
  assert (Hin : ("ROOM_0001", Runs.duel_room) ∈ rooms (run Runs.game_started))
    by (rewrite (proj1 game_started_example); left).
  destruct (game_server_bookkeeping (run Runs.game_started) "ROOM_0001"
              Runs.duel_room Hreach Hin) as [Hpid _].
  split; [exact Hreach|]. split; [exact Hin|]. exact (Hpid 4242%Z eq_refl).
Defined.



(** ** Starting a game, polling and resetting a room *)

(** What a reachable state gives about a room found under an id. *)
Lemma reachable_room_found s room_id room :
  reachable s → dict_get room_id (rooms s) = Some room →
  room_id ≠ "" ∧ room_ok room ∧ room_wf room ∧
  ∃ info dir,
    games_metadata s !! room_game_name room = Some info ∧
    version info = room_version room ∧
    max_players info = room_max_players room ∧
    (is_Some (game_server_process room) →
     truthy (server_command (game_config info)) = true) ∧
    game_dir (room_game_name room) (version info) s = Some dir.
Proof.
  intros Hr Hroom.
  destruct (reachable_room_ids_ok s Hr) as [_ Hk].
  pose proof (dict_get_room_ok _ _ _ (reachable_rooms_ok s Hr) Hroom) as Hok.
  pose proof (dict_get_room_wf _ _ _ (reachable_rooms_wf s Hr) Hroom) as Hwf.
  destruct (dict_get_room_current _ _ _ (reachable_rooms_current s Hr) Hroom)
    as (info & Hi & Hv & Hm & Hc).
  destruct (reachable_catalog_ok s Hr) as [Hcat _].
  destruct (Hcat _ _ Hi) as (_ & _ & _ & [dir Hd] & _).
  split; [|split; [done|split; [done|by exists info, dir]]].
  rewrite Forall_forall in Hk. destruct (Hk room_id) as (k & _ & ->); [|done].
  apply dict_get_is_Some. by eexists.
Qed.



(** X7. [get_room_status] by a member of a room of a reachable state: the
    answer shows the room as playing only while the process of its game
    server runs; otherwise the room is (put back to) waiting.  A game
    without server command has no such process: its rooms are shown as
    waiting at every poll, also right after the host started the game.
    Someone who is not in the room is refused. *)
Theorem room_status_poll data player_name e s room_id room :
  reachable s → req_room_id data = Some room_id →
  dict_get room_id (rooms s) = Some room →
  let r := handle_get_room_status data player_name e s in
  (player_name ∉ players room → r = (Error "You are not in this room", s)) ∧
  (player_name ∈ players room →
   ∃ rd room',
     r.1 = Success None (Some (RoomStatusReply rd)) ∧
     dict_get room_id (rooms r.2) = Some room' ∧
     (∀ other, other ≠ room_id →
               dict_get other (rooms r.2) = dict_get other (rooms s)) ∧
     rd_status rd = room_status_of room' ∧
     rd_players rd = players room ∧ players room' = players room ∧
     host room' = host room ∧
     (room_status_of room' = playing ∨ room_status_of room' = waiting) ∧
     (room_status_of room' = playing ↔
      room_status_of room = playing ∧
      ∃ p, game_server_process room = Some p ∧ env_poll e p = None) ∧
     (∀ info, games_metadata s !! room_game_name room = Some info →
              truthy (server_command (game_config info)) = false →
              rd_status rd = waiting)).
Proof.
  intros Hr Hid Hroom r.
  destruct (reachable_room_found s room_id room Hr Hroom)
    as (Hne & _ & (Hst & _ & Hpid) & info & dir & Hi & _ & _ & Hc & _).
  unfold r, handle_get_room_status. rewrite Hid. simpl.
  apply String.eqb_neq in Hne. rewrite Hne. simpl. rewrite Hroom.
  split.
  { intros Hout. by rewrite bool_decide_eq_false_2. }
  intros Hin. rewrite bool_decide_eq_true_2 by done. simpl.
  set (should_reset := bool_decide (room_status_of room = playing) && _).
  assert (Hserver : ∀ info', games_metadata s !! room_game_name room = Some info' →
            truthy (server_command (game_config info')) = false →
            game_server_process room = None).
  { intros info' Hi' Hno. rewrite Hi in Hi'. injection Hi' as <-.
    destruct (game_server_process room) as [p|]; [|done].
    rewrite Hc in Hno by by eexists. done. }
  assert (Hreset : should_reset = true ↔
            room_status_of room = playing ∧
            ¬ ∃ p, game_server_process room = Some p ∧ env_poll e p = None).
  { unfold should_reset. rewrite andb_true_iff, bool_decide_eq_true.
    split; intros [Hp Hx]; (split; [done|]).
    - intros (p & Hproc & Hpoll). rewrite Hproc in Hx.
      rewrite bool_decide_eq_true, Hpoll in Hx. by destruct Hx.
    - destruct (game_server_process room) as [p|] eqn:Hproc.
      + apply bool_decide_eq_true. destruct (env_poll e p) eqn:Hpoll; [done|].
        destruct Hx. by exists p.
      + destruct (game_server_pid room) as [| |p] eqn:Hpd; [done|done|].
        destruct (Hpid p eq_refl) as (_ & ? & _). congruence. }
  destruct should_reset eqn:Hsr.
  - apply proj1 in Hreset. destruct (Hreset eq_refl) as [Hp Hdead].
    eexists _, _. split; [done|]. unfold update_room. simpl.
    split; [apply dict_get_dict_set_eq|].
    split. { intros other Ho. rewrite dict_get_dict_set. by rewrite decide_False. }
    split; [done|]. split; [done|]. split; [done|]. split; [done|].
    split; [by right|]. split; [|done].
    split; [done|]. by intros [_ ?].
  - assert (Hno : ¬ (room_status_of room = playing ∧
                     ¬ ∃ p, game_server_process room = Some p ∧ env_poll e p = None)).
    { intros H. apply Hreset in H. done. }
    eexists _, _. split; [done|]. unfold update_room. simpl.
    split; [apply dict_get_dict_set_eq|].
    split. { intros other Ho. rewrite dict_get_dict_set. by rewrite decide_False. }
    split; [done|]. split; [done|]. split; [done|]. split; [done|].
    split; [tauto|]. split.
    + split.
      * intros Hp. split; [done|].
        destruct (game_server_process room) as [p|] eqn:Hproc.
        -- destruct (env_poll e p) eqn:Hpoll; [|by eauto].
           exfalso. apply Hno. split; [done|]. intros (q & [= <-] & Hq). congruence.
        -- exfalso. apply Hno. split; [done|]. by intros (q & ? & _).
      * by intros [? _].
    + intros info' Hi' Hcmd. destruct Hst as [Hw|Hp]; [done|].
      exfalso. apply Hno. split; [done|].
      rewrite (Hserver info' Hi' Hcmd). by intros (q & ? & _).
Qed.

Lemma room_status_poll_witness :
  let s := run Cases.tic_started in
  let data := Sample.about_room "ROOM_0001" None in
  let r := handle_get_room_status data "bob" Sample.env s in
  reachable s ∧ req_room_id data = Some "ROOM_0001" ∧
  dict_get "ROOM_0001" (rooms s) = Some (set_room_status playing Cases.tic_room) ∧
  ∃ rd room',
    r.1 = Success None (Some (RoomStatusReply rd)) ∧
    dict_get "ROOM_0001" (rooms r.2) = Some room' ∧
    rd_status rd = waiting ∧ room_status_of room' = waiting.
Proof.
  assert (Hreach : reachable (run Cases.tic_started)) by by eexists.
  split; [exact Hreach|]. split; [reflexivity|]. split; [reflexivity|].
  destruct (room_status_poll (Sample.about_room "ROOM_0001" None) "bob" Sample.env
              (run Cases.tic_started) "ROOM_0001"
              (set_room_status playing Cases.tic_room) Hreach eq_refl eq_refl)
    as [_ Hmember].
  destruct Hmember as (rd & room' & H1 & H2 & _ & H4 & _ & _ & _ & _ & _ & Hquiet).
  { right. left. }
  exists rd, room'. split; [exact H1|]. split; [exact H2|].
  assert (Hw : rd_status rd = waiting).
  { apply (Hquiet Cases.tic_info); reflexivity. }
  split; [exact Hw|]. rewrite <-H4. exact Hw.
Defined.

Lemma filter_all {A} (P : A → Prop) `{∀ x, Decision (P x)} (l : list A) :
  Forall P l → filter P l = l.
Proof.
  induction 1 as [|x l Hx Hl IH]; [done|].
  by rewrite filter_cons_True, IH.
Qed.

(** X9. [list_rooms] hides no room: in a reachable state the list has every
    room, in the order of their creation and each under its own id, with
    its host among the players shown and their number. *)
Theorem rooms_listed s :
  reachable s →
  ∃ l, handle_list_rooms s = (Success None (Some (RoomsReply l)), s) ∧
       rs_room_id <$> l = (rooms s).*1 ∧ NoDup (rs_room_id <$> l) ∧
       Forall (λ x, rs_host x ∈ rs_players x ∧
                    rs_current_players x = List.length (rs_players x) ∧
                    (rs_status x = waiting ∨ rs_status x = playing)) l.
Proof.
  intros Hr.
  pose proof (reachable_rooms_wf s Hr) as Hwf.
  pose proof (reachable_rooms_ok s Hr) as Hok.
  destruct (reachable_room_ids_ok s Hr) as [Hnd _].
  unfold rooms_wf in Hwf. unfold rooms_ok in Hok.
  eexists. split; [reflexivity|].
  rewrite filter_all.
  2:{ eapply Forall_impl; [exact Hwf|]. intros e ([Hs|Hs] & _); simpl; congruence. }
  rewrite <-list_fmap_compose.
  assert (Hids : (rs_room_id ∘ (λ e : string * room,
                    {| rs_room_id := e.1; rs_game_name := room_game_name e.2;
                       rs_version := room_version e.2; rs_host := host e.2;
                       rs_players := players e.2;
                       rs_current_players := List.length (players e.2);
                       rs_max_players := room_max_players e.2;
                       rs_status := room_status_of e.2 |})) <$> rooms s
                 = (rooms s).*1) by done.
  rewrite Hids. split; [done|]. split; [done|].
  apply Forall_fmap. rewrite Forall_forall in Hwf, Hok. apply Forall_forall.
  intros e He. destruct (Hwf e He) as (Hs & _). destruct (Hok e He) as [Hh _].
  done.
Qed.

Lemma rooms_listed_witness :
  let s := run Runs.game_started in
  reachable s ∧
  ∃ l, handle_list_rooms s = (Success None (Some (RoomsReply l)), s) ∧
       rs_room_id <$> l = ["ROOM_0001"].
Proof.
  assert (Hreach : reachable (run Runs.game_started)) by by eexists.
  split; [exact Hreach|].
  destruct (rooms_listed (run Runs.game_started) Hreach) as (l & H1 & H2 & _).
  exists l. split; [exact H1|]. rewrite H2.
  rewrite (proj1 game_started_example). reflexivity.
Defined.

(** X8. [reset_room] is for the host: anyone else is refused and nothing
    changes.  For the host of a room of a reachable state the room goes back
    to waiting with the same players and without game server; the process
    of the game server, when the room had one, is sent [SIGTERM]; the other
    rooms are not touched. *)
Theorem reset_room_reopens data player_name s room_id room :
  reachable s → req_room_id data = Some room_id →
  dict_get room_id (rooms s) = Some room →
  let r := handle_reset_room data player_name s in
  (player_name ≠ host room → r = (Error "Only host can reset room", s)) ∧
  (player_name = host room →
   r.1 = Success (Some "Room reset to waiting")
           (Some (ResetReply room_id waiting (players room))) ∧
   (∃ room', dict_get room_id (rooms r.2) = Some room' ∧
             room_status_of room' = waiting ∧ players room' = players room ∧
             host room' = host room ∧ game_server_pid room' = PidNone ∧
             game_server_port room' = None) ∧
   (∀ other, other ≠ room_id →
             dict_get other (rooms r.2) = dict_get other (rooms s)) ∧
   terminated r.2
   = match game_server_pid room with
     | Pid p => if (p =? 0)%Z then terminated s else Kill p :: terminated s
     | _ => terminated s
     end ∧
   (room_status_of room = waiting → terminated r.2 = terminated s)).
Proof.
  intros Hr Hid Hroom r.
  destruct (reachable_room_found s room_id room Hr Hroom)
    as (Hne & _ & (_ & _ & Hpid) & _).
  unfold r, handle_reset_room. rewrite Hid. simpl.
  apply String.eqb_neq in Hne. rewrite Hne. simpl. rewrite Hroom.
  destruct (String.eqb_spec player_name (host room)) as [Hh|Hh]; simpl.
  2:{ split; [done|]. by intros ?. }
  split; [by intros ?|]. intros _. split; [done|].
  assert (Hquiet : room_status_of room = waiting →
                   ∀ p, game_server_pid room ≠ Pid p).
  { intros Hw p Hp. destruct (Hpid p Hp) as [Hs _]. congruence. }
  unfold update_room.
  destruct (game_server_pid room) as [| |p] eqn:Hp;
    [| |destruct (p =? 0)%Z]; simpl.
  all: split; [eexists; split; [apply dict_get_dict_set_eq|done]|].
  all: split; [intros other Ho; rewrite dict_get_dict_set; by rewrite decide_False|].
  all: split; [done|].
  all: try done.
  intros Hw. by destruct (Hquiet Hw p).
Qed.

Lemma reset_room_reopens_witness :
  let s := run Runs.game_started in
  let data := Sample.about_room "ROOM_0001" None in
  reachable s ∧ req_room_id data = Some "ROOM_0001" ∧
  dict_get "ROOM_0001" (rooms s) = Some Runs.duel_room ∧
  (handle_reset_room data "alice" s).1
  = Success (Some "Room reset to waiting")
      (Some (ResetReply "ROOM_0001" waiting ["alice"; "bob"])) ∧
  terminated (handle_reset_room data "alice" s).2 = [Kill 4242] ∧
  handle_reset_room data "bob" s = (Error "Only host can reset room", s).
Proof.
  assert (Hreach : reachable (run Runs.game_started)) by by eexists.
  split; [exact Hreach|]. split; [reflexivity|]. split; [reflexivity|].
  destruct (reset_room_reopens (Sample.about_room "ROOM_0001" None) "alice"
              (run Runs.game_started) "ROOM_0001" Runs.duel_room
              Hreach eq_refl eq_refl) as [_ Hhost].
  destruct (reset_room_reopens (Sample.about_room "ROOM_0001" None) "bob"
              (run Runs.game_started) "ROOM_0001" Runs.duel_room
              Hreach eq_refl eq_refl) as [Hother _].
  destruct (Hhost eq_refl) as (H1 & _ & _ & H4 & _).
  split; [exact H1|]. split; [exact H4|].
  apply Hother. intros H. discriminate H.
Defined.

(** ** The end of a connection *)

(** The entries of a dictionary after [dict_set], when its keys are
    distinct. *)
Lemma elem_of_dict_set {V} (e : string * V) k v d :
  NoDup d.*1 → e ∈ dict_set k v d → e = (k, v) ∨ (e ∈ d ∧ e.1 ≠ k).
Proof.
  induction d as [|[k' v'] d IH].
  - intros _ ->%list_elem_of_singleton. by left.
  - rewrite fmap_cons. intros [Hk Hnd]%NoDup_cons. simpl.
    destruct (decide (k = k')) as [->|Hne].
    + intros [->|He]%elem_of_cons; [by left|].
      right. split; [by right|]. intros Heq. apply Hk.
      apply list_elem_of_fmap. exists e. by rewrite Heq.
    + intros [->|He]%elem_of_cons; [right; split; [left|by simpl]|].
      destruct (IH Hnd He) as [->|[? ?]]; [by left|right; split; [by right|done]].
Qed.

Lemma format_room_id_nonempty n : format_room_id n ≠ "".
Proof. done. Qed.

(** X10. The end of the connection of a player who is in at most one room: the
    player is in no room afterwards, and is not online. *)
Theorem disconnect_leaves_only_room player_name s :
  reachable s → player_name ≠ "" →
  (∀ e1 e2, e1 ∈ rooms s → e2 ∈ rooms s →
            player_name ∈ players e1.2 → player_name ∈ players e2.2 → e1 = e2) →
  let s' := lobby_disconnect (Some player_name) s in
  (∀ e, e ∈ rooms s' → player_name ∉ players e.2) ∧
  online_players s' !! player_name = None.
Proof.
  intros Hr Hne Hone s'. split.
  2:{ unfold s'. rewrite online_players_disconnect by done. apply lookup_delete_eq. }
  pose proof (reachable_rooms_ok s Hr) as Hok.
  destruct (reachable_room_ids_ok s Hr) as [Hnd Hk].
  unfold s', lobby_disconnect. simpl.
  apply String.eqb_neq in Hne as Hne'. rewrite Hne'. simpl.
  destruct (list_find _ (rooms s)) as [[i [rid r]]|] eqn:Hfind; simpl.
  - apply list_find_Some in Hfind as (Hi & Hin & _). simpl in Hin.
    apply list_elem_of_lookup_2 in Hi as Hel.
    assert (Hrid : rid ≠ "").
    { rewrite Forall_forall in Hk. destruct (Hk rid) as (k & _ & ->).
      - apply list_elem_of_fmap. by exists (rid, r).
      - apply format_room_id_nonempty. }
    apply String.eqb_neq in Hrid as Hrid'. rewrite Hrid'.
    pose proof (dict_get_NoDup _ _ _ Hnd Hel) as Hget.
    destruct (dict_get_room_ok _ _ _ Hok Hget) as [_ Hndp].
    rewrite (leave_room_member (room_request rid) player_name s rid r
               eq_refl Hrid Hget Hin).
    assert (Hother : ∀ e, e ∈ rooms s → e.1 ≠ rid → player_name ∉ players e.2).
    { intros e He Hkey Hp. apply Hkey.
      by rewrite (Hone e (rid, r) He Hel Hp Hin). }
    destruct (bool_decide (player_name = host r)); simpl.
    + intros e [He Hkey]%elem_of_dict_del. by apply Hother.
    + destruct (list_remove_first player_name (players r)) as [|q rest] eqn:Hrem; simpl.
      * intros e [He Hkey]%elem_of_dict_del. by apply Hother.
      * intros e [->|[He Hkey]]%elem_of_dict_set; [|by apply Hother|done].
        simpl. rewrite <-Hrem. by apply not_elem_of_list_remove_first.
  - apply list_find_None in Hfind. rewrite Forall_forall in Hfind.
    intros e He. by apply Hfind.
Qed.

Lemma disconnect_leaves_only_room_witness :
  let s := run Runs.room_joined in
  let s' := lobby_disconnect (Some "bob") s in
  reachable s ∧ "bob" ≠ "" ∧
  (∀ e1 e2, e1 ∈ rooms s → e2 ∈ rooms s →
            "bob" ∈ players e1.2 → "bob" ∈ players e2.2 → e1 = e2) ∧
  (∀ e, e ∈ rooms s' → "bob" ∉ players e.2) ∧
  online_players s' !! "bob" = None.
Proof.
  assert (Hreach : reachable (run Runs.room_joined)) by by eexists.
  assert (Hne : "bob" ≠ "") by discriminate.
  assert (Hone : ∀ e1 e2, e1 ∈ rooms (run Runs.room_joined) →
                          e2 ∈ rooms (run Runs.room_joined) →
                          "bob" ∈ players e1.2 → "bob" ∈ players e2.2 → e1 = e2).
  { assert (Hrooms : rooms (run Runs.room_joined) = [("ROOM_0001", Cases.tic_room)])
      by reflexivity.
    rewrite Hrooms. intros e1 e2 H1%list_elem_of_singleton H2%list_elem_of_singleton _ _.
    congruence. }
  split; [exact Hreach|]. split; [exact Hne|]. split; [exact Hone|].
  exact (disconnect_leaves_only_room "bob" (run Runs.room_joined) Hreach Hne Hone).
Defined.

(** ** The list of online players *)

Lemma string_leb_trans s1 s2 s3 :
  String.leb s1 s2 = true → String.leb s2 s3 = true → String.leb s1 s3 = true.
Proof.
  unfold String.leb. revert s2 s3.
  induction s1 as [|a s1 IH]; intros [|b s2] [|c s3]; simpl; try done.
  unfold Ascii.compare.
  destruct (N.compare_spec (N_of_ascii a) (N_of_ascii b)),
    (N.compare_spec (N_of_ascii b) (N_of_ascii c)),
    (N.compare_spec (N_of_ascii a) (N_of_ascii c)); try done; try lia.
  apply IH.
Qed.

Lemma player_info_le_total a b :
  player_info_le a b = false → player_info_le b a = true.
Proof.
  unfold player_info_le.
  rewrite orb_false_iff, andb_false_iff, orb_true_iff, andb_true_iff.
  rewrite Nat.ltb_ge, Nat.ltb_lt, Nat.eqb_neq, Nat.eqb_eq.
  intros [Hge [Hne|Hle]]; [left; lia|].
  destruct (decide (status_order (pi_status b) = status_order (pi_status a)));
    [|left; lia].
  right. split; [done|].
  destruct (String.leb_total (pi_username a) (pi_username b)); congruence.
Qed.

Lemma player_info_le_trans a b c :
  player_info_le a b = true → player_info_le b c = true → player_info_le a c = true.
Proof.
  unfold player_info_le.
  rewrite !orb_true_iff, !andb_true_iff, !Nat.ltb_lt, !Nat.eqb_eq.
  intros [H1|[H1 L1]] [H2|[H2 L2]]; [left; lia|left; lia|left; lia|].
  right. split; [lia|]. by eapply string_leb_trans.
Qed.

Lemma insert_player_info_perm x l : insert_player_info x l ≡ₚ x :: l.
Proof.
  induction l as [|y l IH]; simpl; [done|].
  destruct (player_info_le x y); [done|]. rewrite IH. apply Permutation_swap.
Qed.

Lemma sort_player_list_perm l : sort_player_list l ≡ₚ l.
Proof.
  induction l as [|x l IH]; simpl; [done|].
  by rewrite insert_player_info_perm, IH.
Qed.

Lemma insert_player_info_sorted x l :
  Sorted player_info_order l → Sorted player_info_order (insert_player_info x l).
Proof.
  induction 1 as [|y l Hl IH Hy]; simpl; [by repeat constructor|].
  destruct (player_info_le x y) eqn:Hxy.
  - constructor; [by constructor|]. by constructor.
  - constructor; [done|].
    apply player_info_le_total in Hxy.
    destruct l as [|z l]; simpl; [by constructor|].
    destruct (player_info_le x z); constructor; [done|].
    by inversion Hy.
Qed.

Lemma sort_player_list_sorted l : Sorted player_info_order (sort_player_list l).
Proof.
  induction l as [|x l IH]; simpl; [constructor|]. by apply insert_player_info_sorted.
Qed.

Lemma sort_player_list_strongly_sorted l :
  StronglySorted player_info_order (sort_player_list l).
Proof.
  apply Sorted_StronglySorted; [|apply sort_player_list_sorted].
  intros a b c. apply player_info_le_trans.
Qed.

Lemma foldl_invariant {A B} (f : A → B → A) (P : A → Prop) l a :
  P a → (∀ a b, b ∈ l → P a → P (f a b)) → P (foldl f a l).
Proof.
  revert a. induction l as [|b l IH]; intros a Ha Hf; simpl; [done|].
  apply IH; [apply Hf; [left|done]|]. intros a' b' Hb. apply Hf. by right.
Qed.

(** An entry of [player_room_map] comes from a room that lists the player. *)
Lemma player_room_map_Some rs p rid g st h :
  player_room_map rs !! p = Some (rid, g, st, h) →
  ∃ r, (rid, r) ∈ rs ∧ p ∈ players r ∧ g = room_game_name r ∧
       st = room_status_of r ∧ h = bool_decide (p = host r).
Proof.
  unfold player_room_map. revert p rid g st h.
  apply (foldl_invariant _
    (λ m, ∀ p rid g st h, m !! p = Some (rid, g, st, h) →
          ∃ r, (rid, r) ∈ rs ∧ p ∈ players r ∧ g = room_game_name r ∧
               st = room_status_of r ∧ h = bool_decide (p = host r))).
  { intros p rid g st h. by rewrite lookup_empty. }
  intros m [rid0 r0] He Hm. simpl.
  destruct (bool_decide (room_status_of r0 ≠ finished)); [|done].
  apply (foldl_invariant _
    (λ m, ∀ p rid g st h, m !! p = Some (rid, g, st, h) →
          ∃ r, (rid, r) ∈ rs ∧ p ∈ players r ∧ g = room_game_name r ∧
               st = room_status_of r ∧ h = bool_decide (p = host r))); [done|].
  intros m' q Hq Hm' p rid g st h.
  destruct (decide (p = q)) as [->|Hne].
  - rewrite lookup_insert_eq. intros [= <- <- <- <-]. by exists r0.
  - rewrite lookup_insert_ne by done. apply Hm'.
Qed.

(** A player in a room that is not finished has an entry. *)
Lemma player_room_map_None rs p :
  player_room_map rs !! p = None →
  ∀ e, e ∈ rs → room_status_of e.2 = finished ∨ p ∉ players e.2.
Proof.
  unfold player_room_map.
  cut (∀ m : gmap string (string * string * room_status * bool),
         foldl (λ m (e : string * room),
                     if bool_decide (room_status_of e.2 ≠ finished) then
                       foldl (λ m p, <[p := (e.1, room_game_name e.2, room_status_of e.2,
                                             bool_decide (p = host e.2))]> m)
                             m (players e.2)
                     else m) m rs !! p = None →
          m !! p = None ∧
          ∀ e, e ∈ rs → room_status_of e.2 = finished ∨ p ∉ players e.2).
  { intros H Hn. by destruct (H ∅ Hn). }
  induction rs as [|e rs IH]; intros m; simpl.
  { intros Hm. split; [done|]. by intros e ?%elem_of_nil. }
  intros Hn. destruct (IH _ Hn) as [Hm Hrs].
  assert (Hin : ∀ l (m' : gmap string (string * string * room_status * bool)),
                 foldl (λ m p, <[p := (e.1, room_game_name e.2, room_status_of e.2,
                                bool_decide (p = host e.2))]> m) m' l !! p = None →
                 m' !! p = None ∧ p ∉ l).
  { clear. induction l as [|q l IH]; intros m'; simpl.
    - intros Hm. split; [done|apply not_elem_of_nil].
    - intros Hn. destruct (IH _ Hn) as [Hm Hl].
      destruct (decide (p = q)) as [->|Hne]; [by rewrite lookup_insert_eq in Hm|].
      rewrite lookup_insert_ne in Hm by done. split; [done|].
      by apply not_elem_of_cons. }
  case_bool_decide as Hf.
  - destruct (Hin _ _ Hm) as [Hm' Hp]. split; [done|].
    intros e' [->|He']%elem_of_cons; [by right|by apply Hrs].
  - split; [done|]. intros e' [->|He']%elem_of_cons; [|by apply Hrs].
    by left.
Qed.

(** X12. [list_online_players] lists the players that are online, each once,
    ordered by status (playing, in a room, idle) and then by name.  A listed
    player is idle exactly if no room lists them; otherwise the entry
    names a room that lists them, says whether they host it, and shows
    them as playing exactly if that room is playing. *)
Theorem online_players_listed s :
  ∃ l,
    handle_list_online_players s
    = (Success None (Some (OnlinePlayersReply l (List.length l))), s) ∧
    List.length l = size (online_players s) ∧
    NoDup (pi_username <$> l) ∧
    (∀ p, p ∈ pi_username <$> l ↔ is_Some (online_players s !! p)) ∧
    StronglySorted player_info_order l ∧
    (∀ a, a ∈ l →
       match pi_room a with
       | None =>
         pi_status a = status_idle ∧
         ∀ e, e ∈ rooms s → room_status_of e.2 = finished ∨ pi_username a ∉ players e.2
       | Some (rid, g, h) =>
         ∃ r, (rid, r) ∈ rooms s ∧ pi_username a ∈ players r ∧
              g = room_game_name r ∧ h = bool_decide (pi_username a = host r) ∧
              pi_status a = if bool_decide (room_status_of r = playing)
                            then status_playing else status_in_room
       end).
Proof.
  set (names := (map_to_list (online_players s)).*1).
  exists (sort_player_list (player_info_of (rooms s) <$> names)).
  assert (Hperm : pi_username <$> sort_player_list (player_info_of (rooms s) <$> names)
                  ≡ₚ names).
  { rewrite sort_player_list_perm, <-list_fmap_compose.
    rewrite <-(list_fmap_id names) at 2.
    apply (reflexive_eq (R := Permutation)), list_fmap_ext.
    intros i p _. unfold player_info_of. simpl.
    by destruct (player_room_map (rooms s) !! p) as [[[[? ?] ?] ?]|]. }
  split; [done|]. split; [|split; [|split; [|split]]].
  - rewrite <-(length_fmap pi_username), Hperm. unfold names.
    by rewrite length_fmap, length_map_to_list.
  - rewrite Hperm. apply NoDup_fst_map_to_list.
  - intros p. rewrite Hperm. unfold names. rewrite list_elem_of_fmap. split.
    + intros ([q c] & -> & Hin%elem_of_map_to_list). by eexists.
    + intros [c Hc]. exists (p, c). split; [done|]. by apply elem_of_map_to_list.
  - apply sort_player_list_strongly_sorted.
  - intros a. rewrite sort_player_list_perm. intros (p & -> & _)%list_elem_of_fmap.
    unfold player_info_of.
    destruct (player_room_map (rooms s) !! p) as [[[[rid g] st] h]|] eqn:Hm; simpl.
    + destruct (player_room_map_Some _ _ _ _ _ _ Hm) as (r & ? & ? & -> & -> & ->).
      by exists r.
    + split; [done|]. by apply player_room_map_None.
Qed.

(** ** Downloads and reviews *)

(** [handle_download_game] refuses and changes nothing, or sends the files of
    the current version and records the download. *)
Lemma download_game_cases data p s :
  (is_success (handle_download_game data p s).1 = false ∧
   (handle_download_game data p s).2 = s) ∨
  (∃ g info dir,
     req_game_name data = Some g ∧ g ≠ "" ∧
     games_metadata s !! g = Some info ∧ status info = "active" ∧
     game_dir g (version info) s = Some dir ∧
     handle_download_game data p s
     = (Success None
          (Some (DownloadReply g (version info) (pack dir) (game_config info))),
        after_download g info p s)).
Proof.
  unfold handle_download_game.
  destruct (req_game_name data) as [g|]; simpl; [|by left].
  destruct (g =? "") eqn:Hg; simpl; [by left|]. apply String.eqb_neq in Hg.
  destruct (games_metadata s !! g) as [info|] eqn:Hi; [|by left].
  destruct (status info =? "active") eqn:Hs; simpl; [|by left].
  apply String.eqb_eq in Hs.
  destruct (game_dir g (version info) s) as [dir|] eqn:Hd; [|by left].
  right. by exists g, info, dir.
Qed.






Lemma submit_review_failure data p now s :
  is_success (handle_submit_review data p now s).1 = false →
  (handle_submit_review data p now s).2 = s.
Proof. unfold handle_submit_review. handler_cases. Qed.

(** X15. A review needs a download: a player who has not downloaded the game is
    refused and nothing changes; after a download by the player a review
    with a rating from 1 to 5 is accepted. *)
Theorem review_requires_download data player_name now s name :
  req_game_name data = Some name →
  (name ∉ default [] (players_file s !! player_name) →
   is_success (handle_submit_review data player_name now s).1 = false ∧
   (handle_submit_review data player_name now s).2 = s) ∧
  (∀ request rating,
     req_game_name request = Some name →
     is_success (handle_download_game request player_name s).1 = true →
     req_rating data = Some rating → (1 <= rating <= 5)%Z →
     is_success
       (handle_submit_review data player_name now
          (handle_download_game request player_name s).2).1 = true).
Proof.
  intros Hn. split.
  - intros Hnot.
    destruct (is_success (handle_submit_review data player_name now s).1) eqn:Hok.
    + apply submit_review_success in Hok
        as (g & r & info & dl & Hg & _ & _ & _ & _ & Hp & Hin & _).
      rewrite Hn in Hg. injection Hg as <-. rewrite Hp in Hnot. done.
    + split; [done|]. by apply submit_review_failure.
  - intros request rating Hreq Hok Hrating Hrange.
    destruct (download_game_cases request player_name s)
      as [[Hfail _]|(g & info & dir & Hg & Hne & Hi & Hst & _ & Heq)];
      [congruence|].
    rewrite Hreq in Hg. injection Hg as <-. rewrite Heq. simpl.
    erewrite (submit_review_accepted data player_name now _ name rating
                (count_download info)); [done|done|done|done|done|..].
    + unfold after_download. simpl. apply lookup_insert_eq.
    + done.
    + unfold after_download. simpl. apply lookup_insert_eq.
    + case_bool_decide; [done|]. apply elem_of_app. right. left.
Qed.

Lemma review_requires_download_witness :
  let s := run Runs.downloaded in
  let data := Sample.submit_review "tic" 5 "great" in
  let request := Sample.about_game "tic" None in
  req_game_name data = Some "tic" ∧
  ("tic" ∉ default [] (players_file s !! "bob")) ∧
  is_success (handle_submit_review data "bob" "now" s).1 = false ∧
  (handle_submit_review data "bob" "now" s).2 = s ∧
  is_success (handle_download_game request "bob" s).1 = true ∧
  is_success (handle_submit_review data "bob" "now"
                (handle_download_game request "bob" s).2).1 = true.
Proof.
  assert (Hnot : "tic" ∉ default [] (players_file (run Runs.downloaded) !! "bob")).
  { assert (Hnone : default [] (players_file (run Runs.downloaded) !! "bob") = [])
      by reflexivity.
    rewrite Hnone. apply not_elem_of_nil. }
  destruct (review_requires_download (Sample.submit_review "tic" 5 "great") "bob"
              "now" (run Runs.downloaded) "tic" eq_refl) as [Hrefused Haccepted].
  destruct (Hrefused Hnot) as [H1 H2].
  split; [reflexivity|]. split; [exact Hnot|]. split; [exact H1|].
  split; [exact H2|]. split; [reflexivity|].
  apply (Haccepted (Sample.about_game "tic" None) 5%Z); [reflexivity..|lia].
Defined.

Lemma upload_existing_refused data dev now s g :
  req_game_name data = Some g → is_Some (games_metadata s !! g) →
  is_success (handle_upload_game data dev now s).1 = false ∧
  (handle_upload_game data dev now s).2 = s.
Proof.
  intros Hn [info Hi]. unfold handle_upload_game. rewrite Hn, Hi.
  repeat match goal with
         | |- context [match ?x with _ => _ end] => destruct x eqn:?
         end; done.
Qed.

(** X17. A game of the catalog changes only at the request of its developer: an
    upload under its name is refused for everyone, an update or a removal is
    refused for every other developer, and nothing changes. *)
Theorem catalog_entry_protected data developer_name now s name info :
  req_game_name data = Some name →
  games_metadata s !! name = Some info →
  (is_success (handle_upload_game data developer_name now s).1 = false ∧
   (handle_upload_game data developer_name now s).2 = s) ∧
  (developer info ≠ developer_name →
   is_success (handle_update_game data developer_name now s).1 = false ∧
   (handle_update_game data developer_name now s).2 = s ∧
   is_success (handle_remove_game data developer_name s).1 = false ∧
   (handle_remove_game data developer_name s).2 = s).
Proof.
  intros Hn Hi. split; [by apply (upload_existing_refused _ _ _ _ name)|].
  intros Hdev%String.eqb_neq.
  unfold handle_update_game, handle_remove_game. rewrite Hn. simpl.
  destruct (name =? ""); simpl.
  { repeat match goal with
           | |- context [match ?x with _ => _ end] => destruct x eqn:?
           end; done. }
  rewrite Hi, Hdev. simpl.
  repeat match goal with
         | |- context [match ?x with _ => _ end] => destruct x eqn:?
         end; done.
Qed.

Lemma catalog_entry_protected_witness :
  let s := run Runs.published in
  let data := Sample.upload "tic" "2.0.0" Sample.tic_config in
  req_game_name data = Some "tic" ∧
  games_metadata s !! "tic" = Some Cases.tic_info ∧
  developer Cases.tic_info ≠ "mallory" ∧
  (handle_upload_game data "mallory" 200 s).2 = s ∧
  is_success (handle_update_game data "mallory" 200 s).1 = false ∧
  (handle_update_game data "mallory" 200 s).2 = s ∧
  (handle_remove_game data "mallory" s).2 = s.
Proof.
  assert (Hdev : developer Cases.tic_info ≠ "mallory") by discriminate.
  destruct (catalog_entry_protected (Sample.upload "tic" "2.0.0" Sample.tic_config)
              "mallory" 200 (run Runs.published) "tic" Cases.tic_info
              eq_refl eq_refl) as [[_ Hup] Hother].
  destruct (Hother Hdev) as (H1 & H2 & _ & H4).
  split; [reflexivity|]. split; [reflexivity|]. split; [exact Hdev|].
  split; [exact Hup|]. split; [exact H1|]. split; [exact H2|exact H4].
Defined.

(** X16. Ratings stay in range: every stored review has a rating from 1 to 5,
    the stored average of a game lies between 0 and 5, and so does the
    average [get_reviews] computes, sent with the number of the reviews. *)
Theorem ratings_within_range s name data player_name :
  reachable s →
  Forall (λ r, (1 <= rating r <= 5)%Z) (reviews_of name s) ∧
  (∀ info, games_metadata s !! name = Some info →
           (0 <= average_rating info <= 5)%Q) ∧
  (∀ g l n avg,
     (handle_get_reviews data player_name s).1
     = Success None (Some (ReviewsReply g l n avg)) →
     l = reviews_of g s ∧ n = List.length l ∧ (0 <= avg <= 5)%Q).
Proof.
  intros (Hcat & Hrev & _)%reachable_catalog_ok.
  assert (Hall : ∀ g, Forall (λ r, (1 <= rating r <= 5)%Z) (reviews_of g s)).
  { intros g. unfold reviews_of.
    destruct (reviews s !! g) as [l|] eqn:Hl; simpl; [by eapply Hrev|constructor]. }
  split; [done|]. split.
  - intros info Hi. by destruct (Hcat _ _ Hi) as (_ & _ & _ & _ & _ & ?).
  - intros g l n avg. unfold handle_get_reviews.
    destruct (negb (truthy (req_game_name data))); [done|]. simpl.
    intros [= <- <- <- <-]. split; [done|]. split; [done|].
    apply (py_round_bounds _ 1 0 5), avg_rating_bounds.
    unfold ratings_of. apply Forall_fmap. apply Hall.
Qed.

Lemma ratings_within_range_witness :
  let s := run Runs.rated in
  reachable s ∧
  Forall (λ r, (1 <= rating r <= 5)%Z) (reviews_of "tic" s) ∧
  ∀ info, games_metadata s !! "tic" = Some info →
          (0 <= average_rating info <= 5)%Q.
Proof.
  assert (Hreach : reachable (run Runs.rated)) by by eexists.
  destruct (ratings_within_range (run Runs.rated) "tic"
              (Sample.about_game "tic" None) "ann" Hreach) as (H1 & H2 & _).
  split; [exact Hreach|]. split; [exact H1|exact H2].
Defined.

(** ** Changing the catalog *)






(** X20. An update whose payload is not a zip archive is refused, but not without
    trace: the catalog is as before, and the payload stays as [game.zip] in
    the directory of the version named by the request.  When that is the
    current version, the next download ships it. *)
Theorem failed_update_leaves_archive data developer_name now s name info raw err dir
    request player_name :
  req_game_name data = Some name → name ≠ "" →
  req_version data = Some (version info) → version info ≠ "" →
  req_game_files data = Some (BadZipFile raw err) →
  games_metadata s !! name = Some info →
  status info = "active" → developer info = developer_name →
  game_dir name (version info) s = Some dir →
  req_game_name request = Some name →
  let r := handle_update_game data developer_name now s in
  r.1 = Error ("Failed to save game files: " +:+ err) ∧
  games_metadata r.2 = games_metadata s ∧ rooms r.2 = rooms s ∧
  game_dir name (version info) r.2 = Some (<["game.zip" := raw]> dir) ∧
  (handle_download_game request player_name r.2).1
  = Success None
      (Some (DownloadReply name (version info) (pack (<["game.zip" := raw]> dir))
               (game_config info))).
Proof.
  intros Hn Hne%String.eqb_neq Hv Hvne%String.eqb_neq Hf Hi Hst%String.eqb_eq
    Hdev%String.eqb_eq Hd Hreq r.
  unfold r, handle_update_game.
  rewrite Hn, Hv, Hf, Hne, Hvne. simpl. rewrite Hi, Hst, Hdev. simpl.
  rewrite Hd. simpl.
  split; [done|]. split; [done|]. split; [done|].
  assert (Hdir : game_dir name (version info)
                   (write_game_dir name (version info) (<["game.zip":=raw]> dir) s)
                 = Some (<["game.zip":=raw]> dir)) by apply game_dir_write.
  split; [done|].
  unfold handle_download_game. rewrite Hreq. simpl. rewrite Hne. simpl.
  rewrite Hi, Hst. simpl. by rewrite Hdir.
Qed.

Lemma failed_update_leaves_archive_witness :
  let s := run Runs.published in
  let r := handle_update_game Cases.broken_update "dev" 200 s in
  req_game_files Cases.broken_update
  = Some (BadZipFile "not a zip" "File is not a zip file") ∧
  games_metadata s !! "tic" = Some Cases.tic_info ∧
  game_dir "tic" "1.0.0" s = Some Cases.tic_dir ∧
  r.1 = Error "Failed to save game files: File is not a zip file" ∧
  games_metadata r.2 = games_metadata s ∧
  (handle_download_game (Sample.about_game "tic" None) "ann" r.2).1
  = Success None
      (Some (DownloadReply "tic" "1.0.0"
               (pack (<["game.zip" := "not a zip"]> Cases.tic_dir))
               Sample.tic_config)).
Proof.
  assert (Hn : "tic" ≠ "") by discriminate.
  assert (Hv : version Cases.tic_info ≠ "") by discriminate.
  destruct (failed_update_leaves_archive Cases.broken_update "dev" 200
              (run Runs.published) "tic" Cases.tic_info "not a zip"
              "File is not a zip file" Cases.tic_dir
              (Sample.about_game "tic" None) "ann"
              eq_refl Hn eq_refl Hv eq_refl eq_refl eq_refl eq_refl eq_refl eq_refl)
    as (H1 & H2 & _ & _ & H5).
  split; [reflexivity|]. split; [reflexivity|]. split; [reflexivity|].
  split; [exact H1|]. split; [exact H2|exact H5].
Defined.

(** ** The developer endpoint *)

Lemma developer_request_cases db now action data developer_name s :
  let r := developer_request db now action data developer_name s in
  r.2 = s ∨
  ∃ name, developer_name = Some name ∧ name ≠ "" ∧
    (action = Some "upload_game" ∧ r.2 = (handle_upload_game data name now s).2 ∨
     action = Some "update_game" ∧ r.2 = (handle_update_game data name now s).2 ∨
     action = Some "remove_game" ∧ r.2 = (handle_remove_game data name s).2).
Proof.
  unfold developer_request.
  destruct (action_is action "login"); [by left|].
  destruct (action_is action "register"); [by left|].
  destruct developer_name as [name|]; simpl; [|by left].
  destruct (String.eqb_spec name "") as [->|Hne]; simpl; [by left|].
  destruct (action_is action "upload_game") eqn:H1.
  { right. exists name. apply action_is_true in H1. by auto. }
  destruct (action_is action "update_game") eqn:H2.
  { right. exists name. apply action_is_true in H2. by auto 6. }
  destruct (action_is action "remove_game") eqn:H3.
  { right. exists name. apply action_is_true in H3. by auto 6. }
  destruct (action_is action "list_my_games"); [by left|].
  by destruct (bool_decide _); left.
Qed.

(** X21. What a developer connection can do to the store: before a login
    everything but [login] and [register] is answered [Please login first];
    and a request changes the state only as an upload, an update or a
    removal under the name the connection is logged in as, so that every
    state it leads to is reachable. *)
Theorem developer_session db now action data developer_name s :
  let r := developer_request db now action data developer_name s in
  (action ≠ Some "login" → action ≠ Some "register" → developer_name = None →
   r = (Handled (Error "Please login first"), None, s)) ∧
  (r.2 = s ∨
   ∃ name, developer_name = Some name ∧ name ≠ "" ∧
     (action = Some "upload_game" ∧ r.2 = (handle_upload_game data name now s).2 ∨
      action = Some "update_game" ∧ r.2 = (handle_update_game data name now s).2 ∨
      action = Some "remove_game" ∧ r.2 = (handle_remove_game data name s).2)) ∧
  (r.1.2 ≠ developer_name →
   action = Some "login" ∧ r.1.2 = req_username data ∧
   ∃ message reply, db = Some (DbResponse (Success message reply))) ∧
  (reachable s → reachable r.2).
Proof.
  intros r. split; [|split; [|split]].
  - intros Hl%action_is_false Hr%action_is_false ->.
    unfold r, developer_request. by rewrite Hl, Hr.
  - apply developer_request_cases.
  - unfold r, developer_request.
    destruct (action_is action "login") eqn:Hl; simpl.
    + apply action_is_true in Hl. unfold handle_developer_login.
      destruct (negb _ || negb _); simpl; [done|].
      destruct db as [[[m|m d]|exn]|]; simpl; try done. intros _. by eauto.
    + repeat match goal with
             | |- context [if ?b then _ else _] => destruct b
             end; done.
  - intros Hr. unfold r.
    destruct (developer_request_cases db now action data developer_name s)
      as [->|(name & _ & _ & [[_ ->]|[[_ ->]|[_ ->]]])]; [done|..].
    + apply (reachable_step s (UploadGame data name now) Hr).
    + apply (reachable_step s (UpdateGame data name now) Hr).
    + apply (reachable_step s (RemoveGame data name) Hr).
Qed.

(** The catalog after an accepted upload. *)
Lemma upload_success data dev now s :
  is_success (handle_upload_game data dev now s).1 = true →
  ∃ name info,
    req_game_name data = Some name ∧ games_metadata s !! name = None ∧
    games_metadata (handle_upload_game data dev now s).2
    = <[name := info]> (games_metadata s) ∧
    developer info = dev ∧ status info = "active" ∧
    version info = get_default (req_version data) "1.0.0" ∧
    max_players info = get_default (req_max_players data) 2%Z ∧
    download_count info = 0%nat ∧ review_count info = 0%nat.
Proof.
  unfold handle_upload_game. cbv zeta.
  destruct (req_game_name data) as [g|]; [|done].
  destruct (req_game_type data) as [ty|]; [|done].
  destruct (req_game_files data) as [files|]; [|done].
  destruct (String.eqb g "" || String.eqb ty ""); [done|].
  destruct (String.eqb (strip _) ""); [done|].
  destruct (negb (contains "{host}" _) || negb (contains "{port}" _)); [done|].
  destruct (games_metadata s !! g) eqn:Hfresh; [done|].
  destruct (save_game_files files _) as [new_dir [exn|]]; simpl; [done|].
  intros _. eexists g, _. split; [done|]. split; [done|]. split; [done|]. done.
Qed.

Lemma elem_of_my_games developer_name s g :
  g ∈ (λ e : string * game_info, my_game_of e.1 e.2) <$>
        filter (λ e : string * game_info,
                  developer e.2 = developer_name ∧ status e.2 = "active")
               (map_to_list (games_metadata s))
  ↔ ∃ name info, games_metadata s !! name = Some info ∧
                 developer info = developer_name ∧ status info = "active" ∧
                 g = my_game_of name info.
Proof.
  rewrite list_elem_of_fmap. split.
  - intros ([name info] & -> & [[Hd Hs] Hin%elem_of_map_to_list]%list_elem_of_filter).
    by exists name, info.
  - intros (name & info & Hi & Hd & Hs & ->). exists (name, info). split; [done|].
    apply list_elem_of_filter. split; [done|]. by apply elem_of_map_to_list.
Qed.

(** X22. [list_my_games] lists the active games of the developer who asks, each
    once; in a reachable state these are all the games of that developer.
    A game is in the list right after its upload, at the uploaded version
    and without downloads or reviews, and in the list of no other
    developer. *)
Theorem my_games_listed developer_name s :
  ∃ l,
    handle_list_my_games developer_name s = MyGames l ∧
    NoDup (mg_game_name <$> l) ∧
    (∀ g, g ∈ l ↔
          ∃ name info, games_metadata s !! name = Some info ∧
                       developer info = developer_name ∧ status info = "active" ∧
                       g = my_game_of name info) ∧
    (reachable s →
     ∀ name info, games_metadata s !! name = Some info →
                  developer info = developer_name → my_game_of name info ∈ l) ∧
    (∀ data uploader now name,
       is_success (handle_upload_game data uploader now s).1 = true →
       req_game_name data = Some name →
       ∃ l', handle_list_my_games developer_name
               (handle_upload_game data uploader now s).2 = MyGames l' ∧
             if decide (uploader = developer_name) then
               ∃ g, g ∈ l' ∧ mg_game_name g = name ∧
                    mg_version g = get_default (req_version data) "1.0.0" ∧
                    mg_download_count g = 0%nat ∧ mg_review_count g = 0%nat
             else name ∉ mg_game_name <$> l').
Proof.
  eexists. split; [reflexivity|]. split; [|split; [|split]].
  - rewrite <-list_fmap_compose.
    apply (NoDup_fmap_2_strong _).
    + intros [n1 i1] [n2 i2] [_ H1%elem_of_map_to_list]%list_elem_of_filter
        [_ H2%elem_of_map_to_list]%list_elem_of_filter Heq.
      simpl in Heq. subst n2. rewrite H1 in H2. by injection H2 as <-.
    + apply NoDup_filter, NoDup_map_to_list.
  - apply elem_of_my_games.
  - intros [Hcat _]%reachable_catalog_ok name info Hi Hd.
    apply elem_of_my_games. exists name, info.
    destruct (Hcat _ _ Hi) as (_ & _ & Hs & _). done.
  - intros data uploader now name Hok Hn.
    destruct (upload_success _ _ _ _ Hok)
      as (name' & info & Hn' & Hfresh & Hcat & Hd & Hs & Hv & _ & Hdl & Hrc).
    rewrite Hn in Hn'. injection Hn' as <-.
    eexists. split; [reflexivity|].
    destruct (decide (uploader = developer_name)) as [Heq|Hne].
    + exists (my_game_of name info). split; [|done].
      apply elem_of_my_games. exists name, info. rewrite Hcat, lookup_insert_eq.
      split; [done|]. split; [congruence|done].
    + rewrite <-list_fmap_compose.
      intros ([n i] & Hname & [[Hdev _] Hin%elem_of_map_to_list]%list_elem_of_filter)%list_elem_of_fmap.
      simpl in *. subst n. rewrite Hcat, lookup_insert_eq in Hin.
      injection Hin as <-. congruence.
Qed.

(** ** The credential server *)

(** X23. The life of an account, in either collection: it is created once (a
    second creation under the name is refused and changes nothing, and so
    does a creation that cannot be saved); after that a login under the
    name succeeds exactly with a password that has the hash of the one given
    at creation; and the other collection does not know the name any better
    than before. *)
Theorem account_lifecycle hash_password collection other data now saved db name password :
  (collection = "Developer" ∧ other = "Player") ∨
  (collection = "Player" ∧ other = "Developer") →
  req_username data = Some name → name ≠ "" →
  req_password data = Some password → password ≠ "" →
  let r := handle_request hash_password (db_create_request collection data) now saved db in
  (is_Some (accounts_of collection db !! name) →
   db_is_success r.1 = false ∧ r.2 = db) ∧
  (saved = false → db_is_success r.1 = false ∧ r.2 = db) ∧
  (accounts_of collection db !! name = None → saved = true →
   (∃ message, r.1 = DbSuccess message (DbName name)) ∧
   accounts_of other r.2 = accounts_of other db ∧
   (∀ someone, someone ≠ name →
      accounts_of collection r.2 !! someone = accounts_of collection db !! someone) ∧
   (∀ attempt tried now' saved',
      req_username attempt = Some name →
      req_password attempt = Some tried → tried ≠ "" →
      (handle_request hash_password (db_login_request collection attempt)
         now' saved' r.2).1
      = (if decide (hash_password tried = hash_password password)
         then DbSuccess (Some "Login success") (DbName name)
         else DbError "Wrong password") ∧
      (handle_request hash_password (db_login_request other attempt)
         now' saved' r.2).1
      = (handle_request hash_password (db_login_request other attempt)
           now' saved' db).1)).
Proof.
  intros Hc Hn Hne%String.eqb_neq Hp Hpe%String.eqb_neq r.
  assert (Hlogin : ∀ attempt tried now' saved' db',
    req_username attempt = Some name →
    req_password attempt = Some tried → tried ≠ "" →
    ∀ c, c = "Developer" ∨ c = "Player" →
    (handle_request hash_password (db_login_request c attempt) now' saved' db').1
    = match accounts_of c db' !! name with
      | None => DbError (if String.eqb c "Developer" then "Developer not found"
                         else "Player not found")
      | Some a =>
        if negb (String.eqb (acc_password_hash a) (hash_password tried))
        then DbError "Wrong password"
        else DbSuccess (Some "Login success") (DbName name)
      end).
  { intros attempt tried now' saved' db' Hu Ht Hte%String.eqb_neq c [->| ->];
      unfold handle_request, developer_query, player_query, accounts_of; simpl;
      rewrite Hu, Ht; simpl; rewrite Hne, Hte; simpl.
    - destruct (db_developers db' !! name) as [a|]; [|done].
      by destruct (negb _).
    - destruct (db_players db' !! name) as [a|]; [|done].
      by destruct (negb _). }
  assert (Hr : r = match accounts_of collection db !! name with
                   | Some _ =>
                     (DbError (if String.eqb collection "Developer"
                               then "Developer already exists"
                               else "Player already exists"), db)
                   | None =>
                     let a := {| acc_name := name;
                                 acc_password_hash := hash_password password;
                                 acc_created_at := now; acc_last_login_at := None;
                                 acc_items := [] |} in
                     if saved then
                       if String.eqb collection "Developer" then
                         (DbSuccess (Some "Developer created") (DbName name),
                          set_db_developers (<[name := a]> (db_developers db)) db)
                       else
                         (DbSuccess (Some "Player created") (DbName name),
                          set_db_players (<[name := a]> (db_players db)) db)
                     else
                       (DbError (if String.eqb collection "Developer"
                                 then "Failed to save developer"
                                 else "Failed to save player"), db)
                   end).
  { destruct Hc as [[-> ->]|[-> ->]];
      unfold r, handle_request, developer_create, player_create, accounts_of; simpl;
      rewrite Hn, Hp; simpl; rewrite Hne, Hpe; simpl.
    - destruct (db_developers db !! name); [done|]. by destruct saved.
    - destruct (db_players db !! name); [done|]. by destruct saved. }
  clearbody r. subst r.
  split; [by intros [a ->]|]. split.
  { intros ->. by destruct (accounts_of collection db !! name). }
  intros -> ->. cbv zeta.
  destruct Hc as [[-> ->]|[-> ->]]; simpl.
  - split; [by eauto|]. split; [done|].
    unfold accounts_of. simpl.
    split; [intros someone Hs; by rewrite lookup_insert_ne|].
    intros attempt tried now' saved' Hu Ht Hte. split.
    + rewrite (Hlogin _ tried) by auto. unfold accounts_of. simpl.
      rewrite lookup_insert_eq. simpl.
      destruct (decide (hash_password tried = hash_password password)) as [->|Hh].
      * by rewrite String.eqb_refl.
      * apply not_eq_sym, String.eqb_neq in Hh. by rewrite Hh.
    + by rewrite !(Hlogin _ tried) by auto.
  - split; [by eauto|]. split; [done|].
    unfold accounts_of. simpl.
    split; [intros someone Hs; by rewrite lookup_insert_ne|].
    intros attempt tried now' saved' Hu Ht Hte. split.
    + rewrite (Hlogin _ tried) by auto. unfold accounts_of. simpl.
      rewrite lookup_insert_eq. simpl.
      destruct (decide (hash_password tried = hash_password password)) as [->|Hh].
      * by rewrite String.eqb_refl.
      * apply not_eq_sym, String.eqb_neq in Hh. by rewrite Hh.
    + by rewrite !(Hlogin _ tried) by auto.
Qed.

Lemma account_lifecycle_witness :
  let data := Sample.login "ann" "secret" in
  let r := handle_request Cases.toy_hash (db_create_request "Player" data) 10 true
             Cases.empty_database in
  req_username data = Some "ann" ∧ req_password data = Some "secret" ∧
  accounts_of "Player" Cases.empty_database !! "ann" = None ∧
  (∃ message, r.1 = DbSuccess message (DbName "ann")) ∧
  accounts_of "Developer" r.2 = accounts_of "Developer" Cases.empty_database ∧
  db_is_success
    (handle_request Cases.toy_hash (db_create_request "Player" data) 20 true r.2).1
  = false.
Proof.
  assert (Hn : "ann" ≠ "") by discriminate.
  assert (Hp : "secret" ≠ "") by discriminate.
  destruct (account_lifecycle Cases.toy_hash "Player" "Developer"
              (Sample.login "ann" "secret") 10 true Cases.empty_database
              "ann" "secret" (or_intror (conj eq_refl eq_refl))
              eq_refl Hn eq_refl Hp) as (_ & _ & Hnew).
  destruct (Hnew eq_refl eq_refl) as (H1 & H2 & _).
  destruct (account_lifecycle Cases.toy_hash "Player" "Developer"
              (Sample.login "ann" "secret") 20 true
              (handle_request Cases.toy_hash
                 (db_create_request "Player" (Sample.login "ann" "secret")) 10 true
                 Cases.empty_database).2
              "ann" "secret" (or_intror (conj eq_refl eq_refl))
              eq_refl Hn eq_refl Hp) as (Hdup & _).
  destruct Hdup as [H3 _]; [by eexists|].
  split; [reflexivity|]. split; [reflexivity|]. split; [reflexivity|].
  split; [exact H1|]. split; [exact H2|exact H3].
Defined.

(** X24. Registering and then logging in, end to end: the store server passes
    the request on to the credential server and reads its answer.  A player
    who registers a new name and logs in with the same password is online
    under that name; a developer who does so has the connection bound to
    the name. *)
Theorem register_then_login hash_password conn e1 e2 data now now' saved' db s name password :
  req_username data = Some name → name ≠ "" →
  req_password data = Some password → password ≠ "" →
  online_players s !! name = None →
  (db_players db !! name = None →
   let created := handle_request hash_password (db_create_request "Player" data)
                    now true db in
   let checked := handle_request hash_password (db_login_request "Player" data)
                    now' saved' created.2 in
   env_db e1 = DbResponse (db_to_response created.1) →
   env_db e2 = DbResponse (db_to_response checked.1) →
   let r1 := lobby_request conn e1 (Some "register") data None s in
   let r2 := lobby_request conn e2 (Some "login") data r1.1.2 r1.2 in
   r1 = (Success (Some "Player created") (Some (NameReply name)), None, s) ∧
   r2 = (Success (Some "Login successful") None, Some name,
         set_online_players (<[name := conn]> (online_players s)) s)) ∧
  (db_developers db !! name = None →
   let created := handle_request hash_password (db_create_request "Developer" data)
                    now true db in
   let checked := handle_request hash_password (db_login_request "Developer" data)
                    now' saved' created.2 in
   let r1 := developer_request (Some (DbResponse (db_to_response created.1))) now
               (Some "register") data None s in
   let r2 := developer_request (Some (DbResponse (db_to_response checked.1))) now'
               (Some "login") data r1.1.2 r1.2 in
   r1 = (Handled (Success (Some "Developer created") (Some (NameReply name))), None, s) ∧
   r2 = (Handled (Success (Some "Login success") (Some (NameReply name))),
         Some name, s)).
Proof.
  intros Hn Hne%String.eqb_neq Hp Hpe%String.eqb_neq Hoff. split.
  - intros Hnew created checked He1 He2 r1 r2.
    assert (Hc : created = (DbSuccess (Some "Player created") (DbName name),
                  set_db_players
                    (<[name := {| acc_name := name;
                                  acc_password_hash := hash_password password;
                                  acc_created_at := now; acc_last_login_at := None;
                                  acc_items := [] |}]> (db_players db)) db)).
    { unfold created, handle_request, player_create. simpl.
      rewrite Hn, Hp. simpl. rewrite Hne, Hpe. simpl. by rewrite Hnew. }
    assert (Hk : checked.1 = DbSuccess (Some "Login success") (DbName name)).
    { unfold checked. rewrite Hc. unfold handle_request, player_query. simpl.
      rewrite Hn, Hp. simpl. rewrite Hne, Hpe. simpl.
      rewrite lookup_insert_eq. simpl. by rewrite String.eqb_refl. }
    rewrite Hc in He1. rewrite Hk in He2. simpl in He1, He2.
    assert (H1 : r1 = (Success (Some "Player created") (Some (NameReply name)), None, s)).
    { unfold r1, lobby_request. simpl. rewrite Hn, Hp. simpl.
      rewrite Hne, Hpe. simpl. by rewrite He1. }
    split; [done|]. unfold r2. rewrite H1. unfold lobby_request. simpl.
    rewrite Hn, Hp. simpl. rewrite Hne, Hpe. simpl. rewrite He2. simpl.
    by rewrite Hoff.
  - intros Hnew created checked r1 r2.
    assert (Hc : created = (DbSuccess (Some "Developer created") (DbName name),
                  set_db_developers
                    (<[name := {| acc_name := name;
                                  acc_password_hash := hash_password password;
                                  acc_created_at := now; acc_last_login_at := None;
                                  acc_items := [] |}]> (db_developers db)) db)).
    { unfold created, handle_request, developer_create. simpl.
      rewrite Hn, Hp. simpl. rewrite Hne, Hpe. simpl. by rewrite Hnew. }
    assert (Hk : checked.1 = DbSuccess (Some "Login success") (DbName name)).
    { unfold checked. rewrite Hc. unfold handle_request, developer_query. simpl.
      rewrite Hn, Hp. simpl. rewrite Hne, Hpe. simpl.
      rewrite lookup_insert_eq. simpl. by rewrite String.eqb_refl. }
    assert (H1 : r1 = (Handled (Success (Some "Developer created")
                                  (Some (NameReply name))), None, s)).
    { unfold r1. rewrite Hc. unfold developer_request, handle_developer_register.
      simpl. rewrite Hn, Hp. simpl. by rewrite Hne, Hpe. }
    split; [done|]. unfold r2. rewrite H1, Hk.
    unfold developer_request, handle_developer_login. simpl.
    rewrite Hn, Hp. simpl. by rewrite Hne, Hpe.
Qed.

Lemma register_then_login_witness :
  let data := Sample.login "ann" "secret" in
  let r1 := lobby_request 1 Cases.env_created (Some "register") data None
              initial_server in
  let r2 := lobby_request 1 Cases.env_checked (Some "login") data r1.1.2 r1.2 in
  req_username data = Some "ann" ∧ req_password data = Some "secret" ∧
  online_players initial_server !! "ann" = None ∧
  db_players Cases.empty_database !! "ann" = None ∧
  r1 = (Success (Some "Player created") (Some (NameReply "ann")), None,
        initial_server) ∧
  r2 = (Success (Some "Login successful") None, Some "ann",
        set_online_players (<["ann" := 1%nat]> (online_players initial_server))
          initial_server).
Proof.
  assert (Hn : "ann" ≠ "") by discriminate.
  assert (Hp : "secret" ≠ "") by discriminate.
  destruct (register_then_login Cases.toy_hash 1 Cases.env_created Cases.env_checked
              (Sample.login "ann" "secret") 10 20 true Cases.empty_database
              initial_server "ann" "secret" eq_refl Hn eq_refl Hp eq_refl)
    as [Hplayer _].
  destruct (Hplayer eq_refl eq_refl eq_refl) as [H1 H2].
  split; [reflexivity|]. split; [reflexivity|]. split; [reflexivity|].
  split; [reflexivity|]. split; [exact H1|exact H2].
Defined.

(** ** Frames *)

Lemma from_bytes_to_bytes4 n header :
  to_bytes4 n = Some header → from_bytes header = n ∧ List.length header = 4%nat.
Proof.
  unfold to_bytes4. destruct (N.ltb_spec n (2 ^ 32)) as [Hn|]; [|done].
  intros [= <-]. split; [|done]. unfold from_bytes. simpl.
  assert (n / 2 ^ 24 < 256)%N.
  { apply N.Div0.div_lt_upper_bound. lia. }
  rewrite !N_ascii_embedding by (done || by apply N.mod_lt).
  pose proof (N.div_mod n (2 ^ 8) ltac:(done)).
  pose proof (N.div_mod (n / 2 ^ 8) (2 ^ 8) ltac:(done)).
  pose proof (N.div_mod (n / 2 ^ 8 / 2 ^ 8) (2 ^ 8) ltac:(done)).
  rewrite !N.Div0.div_div in *.
  change (2 ^ 8 * 2 ^ 8)%N with (2 ^ 16)%N in *.
  change (2 ^ 16 * 2 ^ 8)%N with (2 ^ 24)%N in *.
  change (2 ^ 8)%N with 256%N in *.
  assert (n / 2 ^ 24 mod 256 = n / 2 ^ 24)%N as Hs by (by apply N.mod_small).
  lia.
Qed.

Lemma recv_some n sock :
  (0 < n)%nat →
  ∃ k, (0 < k <= n)%nat ∧
       recv n sock = (take k (incoming sock),
                      {| incoming := drop k (incoming sock);
                         deliveries := tail (deliveries sock) |}).
Proof.
  intros Hn. unfold recv.
  destruct (deliveries sock) as [|d ds]; simpl.
  - exists n. split; [lia|done].
  - exists (n `min` Pos.to_nat d). split; [lia|done].
Qed.

(** When the bytes asked for are there, the loop returns them and leaves the
    rest of the stream, in at most as many turns as bytes are missing. *)
Lemma recv_exactly_ok fuel length data wanted rest ds :
  List.length data + List.length wanted = length →
  (List.length wanted <= fuel)%nat →
  ∃ ds', recv_exactly fuel length data {| incoming := wanted ++ rest; deliveries := ds |}
         = (Some (data ++ wanted)%list, {| incoming := rest; deliveries := ds' |}).
Proof.
  revert data wanted ds. induction fuel as [|fuel IH]; intros data wanted ds Hlen Hfuel.
  - destruct wanted; [|simpl in Hfuel; lia]. simpl.
    rewrite (proj2 (Nat.ltb_ge _ _)) by (simpl in Hlen; lia).
    rewrite app_nil_r. by eexists.
  - destruct wanted as [|a wanted].
    { simpl. rewrite (proj2 (Nat.ltb_ge _ _)) by (simpl in Hlen; lia).
      rewrite app_nil_r. by eexists. }
    cbn [recv_exactly]. rewrite (proj2 (Nat.ltb_lt _ _)) by (simpl in Hlen; lia).
    destruct (recv_some (length - List.length data)
                {| incoming := (a :: wanted) ++ rest; deliveries := ds |})
      as (k & Hk & ->); [simpl in Hlen; lia|].
    cbn [incoming deliveries].
    assert (Hk' : (k <= List.length (a :: wanted))%nat) by (simpl in *; lia).
    rewrite take_app_le, drop_app_le by done.
    destruct (take k (a :: wanted)) as [|b chunk] eqn:Htake.
    { apply (f_equal List.length) in Htake. rewrite length_take in Htake.
      simpl in *. lia. }
    rewrite <-Htake.
    destruct (IH (data ++ take k (a :: wanted))%list (drop k (a :: wanted)) (tail ds))
      as [ds' Heq].
    + rewrite length_app, length_take, length_drop. simpl in *. lia.
    + rewrite length_drop. simpl in *. lia.
    + exists ds'. rewrite Heq. by rewrite <-app_assoc, take_drop.
Qed.

(** The loop never runs out of turns: with at least as many turns as bytes
    are missing, the result does not depend on their number. *)
Lemma recv_exactly_fuel fuel fuel' length data sock :
  (length - List.length data <= fuel)%nat → (length - List.length data <= fuel')%nat →
  recv_exactly fuel length data sock = recv_exactly fuel' length data sock.
Proof.
  revert fuel' data sock. induction fuel as [|fuel IH]; intros fuel' data sock H1 H2.
  - destruct fuel'; simpl; [done|].
    by rewrite (proj2 (Nat.ltb_ge _ _)) by lia.
  - destruct fuel' as [|fuel'].
    { simpl. by rewrite (proj2 (Nat.ltb_ge _ _)) by lia. }
    cbn [recv_exactly]. destruct (Nat.ltb_spec (List.length data) length); [|done].
    destruct (recv _ sock) as [chunk sock'] eqn:Hrecv.
    destruct chunk as [|a chunk]; [done|].
    apply IH; rewrite length_app; simpl; lia.
Qed.

(** X25. Frames of the Tetris copy of [lpfp.py]: a payload shorter than 2^32
    bytes is sent as four bytes of length and the payload, a longer one is
    not sent.  What was sent is received whole, however the network cuts
    the stream, and the bytes after the frame stay for the next call;
    unless the payload is longer than 10 MiB: then the receiver gives up
    after the header. *)
Theorem tetris_frames payload rest ds :
  let n := N.of_nat (List.length payload) in
  (n < 2 ^ 32 →
   ∃ header, List.length header = 4%nat ∧ from_bytes header = n ∧
             Tetris.send_frame payload = (true, header ++ payload)%list)%N ∧
  (2 ^ 32 <= n → Tetris.send_frame payload = (false, []))%N ∧
  (∀ sent, Tetris.send_frame payload = (true, sent) →
     ∃ ds',
       Tetris.recv_frame {| incoming := sent ++ rest; deliveries := ds |}
       = if (n <=? 10 * 1024 * 1024)%N then
           (Some payload, {| incoming := rest; deliveries := ds' |})
         else
           (None, {| incoming := payload ++ rest; deliveries := ds' |})).
Proof.
  intros n. unfold Tetris.send_frame. fold n.
  destruct (to_bytes4 n) as [header|] eqn:Hh.
  - destruct (from_bytes_to_bytes4 _ _ Hh) as [Hn Hlen].
    split; [intros _; by exists header|]. split.
    { unfold to_bytes4 in Hh. intros Hbig.
      by rewrite (proj2 (N.ltb_ge _ _) Hbig) in Hh. }
    intros sent [= <-]. unfold Tetris.recv_frame. rewrite <-app_assoc.
    destruct (recv_exactly_ok 4 4 [] header (payload ++ rest) ds)
      as [ds1 ->]; [by rewrite Hlen|lia|]. simpl. rewrite Hn.
    destruct (N.leb_spec n (10 * 1024 * 1024)) as [Hle|Hgt].
    + rewrite (proj2 (N.ltb_ge _ _)) by done.
      destruct (recv_exactly_ok (N.to_nat n) (N.to_nat n) [] payload rest ds1)
        as [ds2 ->]; [unfold n; simpl; lia|unfold n; lia|].
      by exists ds2.
    + rewrite (proj2 (N.ltb_lt _ _)) by done. by exists ds1.
  - split; [|done]. intros Hsmall. unfold to_bytes4 in Hh.
    by rewrite (proj2 (N.ltb_lt _ _) Hsmall) in Hh.
Qed.

(** X26. Frames of the Number Bomb copy of [lpfp.py]: the receiver reads the
    header with one call of [recv].  A frame is received whole when that
    call hands over the four bytes; when the network delivers fewer, the
    receiver answers [None] although the frame is complete. *)
Theorem bomb_frames data rest ds sent :
  Bomb.send_frame data = Some sent →
  let sock := {| incoming := sent ++ rest; deliveries := ds |} in
  (N.of_nat (List.length data) < 2 ^ 32)%N ∧
  (match ds with d :: _ => (4 <= Pos.to_nat d)%nat | [] => True end →
   ∃ ds', Bomb.recv_frame sock
          = (Some data, {| incoming := rest; deliveries := ds' |})) ∧
  (match ds with d :: _ => (Pos.to_nat d < 4)%nat | [] => False end →
   (Bomb.recv_frame sock).1 = None).
Proof.
  unfold Bomb.send_frame.
  destruct (to_bytes4 _) as [header|] eqn:Hh; [|done]. simpl. intros [= <-].
  destruct (from_bytes_to_bytes4 _ _ Hh) as [Hn Hlen].
  split.
  { unfold to_bytes4 in Hh. by destruct (N.ltb_spec (N.of_nat (List.length data)) (2 ^ 32)). }
  unfold Bomb.recv_frame, recv. cbn [incoming deliveries].
  rewrite <-app_assoc. split.
  - intros Hd.
    assert (Hk : (match ds with d :: _ => 4 `min` Pos.to_nat d | [] => 4 end = 4)%nat).
    { destruct ds; lia. }
    rewrite Hk. rewrite take_app_length', drop_app_length' by done.
    rewrite Hlen. simpl. rewrite Hn, Nat2N.id.
    destruct (recv_exactly_ok (List.length data) (List.length data) [] data rest (tail ds))
      as [ds' ->]; [done|lia|]. by exists ds'.
  - destruct ds as [|d ds']; [done|]. intros Hd.
    rewrite length_take.
    rewrite (proj2 (Nat.ltb_lt _ _)); [done|]. lia.
Qed.

Lemma bomb_frames_witness :
  let sock := {| incoming := Cases.hi_frame; deliveries := [2%positive] |} in
  let whole := {| incoming := Cases.hi_frame; deliveries := [] |} in
  Bomb.send_frame ["h"; "i"]%char = Some Cases.hi_frame ∧
  (Bomb.recv_frame sock).1 = None ∧
  ∃ ds', Bomb.recv_frame whole
         = (Some ["h"; "i"]%char, {| incoming := []; deliveries := ds' |}).
Proof.
  destruct (bomb_frames ["h"; "i"]%char [] [2%positive] Cases.hi_frame eq_refl)
    as (_ & _ & Hshort).
  destruct (bomb_frames ["h"; "i"]%char [] [] Cases.hi_frame eq_refl)
    as (_ & Hwhole & _).
  split; [reflexivity|]. split.
  - apply Hshort. simpl. lia.
  - apply Hwhole. exact I.
Defined.

(** ** Whole connections *)

Lemma lobby_request_anonymous conn e action data player_name s :
  player_name = None → action ≠ Some "login" →
  (lobby_request conn e action data player_name s).1.2 = None ∧
  (lobby_request conn e action data player_name s).2 = s.
Proof.
  intros -> Hl%action_is_false. unfold lobby_request. rewrite Hl.
  destruct (action_is action "list_games"); [done|].
  destruct (action_is action "get_game_info").
  { simpl. by rewrite get_game_info_state. }
  destruct (action_is action "register"); [|done].
  destruct (negb _); [done|]. by destruct (env_db e).
Qed.

Lemma lobby_request_session conn e action data player_name s :
  (∀ name, player_name = Some name → name ≠ "") →
  ∀ name, (lobby_request conn e action data player_name s).1.2 = Some name →
          name ≠ "".
Proof.
  intros Hp name. unfold lobby_request.
  repeat match goal with
         | |- context [if ?b then _ else _] => destruct b eqn:?
         | |- context [match ?x with _ => _ end] => destruct x eqn:?
         end; cbv zeta beta; cbn [fst snd]; try (by apply Hp); try done.
  intros [= <-].
  match goal with H : negb (truthy (req_username data) && _) = false |- _ =>
    apply negb_false_iff, andb_true_iff in H as [Hu _] end.
  destruct (req_username data) as [u|]; [|done]. simpl in *.
  apply negb_true_iff in Hu. by apply String.eqb_neq.
Qed.

(** Requests leave [online_players] alone, a successful login apart. *)
Lemma online_players_request conn e action data player_name s :
  let r := lobby_request conn e action data player_name s in
  online_players r.2 = online_players s ∨
  ∃ username, online_players s !! username = None ∧
              online_players r.2 = <[username := conn]> (online_players s).
Proof.
  unfold lobby_request.
  repeat match goal with
         | |- context [if ?b then _ else _] => destruct b eqn:?
         | |- context [match ?x with _ => _ end] => destruct x eqn:?
         end; cbv zeta beta; cbn [fst snd]; try (by left);
    try (right; by eexists).
  all: left.
  - by rewrite get_game_info_state.
  - unfold handle_download_game. handler_cases.
  - unfold handle_submit_review. handler_cases.
  - unfold handle_create_room. handler_cases.
  - unfold handle_get_room_status. handler_cases.
  - unfold handle_get_reviews. handler_cases.
  - unfold handle_join_room. handler_cases.
  - apply online_players_leave.
  - unfold handle_start_game, _actually_start_game. handler_cases.
  - unfold handle_player_ready, _actually_start_game. handler_cases.
  - unfold handle_cancel_ready_check. handler_cases.
  - unfold handle_reset_room. handler_cases.
Qed.

Lemma lobby_loop_spec conn frames player_name s :
  let r := lobby_loop conn frames player_name s in
  (reachable s → reachable r.2) ∧
  ((∀ name, player_name = Some name → name ≠ "") →
   ∀ name, r.1.2 = Some name → name ≠ "") ∧
  (player_name = None → no_login frames → r.1.2 = None ∧ r.2 = s) ∧
  (∀ name c, online_players s !! name = Some c →
             online_players r.2 !! name = Some c) ∧
  length r.1.1 = length frames.
Proof.
  revert player_name s. induction frames as [|[[|ct action data] e] frames IH];
    intros player_name s; simpl.
  - done.
  - specialize (IH player_name s).
    destruct (lobby_loop conn frames player_name s) as [[out p] s'].
    simpl in *. destruct IH as (H1 & H2 & H3 & H4 & H5).
    split; [done|]. split; [done|]. split; [|split; [done|by f_equal]].
    intros Hp [_ Hf]%Forall_cons. by apply H3.
  - pose proof (lobby_request_session conn e action data player_name s) as Hs.
    pose proof (lobby_request_anonymous conn e action data player_name s) as Ha.
    pose proof (online_players_request conn e action data player_name s) as Ho.
    pose proof (reachable_step s (LobbyRequest conn e action data player_name)) as Hr.
    simpl in Hr, Ho.
    destruct (lobby_request conn e action data player_name s) as [[r p1] s1].
    specialize (IH p1 s1).
    destruct (lobby_loop conn frames p1 s1) as [[out p] s'].
    simpl in *. destruct IH as (H1 & H2 & H3 & H4 & H5).
    split; [by auto|]. split; [by auto|].
    split; [|split; [|by f_equal]].
    + intros Hp [Hact Hf]%Forall_cons. simpl in Hact.
      destruct (Ha Hp Hact) as [-> ->]. by apply H3.
    + intros name c Hc. apply H4.
      destruct Ho as [->|(username & Hnew & ->)]; [done|].
      rewrite lookup_insert_ne; [done|]. intros ->. congruence.
Qed.

(** X27. A connection of a player client, from the handshake to the cleanup.
    Unless the first frame is a JSON object whose [client_type] is
    [player], at most one error is sent and nothing is handled.  Otherwise
    the handshake and every frame are answered, one response each.  Every
    state the connection leaves is reachable.  When it ends, the name it is
    bound to is offline; the other names that were online still are, on the
    same connection as before.  A connection that never asks for a login
    changes nothing, whatever else it sends. *)
Theorem lobby_connection conn handshake frames s :
  let r := handle_lobby_client conn handshake frames s in
  let accepted := ∃ action data, handshake = Some (Json (Some "player") action data) in
  let session := (lobby_loop conn frames None s).1.2 in
  (reachable s → reachable r.2) ∧
  (¬ accepted → r.2 = s ∧ (r.1 = [] ∨ ∃ message, r.1 = [Reply (Error message)])) ∧
  (accepted →
   (∃ responses, r.1 = Welcome "Connected to Lobby Server" "lobby"
                        :: (Reply <$> responses) ∧
                 length responses = length frames) ∧
   (∀ name, session = Some name → online_players r.2 !! name = None) ∧
   (∀ name c, online_players s !! name = Some c → session ≠ Some name →
              online_players r.2 !! name = Some c) ∧
   (no_login frames → r.2 = s)).
Proof.
  intros r accepted session. unfold r, accepted, session, handle_lobby_client.
  destruct (lobby_loop_spec conn frames None s) as (Hreach & Hname & Hanon & Hon & Hlen).
  destruct handshake as [[|ct action data]|]; simpl.
  1,3: split; [done|]; split; [by auto|]; by intros (? & ? & ?).
  destruct (decide (ct = Some "player")) as [->|Hct].
  - rewrite bool_decide_eq_true_2 by done. simpl.
    destruct (lobby_loop conn frames None s) as [[out p] s']. simpl in *.
    split; [|split].
    + intros Hr. apply (reachable_step s' (LobbyDisconnect p)). by apply Hreach.
    + intros []. by eauto.
    + intros _. split; [by exists out|]. split; [|split].
      * intros name ->. rewrite online_players_disconnect; [apply lookup_delete_eq|].
        by apply Hname.
      * intros name c Hc Hp. apply Hon in Hc.
        destruct p as [p|]; [|done].
        rewrite online_players_disconnect by (by apply Hname).
        rewrite lookup_delete_ne; [done|]. congruence.
      * intros Hno. by destruct (Hanon eq_refl Hno) as [-> ->].
  - rewrite bool_decide_eq_false_2 by done. simpl.
    split; [done|]. split; [by eauto|]. intros (? & ? & [= ? _ _]). done.
Qed.





